(** * Metadata-propagating tracer: torch/fx/experimental/meta_tracer.py

    A shallow embedding of the module and the properties of its
    specification.  Python values are a small inductive type; objects with
    identity (proxies, functions, tensors, modules) are referred to by an
    identifier, so that equality of two values of the model is identity of
    the objects they stand for.  Mutable state (the graph being built, the
    attributes of the proxies, the attributes of the tracer, the namespace
    of the [torch] module, the attributes of the root module, the warnings
    emitted) is threaded explicitly; a raised exception keeps the state
    reached when it was raised. *)

From stdpp Require Import base option list gmap strings pretty.
From Stdlib Require Import ZArith Ascii.

Set Warnings "-register-all".

(** ** Python values *)

Inductive value : Type :=
| VNone
| VBool (b : bool)
| VInt (z : Z)
| VStr (s : string)
| VTuple (l : list value)
| VList (l : list value)
| VDict (d : list (string * value))
| VProxy (p : nat)                      (* a proxy object, by its address in the heap *)
| VWrapper (id : nat) (target : value)  (* a function made by [gen_constructor_wrapper] *)
| VObj (o : nat).                       (* any other host object: a function, a tensor, ... *)

(** Induction principle that also goes through the containers. *)
Section value_ind_nested.
Variable P : value → Prop.
Hypothesis HNone : P VNone.
Hypothesis HBool : ∀ b, P (VBool b).
Hypothesis HInt : ∀ z, P (VInt z).
Hypothesis HStr : ∀ s, P (VStr s).
Hypothesis HTuple : ∀ l, Forall P l → P (VTuple l).
Hypothesis HList : ∀ l, Forall P l → P (VList l).
Hypothesis HDict : ∀ d, Forall (λ kv, P kv.2) d → P (VDict d).
Hypothesis HProxy : ∀ p, P (VProxy p).
Hypothesis HWrapper : ∀ id t, P t → P (VWrapper id t).
Hypothesis HObj : ∀ o, P (VObj o).

Fixpoint value_ind_nested (v : value) : P v :=
  match v with
  | VNone => HNone
  | VBool b => HBool b
  | VInt z => HInt z
  | VStr s => HStr s
  | VTuple l =>
      HTuple l ((fix go (l : list value) : Forall P l :=
                   match l with
                   | [] => Forall_nil_2 P
                   | x :: r => Forall_cons_2 P x r (value_ind_nested x) (go r)
                   end) l)
  | VList l =>
      HList l ((fix go (l : list value) : Forall P l :=
                  match l with
                  | [] => Forall_nil_2 P
                  | x :: r => Forall_cons_2 P x r (value_ind_nested x) (go r)
                  end) l)
  | VDict d =>
      HDict d ((fix go (d : list (string * value)) : Forall (λ kv, P kv.2) d :=
                  match d with
                  | [] => Forall_nil_2 _
                  | kv :: r => Forall_cons_2 (λ kv, P kv.2) kv r (value_ind_nested kv.2) (go r)
                  end) d)
  | VProxy p => HProxy p
  | VWrapper id t => HWrapper id t (value_ind_nested t)
  | VObj o => HObj o
  end.
End value_ind_nested.

(** Equality of values, as used by [in] on a set of functions: identity on
    objects, structural on the immutable data. *)
Fixpoint value_eqb (a b : value) : bool :=
  match a, b with
  | VNone, VNone => true
  | VBool x, VBool y => bool_decide (x = y)
  | VInt x, VInt y => bool_decide (x = y)
  | VStr x, VStr y => bool_decide (x = y)
  | VTuple l, VTuple m | VList l, VList m =>
      (fix go (l m : list value) : bool :=
         match l, m with
         | [], [] => true
         | x :: l', y :: m' => value_eqb x y && go l' m'
         | _, _ => false
         end) l m
  | VDict d, VDict e =>
      (fix go (d e : list (string * value)) : bool :=
         match d, e with
         | [], [] => true
         | (k, x) :: d', (k', y) :: e' => bool_decide (k = k') && value_eqb x y && go d' e'
         | _, _ => false
         end) d e
  | VProxy p, VProxy q => bool_decide (p = q)
  | VWrapper i t, VWrapper j u => bool_decide (i = j) && value_eqb t u
  | VObj o, VObj o' => bool_decide (o = o')
  | _, _ => false
  end.

(** ** Exceptions and the monad of the tracer *)

Inductive exn_kind : Type :=
| AssertionError | NameError | AttributeError | TypeError
| RuntimeError | IndexError | KeyError | ReferenceError.

Global Instance exn_kind_eq_dec : EqDecision exn_kind.
Proof. solve_decision. Defined.

Record exn : Type := Exn { exn_kind_of : exn_kind; exn_msg : string }.

Inductive result (A : Type) : Type :=
| Ok (a : A)
| Raise (e : exn).
Global Arguments Ok {A} a.
Global Arguments Raise {A} e.

(** A computation over a state [St]: it returns or raises, and in both
    cases leaves a state. *)
Definition M (St A : Type) : Type := St → result A * St.

Definition ret {St A} (a : A) : M St A := λ s, (Ok a, s).
Definition raise {St A} (e : exn) : M St A := λ s, (Raise e, s).
Definition bind {St A B} (c : M St A) (k : A → M St B) : M St B :=
  λ s, match c s with
       | (Ok a, s') => k a s'
       | (Raise e, s') => (Raise e, s')
       end.
Definition get {St} : M St St := λ s, (Ok s, s).
Definition modify {St} (f : St → St) : M St unit := λ s, (Ok tt, f s).
(** [assert cond, msg] *)
Definition assert {St} (b : bool) (msg : string) : M St unit :=
  if b then ret tt else raise (Exn AssertionError msg).
(** Lifting a call that does not touch the state. *)
Definition lift {St A} (r : result A) : M St A := λ s, (r, s).

Notation "x <~ c ;; k" := (bind c (λ x, k))
  (at level 100, c at next level, right associativity).
Notation "c ;;; k" := (bind c (λ _, k))
  (at level 100, right associativity).

Definition mapM {St A B} (f : A → M St B) : list A → M St (list B) :=
  fix go (l : list A) : M St (list B) :=
    match l with
    | [] => ret []
    | x :: r => y <~ f x ;; ys <~ go r ;; ret (y :: ys)
    end.

(** ** torch.fx.node.map_aggregate *)

(** Modelled from the spec: [torch.fx.node.map_aggregate] is not part of
    this file; the spec calls it a generic deep-map utility over nested
    container arguments.  It rebuilds tuples, lists and dictionaries
    (values only, keys are kept), left to right, and applies [fn] to every
    other value. *)
Fixpoint map_aggregate {St} (fn : value → M St value) (a : value) : M St value :=
  match a with
  | VTuple l => l' <~ mapM (map_aggregate fn) l ;; ret (VTuple l')
  | VList l => l' <~ mapM (map_aggregate fn) l ;; ret (VList l')
  | VDict d =>
      d' <~ mapM (λ kv : string * value,
                    y <~ map_aggregate fn kv.2 ;; ret (kv.1, y)) d ;;
      ret (VDict d')
  | _ => fn a
  end.

(** ** Graph nodes, proxy objects, modules *)

(** A node of the graph under construction, as requested from the
    underlying tracer.  A node is referred to by its index in the graph. *)
Record node : Type := Node {
  node_op : string;
  node_target : value;
  node_args : list value;
  node_kwargs : list (string * value);
  node_name : option string;
  node_type : option value
}.

(** The three classes of proxy objects and their instance attributes.
    [tensor_meta] is [None] while the object has no attribute
    [_tensor_meta]; [Some VNone] once Python's [None] was installed. *)
Inductive proxy_obj : Type :=
| ObjProxy (n : nat)                                   (* torch.fx.Proxy *)
| ObjMetaProxy (n : nat) (tensor_meta : option value)  (* MetaProxy *)
| ObjMetaAttribute (root : nat) (attr : string)
    (_node : option nat) (tensor_meta : option value). (* MetaAttribute *)

Definition tensor_meta_of (o : proxy_obj) : option value :=
  match o with
  | ObjProxy _ => None
  | ObjMetaProxy _ m => m
  | ObjMetaAttribute _ _ _ m => m
  end.

(** [isinstance(v, MetaProxy)] for an object known to be a proxy. *)
Definition is_MetaProxy (o : proxy_obj) : bool :=
  match o with ObjProxy _ => false | _ => true end.

(** [type(v)] as the f-string prints it. *)
Definition type_str (o : proxy_obj) : string :=
  match o with
  | ObjProxy _ => "<class 'torch.fx.proxy.Proxy'>"
  | ObjMetaProxy _ _ => "<class 'torch.fx.experimental.meta_tracer.MetaProxy'>"
  | ObjMetaAttribute _ _ _ _ => "<class 'torch.fx.experimental.meta_tracer.MetaAttribute'>"
  end.

(** What this file reads of a [torch.nn.Module]: its class name and the
    parameters and buffers that [parameters()] and [buffers()] list. *)
Record nn_module : Type := NNModule {
  module_id : nat;
  class_name : string;
  parameters : list value;
  buffers : list value
}.

(** ** The state *)

Record state : Type := State {
  graph : list node;                  (* the nodes created so far *)
  heap : list proxy_obj;              (* the proxy objects, by address *)
  next_fn : nat;                      (* functions made by gen_constructor_wrapper *)
  torch : gmap string value;          (* the attributes of the module [torch] *)
  root_attrs : gmap string (option nn_module);
                                      (* the attributes of [self.root]; [Some m] is a child module *)
  meta_args : option value;           (* self.meta_args *)
  orig_fns : option (list value);     (* self.orig_fns *)
  patched_torch_methods : option (list (string * (value * value)));
  orig_forward : option value;        (* self.orig_forward *)
  prev_module : option string;        (* self.prev_module *)
  allow_insert_stateless_mods : bool;
  warnings : list string              (* what warnings.warn was given *)
}.

Definition set_graph (f : list node → list node) (s : state) : state :=
  State (f (graph s)) (heap s) (next_fn s) (torch s) (root_attrs s) (meta_args s)
    (orig_fns s) (patched_torch_methods s) (orig_forward s) (prev_module s)
    (allow_insert_stateless_mods s) (warnings s).
Definition set_heap (f : list proxy_obj → list proxy_obj) (s : state) : state :=
  State (graph s) (f (heap s)) (next_fn s) (torch s) (root_attrs s) (meta_args s)
    (orig_fns s) (patched_torch_methods s) (orig_forward s) (prev_module s)
    (allow_insert_stateless_mods s) (warnings s).
Definition set_next_fn (f : nat → nat) (s : state) : state :=
  State (graph s) (heap s) (f (next_fn s)) (torch s) (root_attrs s) (meta_args s)
    (orig_fns s) (patched_torch_methods s) (orig_forward s) (prev_module s)
    (allow_insert_stateless_mods s) (warnings s).
Definition set_torch (f : gmap string value → gmap string value) (s : state) : state :=
  State (graph s) (heap s) (next_fn s) (f (torch s)) (root_attrs s) (meta_args s)
    (orig_fns s) (patched_torch_methods s) (orig_forward s) (prev_module s)
    (allow_insert_stateless_mods s) (warnings s).
Definition set_root_attrs
    (f : gmap string (option nn_module) → gmap string (option nn_module))
    (s : state) : state :=
  State (graph s) (heap s) (next_fn s) (torch s) (f (root_attrs s)) (meta_args s)
    (orig_fns s) (patched_torch_methods s) (orig_forward s) (prev_module s)
    (allow_insert_stateless_mods s) (warnings s).
Definition set_meta_args (x : option value) (s : state) : state :=
  State (graph s) (heap s) (next_fn s) (torch s) (root_attrs s) x
    (orig_fns s) (patched_torch_methods s) (orig_forward s) (prev_module s)
    (allow_insert_stateless_mods s) (warnings s).
Definition set_orig_fns (x : option (list value)) (s : state) : state :=
  State (graph s) (heap s) (next_fn s) (torch s) (root_attrs s) (meta_args s)
    x (patched_torch_methods s) (orig_forward s) (prev_module s)
    (allow_insert_stateless_mods s) (warnings s).
Definition set_patched_torch_methods
    (x : option (list (string * (value * value)))) (s : state) : state :=
  State (graph s) (heap s) (next_fn s) (torch s) (root_attrs s) (meta_args s)
    (orig_fns s) x (orig_forward s) (prev_module s)
    (allow_insert_stateless_mods s) (warnings s).
Definition set_orig_forward (x : option value) (s : state) : state :=
  State (graph s) (heap s) (next_fn s) (torch s) (root_attrs s) (meta_args s)
    (orig_fns s) (patched_torch_methods s) x (prev_module s)
    (allow_insert_stateless_mods s) (warnings s).
Definition set_prev_module (x : option string) (s : state) : state :=
  State (graph s) (heap s) (next_fn s) (torch s) (root_attrs s) (meta_args s)
    (orig_fns s) (patched_torch_methods s) (orig_forward s) x
    (allow_insert_stateless_mods s) (warnings s).
Definition set_warnings (f : list string → list string) (s : state) : state :=
  State (graph s) (heap s) (next_fn s) (torch s) (root_attrs s) (meta_args s)
    (orig_fns s) (patched_torch_methods s) (orig_forward s) (prev_module s)
    (allow_insert_stateless_mods s) (f (warnings s)).

Abbreviation T := (M state).

(** Reading an attribute of [self] that may not have been assigned yet. *)
Definition getattr_self {A} (field : state → option A) (name : string) : T A :=
  λ s, match field s with
       | Some a => (Ok a, s)
       | None => (Raise (Exn AttributeError
                    ("'MetaTracer' object has no attribute '" +:+ name +:+ "'")), s)
       end.

(** The object a proxy value refers to.  Every proxy value the code makes
    refers to an object of the heap; an address outside the heap is
    reported as a [ReferenceError]. *)
Definition deref (p : nat) : T proxy_obj :=
  λ s, match heap s !! p with
       | Some o => (Ok o, s)
       | None => (Raise (Exn ReferenceError "no such proxy object"), s)
       end.

(** [warnings.warn(msg)] *)
Definition warn (msg : string) : T unit := modify (set_warnings (λ w, w ++ [msg])).

(** [try: body except AssertionError as e: handler(e)] *)
Definition try_except_AssertionError {A} (body : T A) (handler : exn → T A) : T A :=
  λ s, match body s with
       | (Ok a, s') => (Ok a, s')
       | (Raise e, s') =>
           if bool_decide (exn_kind_of e = AssertionError) then handler e s'
           else (Raise e, s')
       end.

(** [try: body finally: cleanup] *)
Definition try_finally {A} (body : T A) (cleanup : T unit) : T A :=
  λ s, match body s with
       | (r, s') =>
           match cleanup s' with
           | (Ok _, s'') => (r, s'')
           | (Raise e, s'') => (Raise e, s'')
           end
       end.

(** [for x in l: body(x)] *)
Definition for_each {A} (body : A → T unit) : list A → T unit :=
  fix go (l : list A) : T unit :=
    match l with
    | [] => ret tt
    | x :: r => body x ;;; go r
    end.

(** [isinstance(v, torch.fx.Proxy)]: the three classes of proxy objects
    are all subclasses of it. *)
Definition is_Proxy (v : value) : bool :=
  match v with VProxy _ => true | _ => false end.

Definition is_None (v : value) : bool :=
  match v with VNone => true | _ => false end.

(** Dictionaries with string keys: [k in d], [d[k]], [d[k] = v]. *)
Fixpoint dict_get (d : list (string * value)) (k : string) : option value :=
  match d with
  | [] => None
  | (k', v) :: r => if bool_decide (k' = k) then Some v else dict_get r k
  end.

Fixpoint dict_set (d : list (string * value)) (k : string) (v : value)
  : list (string * value) :=
  match d with
  | [] => [(k, v)]
  | (k', v') :: r => if bool_decide (k' = k) then (k, v) :: r else (k', v') :: dict_set r k v
  end.

(** The builtin [getattr], as a function object. *)
Definition getattr_builtin : value := VObj 0.

Definition set_tensor_meta (v : value) (o : proxy_obj) : proxy_obj :=
  match o with
  | ObjProxy n => ObjProxy n
  | ObjMetaProxy n _ => ObjMetaProxy n (Some v)
  | ObjMetaAttribute r a n _ => ObjMetaAttribute r a n (Some v)
  end.

Definition set_node (n : nat) (o : proxy_obj) : proxy_obj :=
  match o with
  | ObjMetaAttribute r a _ m => ObjMetaAttribute r a (Some n) m
  | _ => o
  end.

Definition tuple_items (v : value) : list value :=
  match v with VTuple l => l | _ => [] end.
Definition dict_items (v : value) : list (string * value) :=
  match v with VDict d => d | _ => [] end.

(** [target in d] and [d[target]] at once, for a dictionary keyed by strings. *)
Definition value_getitem (d target : value) : option value :=
  match d, target with
  | VDict kvs, VStr k => dict_get kvs k
  | _, _ => None
  end.

Section MetaTracer.

(** *** The host: what lies outside this file

    Calls of functions and methods of the host (the operations of
    [torch] replayed on metadata, the queries of a metadata object) are
    taken as they come: a call returns a value or raises.  [py_str] is
    [str()] as f-strings apply it. *)
Variable py_call : value → list value → list (string * value) → result value.
Variable py_getattr_call :
  value → string → list value → list (string * value) → result value.
Variable py_str : value → string.
(** [rv.install_tensor_meta(v)] when [rv] is not an instance of
    [MetaProxy]: decided by the class of [rv], not by this file. *)
Variable foreign_install_tensor_meta : value → value → T unit.

(** *** MetaProxy.install_tensor_meta (lines 26-27) *)
Definition MetaProxy_install_tensor_meta (self : nat) (tensor_meta : value) : T unit :=
  modify (set_heap (alter (set_tensor_meta tensor_meta) self)).

(** [rv.install_tensor_meta(v)], dispatched on the class of [rv]. *)
Definition call_install_tensor_meta (rv v : value) : T unit :=
  match rv with
  | VProxy p =>
      o <~ deref p ;;
      if is_MetaProxy o then MetaProxy_install_tensor_meta p v
      else foreign_install_tensor_meta rv v
  | _ => foreign_install_tensor_meta rv v
  end.

(** *** MetaTracer.proxy (lines 144-145): a new [MetaProxy(node, self)] *)
Definition proxy (n : nat) : T value :=
  λ s, (Ok (VProxy (length (heap s))), set_heap (λ h, h ++ [ObjMetaProxy n None]) s).

(** Modelled from the spec: [torch.fx.Tracer.create_proxy] is not part of
    this file; the spec calls it the node/graph construction primitive,
    which constructs the base symbolic node and the proxy [rv] for it.
    The node is appended to the graph and wrapped by the factory when one
    is given, by [self.proxy] otherwise.  The node records the arguments
    as they were given; what the underlying tracer does to turn arguments
    into nodes is not modelled. *)
Definition create_node (kind : string) (target : value) (args : list value)
    (kwargs : list (string * value)) (name : option string)
    (type_expr : option value) : T nat :=
  λ s, (Ok (length (graph s)),
        set_graph (λ g, g ++ [Node kind target args kwargs name type_expr]) s).

Definition Tracer_create_proxy (kind : string) (target : value) (args : list value)
    (kwargs : list (string * value)) (name : option string)
    (type_expr : option value) (proxy_factory_fn : option (nat → T value)) : T value :=
  n <~ create_node kind target args kwargs name type_expr ;;
  match proxy_factory_fn with
  | None => proxy n
  | Some f => f n
  end.

(** *** proxys_to_metas (lines 65-70) *)
Definition proxys_to_metas (v : value) : T value :=
  match v with
  | VProxy p =>
      o <~ deref p ;;
      assert (is_MetaProxy o) ("Expected MetaProxy but got " +:+ type_str o) ;;;
      assert (bool_decide (is_Some (tensor_meta_of o)))
        "MetaProxy does not have an associated meta" ;;;
      ret (default VNone (tensor_meta_of o))
  | _ => ret v
  end.

(** *** MetaTracer.create_proxy (lines 77-114) *)

(** Lines 84-91.  The source assigns into the caller's dictionary; here
    the updated dictionary is passed on to the replay. *)
Definition patch_device (orig_fns : list value) (target : value)
    (kwargs : list (string * value)) : list (string * value) :=
  if existsb (value_eqb target) orig_fns then
    if bool_decide (is_Some (dict_get kwargs "device"))
    then dict_set kwargs "device" (VStr "meta")
    else kwargs
  else kwargs.

(** Lines 94-110: the body of the [try]. *)
Definition replay (kind : string) (target : value) (args : list value)
    (kwargs : list (string * value)) (rv : value) : T unit :=
  args_metas <~ map_aggregate proxys_to_metas (VTuple args) ;;
  kwargs_metas <~ map_aggregate proxys_to_metas (VDict kwargs) ;;
  let install (meta_out : value) : T unit :=
    assert (is_Proxy rv) "Dont support composite output yet" ;;;
    call_install_tensor_meta rv meta_out in
  if bool_decide (kind = "call_function") then
    meta_out <~ lift (py_call target (tuple_items args_metas) (dict_items kwargs_metas)) ;;
    install meta_out
  else if bool_decide (kind = "call_method") then
    meta_out <~ lift
      match tuple_items args_metas with
      | [] => Raise (Exn IndexError "tuple index out of range")
      | self_meta :: rest =>
          match target with
          | VStr name => py_getattr_call self_meta name rest (dict_items kwargs_metas)
          | _ => Raise (Exn TypeError "attribute name must be string")
          end
      end ;;
    install meta_out
  else if bool_decide (kind = "call_module") then
    s <~ get ;;
    assert (bool_decide (is_Some (orig_forward s))) "" ;;;
    forward <~ getattr_self orig_forward "orig_forward" ;;
    meta_out <~ lift (py_call forward (tuple_items args_metas) (dict_items kwargs_metas)) ;;
    install meta_out
  else
    assert (bool_decide (kind ∈ ["placeholder"])) ("Unsupported node kind " +:+ kind) ;;;
    ret tt.

(** The text of the warning of line 112. *)
Definition warning_text (target : value) (e : exn) : string :=
  "Could not compute metadata for target " +:+ py_str target +:+ ": " +:+ exn_msg e.

Definition create_proxy (kind : string) (target : value) (args : list value)
    (kwargs : list (string * value)) (name : option string)
    (type_expr : option value) (proxy_factory_fn : option (nat → T value)) : T value :=
  rv <~ Tracer_create_proxy kind target args kwargs name type_expr proxy_factory_fn ;;
  meta_input <~ (if bool_decide (kind = "placeholder")
                 then m <~ getattr_self meta_args "meta_args" ;;
                      ret (value_getitem m target)
                 else ret None) ;;
  match meta_input with
  | Some meta =>
      call_install_tensor_meta rv meta ;;;
      ret rv
  | None =>
      fns <~ getattr_self orig_fns "orig_fns" ;;
      let kwargs := patch_device fns target kwargs in
      try_except_AssertionError
        (replay kind target args kwargs rv)
        (λ e, warn (warning_text target e)) ;;;
      ret rv
  end.

(** *** MetaProxy.size, MetaProxy.dim, MetaProxy.__getattr__ (lines 29-44) *)

(** [hasattr(self, '_tensor_meta') and self._tensor_meta is not None] *)
Definition has_tensor_meta (o : proxy_obj) : bool :=
  match tensor_meta_of o with
  | Some m => negb (is_None m)
  | None => false
  end.

(** Truth value of the argument [dim] of [size]: an integer or [None]. *)
Definition truthy (dim : option Z) : bool :=
  match dim with
  | Some d => negb (d =? 0)%Z
  | None => false
  end.

Definition dim_value (dim : option Z) : value :=
  match dim with Some d => VInt d | None => VNone end.

Definition MetaProxy_size (self : nat) (dim : option Z) : T value :=
  o <~ deref self ;;
  if has_tensor_meta o then
    lift (py_getattr_call (default VNone (tensor_meta_of o)) "size"
            (if truthy dim then [dim_value dim] else []) [])
  else
    create_proxy "call_method" (VStr "size")
      (if truthy dim then [VProxy self; dim_value dim] else [VProxy self]) []
      None None None.

Definition MetaProxy_dim (self : nat) : T value :=
  o <~ deref self ;;
  if has_tensor_meta o then
    lift (py_getattr_call (default VNone (tensor_meta_of o)) "dim" [] [])
  else
    create_proxy "call_method" (VStr "dim") [VProxy self] [] None None None.

(** MetaAttribute.__init__ (lines 47-52): no node yet. *)
Definition MetaAttribute_init (root : nat) (attr : string) : T value :=
  λ s, (Ok (VProxy (length (heap s))),
        set_heap (λ h, h ++ [ObjMetaAttribute root attr None None]) s).

(** [__getattr__] is reached for the names that ordinary lookup does not
    find. *)
Definition MetaProxy_getattr (self : nat) (k : string) : T value :=
  if bool_decide (k = "_tensor_meta") then
    o <~ deref self ;;
    match tensor_meta_of o with
    | Some m => ret m
    | None => raise (Exn AttributeError
                       ("'MetaProxy' object has no attribute '_tensor_meta'"))
    end
  else MetaAttribute_init self k.

(** *** MetaAttribute.node and MetaAttribute.__call__ (lines 54-63) *)

(** The attribute [node] of a proxy that is not a [MetaAttribute]. *)
Definition plain_node (v : value) : T nat :=
  match v with
  | VProxy p =>
      o <~ deref p ;;
      match o with
      | ObjProxy n | ObjMetaProxy n _ => ret n
      | ObjMetaAttribute _ _ (Some n) _ => ret n
      | ObjMetaAttribute _ _ None _ =>
          raise (Exn AttributeError "node of an attribute proxy read as a plain field")
      end
  | _ => raise (Exn AttributeError "object has no attribute 'node'")
  end.

(** The getter of the property [node] (lines 54-60). *)
Definition MetaAttribute_node_fget (self : nat) : T nat :=
  o <~ deref self ;;
  match o with
  | ObjMetaAttribute root attr None _ =>
      rv <~ create_proxy "call_function" getattr_builtin
              [VProxy root; VStr attr] [] None None None ;;
      n <~ plain_node rv ;;
      modify (set_heap (alter (set_node n) self)) ;;;
      ret n
  | ObjMetaAttribute _ _ (Some n) _ => ret n
  | ObjProxy n | ObjMetaProxy n _ => ret n
  end.

(** The read [a.node].  It is the getter of the property, but for one
    case: when an [AttributeError] leaves the getter, Python's attribute
    lookup falls back to [__getattr__], so that the read returns what
    [MetaProxy.__getattr__] returns for the name [node], a new
    [MetaAttribute], in the state the getter left.  The read returns a
    node ([inl]) or that object ([inr]). *)
Definition MetaAttribute_node (self : nat) : T (nat + value) :=
  λ s, match MetaAttribute_node_fget self s with
       | (Ok n, s') => (Ok (inl n), s')
       | (Raise e, s') =>
           if bool_decide (exn_kind_of e = AttributeError)
           then (v <~ MetaProxy_getattr self "node" ;; ret (inr v)) s'
           else (Raise e, s')
       end.

(** [__call__] as [MetaAttribute] defines it; [self] is a [MetaAttribute]. *)
Definition MetaAttribute_call (self : nat) (args : list value)
    (kwargs : list (string * value)) : T value :=
  o <~ deref self ;;
  match o with
  | ObjMetaAttribute root attr _ _ =>
      create_proxy "call_method" (VStr attr) (VProxy root :: args) kwargs None None None
  | _ => raise (Exn TypeError "not a MetaAttribute")
  end.

(** *** gen_constructor_wrapper (lines 8-23) *)

(** The closure [check_has_proxy]: its state is the variable [proxy] of
    the enclosing call. *)
Definition check_has_proxy (v : value) : M (option value) value :=
  λ proxy, if is_Proxy v then (Ok VNone, Some v) else (Ok VNone, proxy).

(** The body of [wrapper], called with [args] and [kwargs], for a given [target].  Every
    proxy belongs to the one tracer of the state, so
    [proxy.tracer.create_proxy] is [create_proxy]. *)
Definition wrapper (target : value) (args : list value)
    (kwargs : list (string * value)) : T value :=
  let proxy : option value := None in
  let proxy := (map_aggregate check_has_proxy (VTuple args) proxy).2 in
  let proxy := (map_aggregate check_has_proxy (VDict kwargs) proxy).2 in
  match proxy with
  | Some _ => create_proxy "call_function" target args kwargs None None None
  | None => lift (py_call target args kwargs)
  end.

(** [gen_constructor_wrapper(target)]: a new function object and the target. *)
Definition gen_constructor_wrapper (target : value) : T (value * value) :=
  λ s, (Ok (VWrapper (next_fn s) target, target), set_next_fn S s).

End MetaTracer.

(** ** The methods of MetaTracer that extend the underlying tracer *)

(** [str.lower()] on the ASCII letters; class names are taken to be ASCII. *)
Definition ascii_lower (c : ascii) : ascii :=
  let n := nat_of_ascii c in
  if (65 <=? n) && (n <=? 90) then ascii_of_nat (n + 32) else c.

Fixpoint lower (s : string) : string :=
  match s with
  | EmptyString => EmptyString
  | String c r => String (ascii_lower c) (lower r)
  end.

(** The f-string of lines 126 and 128: the name, an underscore and the
    index in decimal. *)
Definition suffixed (mod_name : string) (idx : nat) : string :=
  mod_name +:+ "_" +:+ pretty idx.

(** [hasattr(self.root, path)] *)
Definition hasattr_root (attrs : gmap string (option nn_module)) (path : string) : bool :=
  bool_decide (is_Some (attrs !! path)).

(** The [while] loop of lines 127-129, with the values of [idx] and [path]
    on entry; [None] when the fuel does not suffice. *)
Fixpoint insert_loop (fuel : nat) (attrs : gmap string (option nn_module))
    (mod_name : string) (idx : nat) (path : string) : option string :=
  if hasattr_root attrs path then
    match fuel with
    | O => None
    | S fuel' => insert_loop fuel' attrs mod_name (S idx) (suffixed mod_name idx)
    end
  else Some path.

(** [set.add] *)
Definition set_add (v : value) (l : list value) : list value :=
  if existsb (value_eqb v) l then l else l ++ [v].

Definition getattr_torch (name : string) : T value :=
  λ s, match torch s !! name with
       | Some v => (Ok v, s)
       | None => (Raise (Exn AttributeError
                    ("module 'torch' has no attribute '" +:+ name +:+ "'")), s)
       end.

Definition setattr_torch (name : string) (v : value) : T unit :=
  modify (set_torch (<[name := v]>)).

Definition is_dict (v : value) : bool :=
  match v with VDict _ => true | _ => false end.

Definition _TORCH_METHODS_TO_PATCH : list string :=
  ["arange"; "zeros"; "ones"; "full_like"; "eye"].

(** An entry of the dictionary of lines 151-153:
    [target: gen_constructor_wrapper(getattr(torch, target))]. *)
Definition patch_entry (target : string) : T (string * (value * value)) :=
  orig <~ getattr_torch target ;;
  w <~ gen_constructor_wrapper orig ;;
  ret (target, w).

(** The body of the loop of lines 156-158. *)
Definition patch_one (item : string * (value * value)) : T unit :=
  let '(name, (wrapper, orig)) := item in
  setattr_torch name wrapper ;;;
  fns <~ getattr_self orig_fns "orig_fns" ;;
  modify (set_orig_fns (Some (set_add orig fns))).

(** The body of the loop of lines 163-164. *)
Definition restore_one (item : string * (value * value)) : T unit :=
  let '(name, (_, orig)) := item in
  setattr_torch name orig.

Section Tracer_methods.

(** *** The methods of torch.fx.Tracer that this class overrides and
    calls through [super()].  They are outside this file and are taken as
    they come: any computation over the state. *)
Variable Tracer_call_module :
  nn_module → value → list value → list (string * value) → T value.
Variable Tracer_path_of_module : nn_module → T string.
Variable Tracer_trace : value → option value → T value.

(** *** MetaTracer.call_module (lines 116-118) *)
Definition call_module (m : nn_module) (forward : value) (args : list value)
    (kwargs : list (string * value)) : T value :=
  modify (set_orig_forward (Some forward)) ;;;
  Tracer_call_module m forward args kwargs.

(** *** MetaTracer._insert_module_as_submodule (lines 120-132)

    Modelled from the spec: [torch.nn.Module.add_module] is not part of
    this file; it registers the module as a named child of the root. *)
Definition add_module (path : string) (md : nn_module) : T unit :=
  modify (set_root_attrs (<[path := Some md]>)).

Definition _insert_module_as_submodule (fuel : nat) (md : nn_module)
  : state → option (result string * state) :=
  λ s,
    let idx := 0 in
    let mod_name := lower (class_name md) in
    let path := suffixed mod_name idx in
    match insert_loop fuel (root_attrs s) mod_name idx path with
    | None => None
    | Some path =>
        Some ((add_module path md ;;; ret path) s)
    end.

(** *** MetaTracer.path_of_module (lines 134-142) *)
Definition path_of_module (fuel : nat) (md : nn_module)
  : state → option (result string * state) :=
  λ s,
    match Tracer_path_of_module md s with
    | (Ok path, s') => Some (Ok path, s')
    | (Raise e, s') =>
        if bool_decide (exn_kind_of e = NameError) then
          if allow_insert_stateless_mods s'
             && (length (parameters md) =? 0)
             && (length (buffers md) =? 0)
          then
            match _insert_module_as_submodule fuel md s' with
            | Some (Ok path, s'') =>
                Some (Ok path, set_prev_module (Some path) s'')
            | other => other
            end
          else Some (Raise e, s')
        else Some (Raise e, s')
    end.

(** *** MetaTracer.trace (lines 147-164) *)
Definition trace (root : value) (meta_args : value) (concrete_args : option value)
  : T value :=
  assert (is_dict meta_args) "" ;;;
  modify (set_meta_args (Some meta_args)) ;;;
  patched <~ mapM patch_entry _TORCH_METHODS_TO_PATCH ;;
  modify (set_patched_torch_methods (Some patched)) ;;;
  modify (set_orig_fns (Some [])) ;;;
  patched <~ getattr_self patched_torch_methods "patched_torch_methods" ;;
  for_each patch_one patched ;;;
  try_finally
    (Tracer_trace root concrete_args)
    (patched <~ getattr_self patched_torch_methods "patched_torch_methods" ;;
     for_each restore_one patched).

End Tracer_methods.

(** ** A small host for the examples

    Objects 1, 2 and 4 are metadata tensors of shapes (2, 3), (4,) and
    (6,), object 3 is a tensor of shape (4,) in real memory.  Function 0
    is [getattr], which knows the attribute [shape] of a tensor, raises
    a [RuntimeError] for [imag] (the tensors are real) and an
    [AttributeError] for every other name.
    Function 10 adds two tensors of equal shape and raises a
    [RuntimeError] on a mismatch, function 11 fails an assertion of its
    own, function 12 returns its first argument, functions 20 to 24 are
    the constructors of [torch]; of these [zeros] (function 21) is given
    a behaviour: on one integer 4 it returns the tensor 2 when [device]
    is ['meta'] and the tensor 3 otherwise. *)

Definition example_shape (o : nat) : option (list Z) :=
  match o with
  | 1 => Some [2; 3]%Z
  | 2 | 3 => Some [4]%Z
  | 4 => Some [6]%Z
  | _ => None
  end.

(** [Tensor.size(dim=None)] on a tensor of the given shape. *)
Definition tensor_size (shape : list Z) (args : list value) : result value :=
  match args with
  | [] => Ok (VTuple (VInt <$> shape))
  | [VInt d] =>
      let n := Z.of_nat (length shape) in
      if bool_decide (- n ≤ d < n)%Z
      then Ok (VInt (nth (Z.to_nat (d `mod` n)) shape 0%Z))
      else Raise (Exn IndexError "Dimension out of range")
  | _ => Raise (Exn TypeError "size() received an invalid combination of arguments")
  end.

Definition example_getattr_call (obj : value) (name : string) (args : list value)
    (kwargs : list (string * value)) : result value :=
  match obj with
  | VObj o =>
      match example_shape o with
      | Some shape =>
          if bool_decide (name = "size") then tensor_size shape args
          else if bool_decide (name = "dim") then Ok (VInt (Z.of_nat (length shape)))
          else if bool_decide (name = "view") then
            match args with
            | [VInt 6%Z] =>
                if bool_decide (shape = [2; 3]%Z) then Ok (VObj 4)
                else Raise (Exn RuntimeError "shape '[6]' is invalid for input")
            | _ => Raise (Exn TypeError "view() received an invalid combination of arguments")
            end
          else Raise (Exn AttributeError ("'Tensor' object has no attribute '" +:+ name +:+ "'"))
      | None => Raise (Exn AttributeError ("object has no attribute '" +:+ name +:+ "'"))
      end
  | _ => Raise (Exn AttributeError ("object has no attribute '" +:+ name +:+ "'"))
  end.

Definition example_call (f : value) (args : list value)
    (kwargs : list (string * value)) : result value :=
  match f with
  | VObj 0 =>
      match args with
      | [VObj o; VStr "shape"] =>
          match example_shape o with
          | Some shape => Ok (VTuple (VInt <$> shape))
          | None => Raise (Exn AttributeError "object has no attribute 'shape'")
          end
      | [_; VStr "imag"] =>
          Raise (Exn RuntimeError
                   "imag is not implemented for tensors with non-complex dtypes")
      | [_; VStr name] =>
          Raise (Exn AttributeError ("object has no attribute '" +:+ name +:+ "'"))
      | _ => Raise (Exn TypeError "getattr expected 2 arguments")
      end
  | VObj 10 =>
      match args with
      | [VObj a; VObj b] =>
          if bool_decide (example_shape a = example_shape b) then Ok (VObj a)
          else Raise (Exn RuntimeError "The size of tensor a must match the size of tensor b")
      | _ => Raise (Exn TypeError "add(): argument 'input' must be Tensor")
      end
  | VObj 11 => Raise (Exn AssertionError "expected a contiguous tensor")
  | VObj 12 =>
      match args with
      | a :: _ => Ok a
      | [] => Raise (Exn TypeError "missing 1 required positional argument")
      end
  | VObj 21 =>
      match args with
      | [VInt 4%Z] =>
          if existsb (value_eqb (VStr "meta")) (option_list (dict_get kwargs "device"))
          then Ok (VObj 2) else Ok (VObj 3)
      | _ => Raise (Exn TypeError "zeros(): argument 'size' must be tuple of ints")
      end
  | _ => Raise (Exn TypeError "object is not callable")
  end.

Definition example_str (v : value) : string :=
  match v with
  | VStr s => s
  | VObj 10 => "<built-in method add of type object>"
  | VObj 21 => "<built-in method zeros of type object>"
  | _ => "<object>"
  end.

Definition example_foreign_install (rv v : value) : T unit :=
  raise (Exn AttributeError "object has no attribute 'install_tensor_meta'").

(** The module [torch] before a trace, and a tracer that has not traced
    yet. *)
Definition example_torch : gmap string value :=
  <["arange" := VObj 20]> (<["zeros" := VObj 21]> (<["ones" := VObj 22]>
  (<["full_like" := VObj 23]> (<["eye" := VObj 24]> ∅)))).

Definition example_idle_state : state :=
  State [] [] 0 example_torch ∅ None None None None None true [].

(** The metadata inputs of the examples: [x] is the tensor 1, [y] the
    tensor 2. *)
Definition example_meta_args : value := VDict [("x", VObj 1); ("y", VObj 2)].

(** The tracer at the start of the underlying trace: the five
    constructors are patched, nothing is created yet. *)
Definition example_patched : list (string * (value * value)) :=
  [("arange", (VWrapper 0 (VObj 20), VObj 20));
   ("zeros", (VWrapper 1 (VObj 21), VObj 21));
   ("ones", (VWrapper 2 (VObj 22), VObj 22));
   ("full_like", (VWrapper 3 (VObj 23), VObj 23));
   ("eye", (VWrapper 4 (VObj 24), VObj 24))].

Definition example_orig_fns : list value :=
  [VObj 20; VObj 21; VObj 22; VObj 23; VObj 24].

Definition example_state : state :=
  State [] [] 5
    (<["arange" := VWrapper 0 (VObj 20)]> (<["zeros" := VWrapper 1 (VObj 21)]>
     (<["ones" := VWrapper 2 (VObj 22)]> (<["full_like" := VWrapper 3 (VObj 23)]>
     (<["eye" := VWrapper 4 (VObj 24)]> ∅)))))
    ∅ (Some example_meta_args) (Some example_orig_fns) (Some example_patched)
    None None true [].

(** The tracer and its proxies over the host of the examples. *)
Definition example_create_proxy :=
  create_proxy example_call example_getattr_call example_str example_foreign_install.
Definition example_replay :=
  replay example_call example_getattr_call example_foreign_install.
Definition example_wrapper :=
  wrapper example_call example_getattr_call example_str example_foreign_install.
Definition example_size :=
  MetaProxy_size example_call example_getattr_call example_str example_foreign_install.
Definition example_dim :=
  MetaProxy_dim example_call example_getattr_call example_str example_foreign_install.
Definition example_node :=
  MetaAttribute_node example_call example_getattr_call example_str
    example_foreign_install.
Definition example_attr_call :=
  MetaAttribute_call example_call example_getattr_call example_str
    example_foreign_install.

(** The state after the placeholder [x] was requested: proxy 0 carries
    the tensor 1; and after [y] was requested too: proxy 1 carries the
    tensor 2; and after a placeholder [z] that is no metadata input:
    proxy 0 without metadata. *)
Definition example_state_x : state :=
  (example_create_proxy "placeholder" (VStr "x") [] [] None None None example_state).2.
Definition example_state_xy : state :=
  (example_create_proxy "placeholder" (VStr "y") [] [] None None None example_state_x).2.
Definition example_state_z : state :=
  (example_create_proxy "placeholder" (VStr "z") [] [] None None None example_state).2.

(** An underlying trace that raises mid-way: it requests the placeholder
    [x], calls what [torch.zeros] is bound to on the proxy, and fails. *)
Definition example_trace (root : value) (concrete_args : option value) : T value :=
  x <~ example_create_proxy "placeholder" (VStr "x") [] [] None None None ;;
  zeros <~ getattr_torch "zeros" ;;
  match zeros with
  | VWrapper _ target => example_wrapper target [x] []
  | _ => lift (example_call zeros [x] [])
  end ;;;
  raise (Exn RuntimeError "forward failed").

(** An underlying tracer that knows no module. *)
Definition example_path_of_module (md : nn_module) : T string :=
  raise (Exn NameError "module is not installed as a submodule").

(** A root with a child [relu_0] and a child [fc], and a stateless module
    to be inserted. *)
Definition example_root_state : state :=
  set_root_attrs
    (λ _, <["relu_0" := Some (NNModule 5 "ReLU" [] [])]>
            (<["fc" := Some (NNModule 6 "Linear" [VObj 40; VObj 41] [])]> ∅))
    example_state.

Definition example_relu : nn_module := NNModule 7 "ReLU" [] [].

(** ** Vocabulary of the properties *)

(** A computation that may raise but never changes the state. *)
Definition reads_only {St A} (c : M St A) : Prop := ∀ s, (c s).2 = s.

(** What holds of the outcome of a computation run in [s]. *)
Definition post {A} (c : T A) (s : state) (Q : result A → state → Prop) : Prop :=
  ∀ r s', c s = (r, s') → Q r s'.

(** The effect of the body of the [try] on the state it is run in: none,
    or, when it succeeds, the metadata of [rv] replaced. *)
Definition replay_effect (rv : value) (s : state) (r : result unit) (s' : state) : Prop :=
  s' = s ∨
  r = Ok tt ∧ ∃ p m, rv = VProxy p ∧ s' = set_heap (alter (set_tensor_meta m) p) s.

(** [proxy is not None] *)
Definition is_set {A} (o : option A) : bool :=
  match o with Some _ => true | None => false end.

(** [s'] is [s] with one node more, one [MetaProxy] for that node more
    (with or without metadata) and possibly more warnings; everything
    else is as in [s]. *)
Definition grown (nd : node) (s s' : state) : Prop :=
  ∃ (meta : option value) (w : list string),
    s' = State (graph s ++ [nd]) (heap s ++ [ObjMetaProxy (length (graph s)) meta])
           (next_fn s) (torch s) (root_attrs s) (meta_args s) (orig_fns s)
           (patched_torch_methods s) (orig_forward s) (prev_module s)
           (allow_insert_stateless_mods s) (warnings s ++ w).

(** The values in which a proxy occurs, through tuples, lists and the
    values of dictionaries. *)
Fixpoint contains_proxy (v : value) : bool :=
  match v with
  | VProxy _ => true
  | VTuple l | VList l => existsb contains_proxy l
  | VDict d => existsb (λ kv, contains_proxy kv.2) d
  | _ => false
  end.

(** The test of line 80 fails: the kind is not [placeholder], or the
    target is no key of [self.meta_args]. *)
Definition not_meta_input (kind : string) (target : value) (s : state) : Prop :=
  kind ≠ "placeholder" ∨ ∃ m, meta_args s = Some m ∧ value_getitem m target = None.

(** [rv] is an object on which [install_tensor_meta] is the method of
    this file, or no proxy at all. *)
Definition own_rv (rv : value) (s : state) : Prop :=
  is_Proxy rv = false ∨
  ∃ p o, rv = VProxy p ∧ heap s !! p = Some o ∧ is_MetaProxy o = true.

(** The traversal of [check_has_proxy] over [v] returns, and its variable
    ends set exactly when it was set before or a proxy occurs in [v]. *)
Definition finds_proxy (v : value) : Prop :=
  ∀ acc, ∃ r acc',
    map_aggregate check_has_proxy v acc = (Ok r, acc')
    ∧ is_set acc' = is_set acc || contains_proxy v.

(** The value that stands for [v] in a replay over the proxy objects [h]:
    every proxy replaced by the metadata it carries, through tuples, lists
    and the values of dictionaries. *)
Fixpoint metas_of (h : list proxy_obj) (v : value) : value :=
  match v with
  | VProxy p => default VNone (h !! p ≫= tensor_meta_of)
  | VTuple l => VTuple (metas_of h <$> l)
  | VList l => VList (metas_of h <$> l)
  | VDict d => VDict ((λ kv : string * value, (kv.1, metas_of h kv.2)) <$> d)
  | _ => v
  end.

(** Every proxy that occurs in [v] is an object of [h], an instance of
    [MetaProxy], and has the attribute [_tensor_meta]. *)
Fixpoint extractable (h : list proxy_obj) (v : value) : bool :=
  match v with
  | VProxy p =>
      match h !! p with
      | Some o => is_MetaProxy o && is_set (tensor_meta_of o)
      | None => false
      end
  | VTuple l | VList l => forallb (extractable h) l
  | VDict d => forallb (λ kv : string * value, extractable h kv.2) d
  | _ => true
  end.

(** [s] after a request without factory: the node [nd] and one
    [MetaProxy] for it, with the attribute [_tensor_meta] as [meta] says,
    are added, and the warnings [w] are emitted. *)
Definition added (nd : node) (meta : option value) (w : list string) (s : state)
  : state :=
  State (graph s ++ [nd]) (heap s ++ [ObjMetaProxy (length (graph s)) meta])
    (next_fn s) (torch s) (root_attrs s) (meta_args s) (orig_fns s)
    (patched_torch_methods s) (orig_forward s) (prev_module s)
    (allow_insert_stateless_mods s) (warnings s ++ w).

(** The keyword arguments of a replay: the metadata of every value. *)
Definition kwargs_metas_of (h : list proxy_obj) (kwargs : list (string * value))
  : list (string * value) :=
  (λ kv : string * value, (kv.1, metas_of h kv.2)) <$> kwargs.

(** The two outcomes of extracting the metadata of [v] in [s]. *)
Definition extraction_decided (s : state) (v : value) : Prop :=
  (extractable (heap s) v = true →
     map_aggregate proxys_to_metas v s = (Ok (metas_of (heap s) v), s))
  ∧ (extractable (heap s) v = false →
     ∃ e, map_aggregate proxys_to_metas v s = (Raise e, s)
          ∧ (exn_kind_of e = AssertionError ∨ exn_kind_of e = ReferenceError)).
(** * Properties *)

(** ** The monad *)

Lemma bind_Ok {St A B} (c : M St A) (k : A → M St B) s a s' :
  c s = (Ok a, s') → bind c k s = k a s'.
Proof. unfold bind. by intros ->. Qed.

Lemma bind_Raise {St A B} (c : M St A) (k : A → M St B) s e s' :
  c s = (Raise e, s') → bind c k s = (Raise e, s').
Proof. unfold bind. by intros ->. Qed.


Lemma reads_only_bind {St A B} (c : M St A) (k : A → M St B) :
  reads_only c → (∀ a, reads_only (k a)) → reads_only (bind c k).
Proof.
  intros Hc Hk s. unfold bind. specialize (Hc s).
  destruct (c s) as [[a|e] s']; simpl in *; subst; [apply Hk | done].
Qed.

Lemma reads_only_ret {St A} (a : A) : reads_only (ret (St:=St) a).
Proof. done. Qed.

Lemma reads_only_raise {St A} e : reads_only (raise (St:=St) (A:=A) e).
Proof. done. Qed.

Lemma reads_only_assert {St} b msg : reads_only (assert (St:=St) b msg).
Proof. by destruct b. Qed.

Lemma reads_only_lift {St A} (r : result A) : reads_only (lift (St:=St) r).
Proof. done. Qed.

Lemma reads_only_deref p : reads_only (deref p).
Proof. intros s. unfold deref. by destruct (heap s !! p). Qed.

Lemma reads_only_getattr_self {A} (field : state → option A) name :
  reads_only (getattr_self field name).
Proof. intros s. unfold getattr_self. by destruct (field s). Qed.

Lemma mapM_cons {St A B} (f : A → M St B) x r :
  mapM f (x :: r) = (y <~ f x ;; ys <~ mapM f r ;; ret (y :: ys)).
Proof. reflexivity. Qed.

Lemma reads_only_mapM {St A B} (f : A → M St B) l :
  Forall (λ x, reads_only (f x)) l → reads_only (mapM f l).
Proof.
  induction 1 as [|x r Hx _ IH]; [done|].
  simpl. apply reads_only_bind; [done|]. intros y.
  apply reads_only_bind; [done|]. intros ys. done.
Qed.

Lemma reads_only_map_aggregate {St} (fn : value → M St value) :
  (∀ v, reads_only (fn v)) → ∀ a, reads_only (map_aggregate fn a).
Proof.
  intros Hfn a. induction a as [| | | |l IH|l IH|d IH| | |] using value_ind_nested;
    simpl; try apply Hfn.
  - apply reads_only_bind; [by apply reads_only_mapM | done].
  - apply reads_only_bind; [by apply reads_only_mapM | done].
  - apply reads_only_bind; [|done]. apply reads_only_mapM.
    eapply Forall_impl; [exact IH|]. intros kv Hkv. simpl.
    apply reads_only_bind; [done | done].
Qed.

Lemma reads_only_proxys_to_metas v : reads_only (proxys_to_metas v).
Proof.
  destruct v; try done. simpl.
  apply reads_only_bind; [apply reads_only_deref|]. intros o.
  apply reads_only_bind; [apply reads_only_assert|]. intros _.
  apply reads_only_bind; [apply reads_only_assert|]. intros _. done.
Qed.

(** ** Equality of values *)

Lemma value_eqb_eq a : ∀ v, value_eqb a v = true ↔ a = v.
Proof.
  induction a as [| | | |l IH|l IH|d IH| |i t IH|] using value_ind_nested;
    intros v; destruct v as [| | | |m|m|e| |j u|]; simpl; try (split; [done|done]);
    try (rewrite bool_decide_eq_true; split; congruence).
  - revert m. induction IH as [|x l Hx _ IHl]; intros [|y m]; try (split; done).
    rewrite andb_true_iff, Hx.
    specialize (IHl m). split.
    + intros [-> H]. apply IHl in H. congruence.
    + intros [= -> ->]. split; [done|]. by apply IHl.
  - revert m. induction IH as [|x l Hx _ IHl]; intros [|y m]; try (split; done).
    rewrite andb_true_iff, Hx.
    specialize (IHl m). split.
    + intros [-> H]. apply IHl in H. congruence.
    + intros [= -> ->]. split; [done|]. by apply IHl.
  - revert e. induction IH as [|[k x] d Hx _ IHd]; intros [|[k' y] e];
      try (split; done).
    rewrite !andb_true_iff, bool_decide_eq_true. simpl in Hx. rewrite Hx.
    specialize (IHd e). split.
    + intros [[-> ->] H]. apply IHd in H. congruence.
    + intros [= -> -> ->]. split; [done|]. by apply IHd.
  - rewrite andb_true_iff, bool_decide_eq_true, IH. split.
    + by intros [-> ->].
    + by intros [= -> ->].
Qed.

(** ** C9: metadata extraction *)

Lemma proxys_to_metas_missing s p o :
  heap s !! p = Some o → is_MetaProxy o = true → tensor_meta_of o = None →
  proxys_to_metas (VProxy p) s =
    (Raise (Exn AssertionError "MetaProxy does not have an associated meta"), s).
Proof. intros Hp Ho Hm. unfold proxys_to_metas, deref, bind. by rewrite Hp, Ho, Hm. Qed.


(** C9.  [proxys_to_metas] returns a value that is not a proxy unchanged;
    on a proxy that is not a [MetaProxy] it raises an [AssertionError]
    that names the type of the proxy; on a [MetaProxy] without the
    attribute [_tensor_meta] it raises an [AssertionError] that reports
    the missing metadata; otherwise it returns the installed metadata.  It
    never changes the state. *)
Theorem proxys_to_metas_cases (s : state) :
  (∀ v, is_Proxy v = false → proxys_to_metas v s = (Ok v, s)) ∧
  (∀ p o, heap s !! p = Some o → is_MetaProxy o = false →
     proxys_to_metas (VProxy p) s =
       (Raise (Exn AssertionError ("Expected MetaProxy but got " +:+ type_str o)), s)) ∧
  (∀ p o, heap s !! p = Some o → is_MetaProxy o = true → tensor_meta_of o = None →
     proxys_to_metas (VProxy p) s =
       (Raise (Exn AssertionError "MetaProxy does not have an associated meta"), s)) ∧
  (∀ p o m, heap s !! p = Some o → is_MetaProxy o = true → tensor_meta_of o = Some m →
     proxys_to_metas (VProxy p) s = (Ok m, s)).
Proof.
  repeat split.
  - intros v Hv. by destruct v.
  - intros p o Hp Ho. unfold proxys_to_metas, deref, bind. by rewrite Hp, Ho.
  - intros p o Hp Ho Hm. unfold proxys_to_metas, deref, bind. by rewrite Hp, Ho, Hm.
  - intros p o m Hp Ho Hm. unfold proxys_to_metas, deref, bind. by rewrite Hp, Ho, Hm.
Qed.


Lemma post_bind_reads {A B} (c : T A) (k : A → T B) s (Q : result B → state → Prop) :
  reads_only c → (∀ e, Q (Raise e) s) → (∀ a, post (k a) s Q) → post (bind c k) s Q.
Proof.
  intros Hc HQ Hk r s'. unfold bind. specialize (Hc s).
  destruct (c s) as [[a|e'] s1]; simpl in Hc; subst s1.
  - apply Hk.
  - intros [= <- <-]. apply HQ.
Qed.

Lemma post_reads {A} (c : T A) s (Q : result A → state → Prop) :
  reads_only c → (∀ r, Q r s) → post c s Q.
Proof. intros Hc HQ r s' H. specialize (Hc s). rewrite H in Hc. simpl in Hc. by subst. Qed.

Section create_proxy_properties.

Variable py_call : value → list value → list (string * value) → result value.
Variable py_getattr_call :
  value → string → list value → list (string * value) → result value.
Variable py_str : value → string.
Variable foreign_install_tensor_meta : value → value → T unit.

Local Abbreviation create_proxy_ :=
  (create_proxy py_call py_getattr_call py_str foreign_install_tensor_meta).
Local Abbreviation replay_ :=
  (replay py_call py_getattr_call foreign_install_tensor_meta).
Local Abbreviation call_install_tensor_meta_ :=
  (call_install_tensor_meta foreign_install_tensor_meta).




Lemma call_install_tensor_meta_own p o v s :
  heap s !! p = Some o → is_MetaProxy o = true →
  call_install_tensor_meta_ (VProxy p) v s
    = (Ok tt, set_heap (alter (set_tensor_meta v) p) s).
Proof.
  intros Hp Ho. unfold call_install_tensor_meta, deref, bind. by rewrite Hp, Ho.
Qed.

Lemma create_proxy_unfold_meta_input
    kind target args kwargs name type_expr proxy_factory_fn s rv s1 m meta :
  Tracer_create_proxy kind target args kwargs name type_expr proxy_factory_fn s
    = (Ok rv, s1) →
  kind = "placeholder" → meta_args s1 = Some m → value_getitem m target = Some meta →
  create_proxy_ kind target args kwargs name type_expr proxy_factory_fn s
    = (call_install_tensor_meta_ rv meta ;;; ret rv) s1.
Proof.
  intros Hbase -> Hm Hget. unfold create_proxy.
  rewrite (bind_Ok _ _ _ _ _ Hbase).
  rewrite bool_decide_eq_true_2 by done.
  unfold bind at 1. unfold bind at 1. unfold getattr_self. rewrite Hm. simpl.
  by rewrite Hget.
Qed.

Lemma create_proxy_unfold_replay
    kind target args kwargs name type_expr proxy_factory_fn s rv s1 fns :
  Tracer_create_proxy kind target args kwargs name type_expr proxy_factory_fn s
    = (Ok rv, s1) →
  not_meta_input kind target s1 → orig_fns s1 = Some fns →
  create_proxy_ kind target args kwargs name type_expr proxy_factory_fn s
    = (try_except_AssertionError
         (replay_ kind target args (patch_device fns target kwargs) rv)
         (λ e, warn (warning_text py_str target e)) ;;; ret rv) s1.
Proof.
  intros Hbase Hno Hfns. unfold create_proxy.
  rewrite (bind_Ok _ _ _ _ _ Hbase).
  assert ((if bool_decide (kind = "placeholder")
           then m <~ getattr_self meta_args "meta_args" ;; ret (value_getitem m target)
           else ret None) s1 = (Ok None, s1)) as Hin.
  { destruct Hno as [Hk | (m & Hm & Hget)].
    - by rewrite bool_decide_eq_false_2.
    - case_bool_decide; [|done].
      unfold bind, getattr_self. rewrite Hm. simpl. by rewrite Hget. }
  rewrite (bind_Ok _ _ _ _ _ Hin).
  unfold bind at 1. unfold getattr_self at 1. by rewrite Hfns.
Qed.

(** C1.  A [placeholder] request whose target is a key of
    [self.meta_args]: when the underlying tracer returns a
    metadata-carrying proxy [rv], [create_proxy] returns that proxy, and
    the state it leaves is the one the underlying tracer left with the
    mapped value itself as the [_tensor_meta] of [rv]: nothing else is
    installed, no warning is emitted, no replay is attempted (the host
    is not consulted). *)
Theorem create_proxy_placeholder_meta_input
    target args kwargs name type_expr proxy_factory_fn s p o s1 m meta :
  Tracer_create_proxy "placeholder" target args kwargs name type_expr
      proxy_factory_fn s = (Ok (VProxy p), s1) →
  heap s1 !! p = Some o → is_MetaProxy o = true →
  meta_args s1 = Some m → value_getitem m target = Some meta →
  let s' := set_heap (alter (set_tensor_meta meta) p) s1 in
  create_proxy_ "placeholder" target args kwargs name type_expr proxy_factory_fn s
    = (Ok (VProxy p), s')
  ∧ tensor_meta_of <$> heap s' !! p = Some (Some meta)
  ∧ graph s' = graph s1 ∧ warnings s' = warnings s1.
Proof.
  intros Hbase Hp Ho Hm Hget s'. split; [|split; [|done]].
  - erewrite create_proxy_unfold_meta_input by done.
    unfold bind. by erewrite call_install_tensor_meta_own.
  - subst s'. simpl. rewrite list_lookup_alter_eq, Hp. simpl.
    by destruct o.
Qed.

Lemma install_effect rv meta_out s :
  own_rv rv s →
  post (assert (is_Proxy rv) "Dont support composite output yet" ;;;
        call_install_tensor_meta_ rv meta_out) s (replay_effect rv s).
Proof.
  intros [Hrv | (p & o & -> & Hp & Ho)] r s'.
  - rewrite Hrv. intros [= <- <-]. by left.
  - rewrite (bind_Ok _ _ s tt s) by done.
    erewrite call_install_tensor_meta_own by done.
    intros [= <- <-]. right. eauto.
Qed.

Lemma replay_post kind target args kwargs rv s :
  own_rv rv s → post (replay_ kind target args kwargs rv) s (replay_effect rv s).
Proof.
  intros Hrv. unfold replay.
  apply post_bind_reads; [|by left|].
  { apply reads_only_map_aggregate, reads_only_proxys_to_metas. }
  intros args_metas. apply post_bind_reads; [|by left|].
  { apply reads_only_map_aggregate, reads_only_proxys_to_metas. }
  intros kwargs_metas.
  repeat case_bool_decide.
  - apply post_bind_reads; [apply reads_only_lift|by left|].
    intros meta_out. by apply install_effect.
  - apply post_bind_reads; [apply reads_only_lift|by left|].
    intros meta_out. by apply install_effect.
  - apply post_bind_reads; [done|by left|]. intros s0.
    apply post_bind_reads; [apply reads_only_assert|by left|]. intros _.
    apply post_bind_reads; [apply reads_only_getattr_self|by left|]. intros forward.
    apply post_bind_reads; [apply reads_only_lift|by left|].
    intros meta_out. by apply install_effect.
  - apply post_reads; [|by left].
    apply reads_only_bind; [apply reads_only_assert | done].
  - apply post_reads; [|by left].
    apply reads_only_bind; [apply reads_only_assert | done].
Qed.

(** C2.  When the request is not a metadata input and the body of the
    [try] raises an [AssertionError] [e], [create_proxy] returns [rv];
    the only trace of the failure is one more warning, which holds the
    target and the reason [e].  When [rv] is an object of this file (or
    no proxy at all) the state is otherwise the one the underlying
    tracer left: no metadata was installed on [rv]. *)
Theorem create_proxy_assertion_recovered
    kind target args kwargs name type_expr proxy_factory_fn s rv s1 fns e s2 :
  Tracer_create_proxy kind target args kwargs name type_expr proxy_factory_fn s
    = (Ok rv, s1) →
  not_meta_input kind target s1 → orig_fns s1 = Some fns →
  replay_ kind target args (patch_device fns target kwargs) rv s1 = (Raise e, s2) →
  exn_kind_of e = AssertionError →
  create_proxy_ kind target args kwargs name type_expr proxy_factory_fn s
    = (Ok rv, set_warnings (λ w, w ++ [warning_text py_str target e]) s2)
  ∧ (own_rv rv s1 → s2 = s1).
Proof.
  intros Hbase Hno Hfns Hreplay He. split.
  - erewrite create_proxy_unfold_replay by done.
    unfold bind, try_except_AssertionError. rewrite Hreplay.
    by rewrite bool_decide_eq_true_2.
  - intros Hrv. by destruct (replay_post _ _ _ _ _ _ Hrv _ _ Hreplay) as [? | [? _]].
Qed.

(** What the underlying tracer does when no factory is given. *)
Lemma Tracer_create_proxy_default kind target args kwargs name type_expr s :
  Tracer_create_proxy kind target args kwargs name type_expr None s
    = (Ok (VProxy (length (heap s))),
       set_heap (λ h, h ++ [ObjMetaProxy (length (graph s)) None])
         (set_graph (λ g, g ++ [Node kind target args kwargs name type_expr]) s)).
Proof. reflexivity. Qed.

(** C3, as amended.  When the request is not a metadata input, the
    outcome of [create_proxy], result and state, is decided by the
    replay.  When the replay returns, [create_proxy] returns [rv] in the
    state the replay left.  When the replay raises an [AssertionError],
    [create_proxy] returns [rv] and adds one warning.  When the replay
    raises an exception of any other kind, [create_proxy] raises that
    exception.  In both failures, for an [rv] of this file, the state is
    the one the underlying tracer left, apart from the warning; without
    a factory that state is [s] with the node at the end of the graph
    and the new proxy [rv], which has no metadata. *)
Theorem create_proxy_outcome
    kind target args kwargs name type_expr proxy_factory_fn s rv s1 fns :
  Tracer_create_proxy kind target args kwargs name type_expr proxy_factory_fn s
    = (Ok rv, s1) →
  not_meta_input kind target s1 → orig_fns s1 = Some fns →
  let r := replay_ kind target args (patch_device fns target kwargs) rv s1 in
  create_proxy_ kind target args kwargs name type_expr proxy_factory_fn s
    = match r.1 with
      | Ok _ => (Ok rv, r.2)
      | Raise e =>
          if bool_decide (exn_kind_of e = AssertionError)
          then (Ok rv, set_warnings (λ w, w ++ [warning_text py_str target e]) r.2)
          else (Raise e, r.2)
      end
  ∧ (own_rv rv s1 → ∀ e, r.1 = Raise e → r.2 = s1)
  ∧ (proxy_factory_fn = None →
       rv = VProxy (length (heap s))
       ∧ s1 = added (Node kind target args kwargs name type_expr) None [] s
       ∧ own_rv rv s1).
Proof.
  intros Hbase Hno Hfns r. split; [|split].
  - erewrite create_proxy_unfold_replay by done.
    unfold bind, try_except_AssertionError. subst r.
    destruct (replay_ _ _ _ _ _ s1) as [[[]|e] s2]; simpl; [done|].
    by case_bool_decide.
  - intros Hrv e He. subst r.
    destruct (replay_ _ _ _ _ _ s1) as [r2 s2] eqn:Hreplay. simpl in He. subst r2.
    by destruct (replay_post _ _ _ _ _ _ Hrv _ _ Hreplay) as [? | [? _]].
  - intros ->. rewrite Tracer_create_proxy_default in Hbase.
    injection Hbase as <- <-.
    assert (set_heap (λ h, h ++ [ObjMetaProxy (length (graph s)) None])
              (set_graph (λ g, g ++ [Node kind target args kwargs name type_expr]) s)
            = added (Node kind target args kwargs name type_expr) None [] s) as ->.
    { unfold added, set_heap, set_graph; simpl. by rewrite app_nil_r. }
    split; [done|]. split; [done|].
    right. exists (length (heap s)), (ObjMetaProxy (length (graph s)) None).
    split; [done|]. split; [|done].
    simpl. rewrite lookup_app_r by lia. by rewrite Nat.sub_diag.
Qed.


Lemma grown_install nd s meta :
  grown nd s
    (set_heap (alter (set_tensor_meta meta) (length (heap s)))
       (set_heap (λ h, h ++ [ObjMetaProxy (length (graph s)) None])
          (set_graph (λ g, g ++ [nd]) s))).
Proof.
  exists (Some meta), []. unfold set_heap, set_graph; simpl.
  rewrite app_nil_r. f_equal.
  rewrite <-(Nat.add_0_r (length (heap s))) at 1. by rewrite alter_app_r.
Qed.

Lemma grown_base nd s :
  grown nd s
    (set_heap (λ h, h ++ [ObjMetaProxy (length (graph s)) None])
       (set_graph (λ g, g ++ [nd]) s)).
Proof. exists None, []. unfold set_heap, set_graph; simpl. by rewrite app_nil_r. Qed.

Lemma grown_warn nd s s' msg :
  grown nd s s' → grown nd s (set_warnings (λ w, w ++ [msg]) s').
Proof.
  intros (meta & w & ->). exists meta, (w ++ [msg]).
  unfold set_warnings; simpl. by rewrite app_assoc.
Qed.

(** Without a factory, [create_proxy] adds the requested node and one
    [MetaProxy] for it, whatever the outcome; when it returns, it returns
    that proxy. *)
Lemma create_proxy_default_frame kind target args kwargs name type_expr s :
  ∃ r s',
    create_proxy_ kind target args kwargs name type_expr None s = (r, s')
    ∧ grown (Node kind target args kwargs name type_expr) s s'
    ∧ ∀ rv, r = Ok rv → rv = VProxy (length (heap s)).
Proof.
  pose proof (Tracer_create_proxy_default kind target args kwargs name type_expr s)
    as Hbase.
  set (nd := Node kind target args kwargs name type_expr) in *.
  set (s1 := set_heap _ _) in Hbase.
  assert (heap s1 !! length (heap s) = Some (ObjMetaProxy (length (graph s)) None))
    as Hp.
  { subst s1. simpl. rewrite lookup_app_r by lia. by rewrite Nat.sub_diag. }
  assert (grown nd s s1) as Hg1 by apply grown_base.
  assert (own_rv (VProxy (length (heap s))) s1) as Hown.
  { right. eauto. }
  assert (∀ fns, orig_fns s1 = Some fns → not_meta_input kind target s1 →
          ∃ r s', create_proxy_ kind target args kwargs name type_expr None s = (r, s')
            ∧ grown nd s s' ∧ ∀ rv, r = Ok rv → rv = VProxy (length (heap s)))
    as Hreplay.
  { intros fns Hfns Hno.
    erewrite create_proxy_unfold_replay by done.
    unfold bind, try_except_AssertionError.
    destruct (replay_ kind target args (patch_device fns target kwargs)
                (VProxy (length (heap s))) s1) as [r s2] eqn:Hr.
    destruct (replay_post _ _ _ _ _ _ Hown _ _ Hr) as [-> | (-> & p & m & [= <-] & ->)].
    - destruct r as [[]|e].
      + eexists _, _. split; [done|]. split; [done|]. by intros rv [= <-].
      + case_bool_decide.
        * eexists _, _. split; [done|]. split; [by apply grown_warn|].
          by intros rv [= <-].
        * eexists _, _. split; [done|]. split; [done|]. by intros rv [=].
    - eexists _, _. split; [done|]. split; [apply grown_install|].
      by intros rv [= <-]. }
  assert (orig_fns s1 = None → not_meta_input kind target s1 →
          ∃ r s', create_proxy_ kind target args kwargs name type_expr None s = (r, s')
            ∧ grown nd s s' ∧ ∀ rv, r = Ok rv → rv = VProxy (length (heap s)))
    as Hnofns.
  { intros Hfns Hno. unfold create_proxy.
    rewrite (bind_Ok _ _ _ _ _ Hbase).
    assert ((if bool_decide (kind = "placeholder")
             then m <~ getattr_self meta_args "meta_args" ;; ret (value_getitem m target)
             else ret None) s1 = (Ok None, s1)) as Hin.
    { destruct Hno as [Hk | (m & Hm & Hget)].
      - by rewrite bool_decide_eq_false_2.
      - case_bool_decide; [|done].
        unfold bind, getattr_self. rewrite Hm. simpl. by rewrite Hget. }
    rewrite (bind_Ok _ _ _ _ _ Hin).
    unfold bind at 1. unfold getattr_self at 1. rewrite Hfns.
    eexists _, _. split; [done|]. split; [done|]. by intros rv [=]. }
  assert (not_meta_input kind target s1 →
          ∃ r s', create_proxy_ kind target args kwargs name type_expr None s = (r, s')
            ∧ grown nd s s' ∧ ∀ rv, r = Ok rv → rv = VProxy (length (heap s)))
    as Hno.
  { intros Hno. destruct (orig_fns s1) as [fns|] eqn:Hfns; eauto. }
  destruct (decide (kind = "placeholder")) as [->|Hk]; [|apply Hno; by left].
  destruct (meta_args s1) as [m|] eqn:Hm.
  - destruct (value_getitem m target) as [meta|] eqn:Hget.
    + erewrite create_proxy_unfold_meta_input by done.
      unfold bind. erewrite call_install_tensor_meta_own by done.
      eexists _, _. split; [done|]. split; [apply grown_install|].
      by intros rv [= <-].
    + apply Hno. right. eauto.
  - unfold create_proxy. rewrite (bind_Ok _ _ _ _ _ Hbase).
    rewrite bool_decide_eq_true_2 by done.
    unfold bind at 1. unfold bind at 1. unfold getattr_self at 1. rewrite Hm.
    eexists _, _. split; [done|]. split; [done|]. by intros rv [=].
Qed.

(** X5.  A metadata input requested without a factory: the whole state
    after the request. *)
Lemma create_proxy_placeholder_default target args kwargs name type_expr s m meta :
  meta_args s = Some m → value_getitem m target = Some meta →
  create_proxy_ "placeholder" target args kwargs name type_expr None s
    = (Ok (VProxy (length (heap s))),
       State (graph s ++ [Node "placeholder" target args kwargs name type_expr])
         (heap s ++ [ObjMetaProxy (length (graph s)) (Some meta)])
         (next_fn s) (torch s) (root_attrs s) (meta_args s) (orig_fns s)
         (patched_torch_methods s) (orig_forward s) (prev_module s)
         (allow_insert_stateless_mods s) (warnings s)).
Proof.
  intros Hm Hget.
  erewrite create_proxy_unfold_meta_input;
    [|apply Tracer_create_proxy_default|done|exact Hm|exact Hget].
  unfold bind.
  rewrite (call_install_tensor_meta_own (length (heap s))
             (ObjMetaProxy (length (graph s)) None)); [| |done].
  - unfold set_heap, set_graph; simpl. do 2 f_equal.
    rewrite <-(Nat.add_0_r (length (heap s))) at 1. by rewrite alter_app_r.
  - simpl. rewrite lookup_app_r by lia. by rewrite Nat.sub_diag.
Qed.

(** X2.  The failures of the replay that the specification names.
    First: a proxy among the positional arguments has no metadata. *)
Lemma replay_missing_meta kind target p o args kwargs rv s :
  heap s !! p = Some o → is_MetaProxy o = true → tensor_meta_of o = None →
  replay_ kind target (VProxy p :: args) kwargs rv s
    = (Raise (Exn AssertionError "MetaProxy does not have an associated meta"), s).
Proof.
  intros Hp Ho Hm. unfold replay.
  apply bind_Raise.
  change (map_aggregate proxys_to_metas (VTuple (VProxy p :: args)))
    with (l' <~ mapM (map_aggregate proxys_to_metas) (VProxy p :: args) ;;
          ret (St:=state) (VTuple l')).
  apply bind_Raise. rewrite mapM_cons. apply bind_Raise.
  by apply (proxys_to_metas_missing s p o).
Qed.

(** X3.  Second: the kind of the node is none of the four that are
    handled. *)
Lemma replay_unsupported_kind kind target args kwargs rv s args_metas kwargs_metas :
  map_aggregate proxys_to_metas (VTuple args) s = (Ok args_metas, s) →
  map_aggregate proxys_to_metas (VDict kwargs) s = (Ok kwargs_metas, s) →
  kind ∉ ["call_function"; "call_method"; "call_module"; "placeholder"] →
  replay_ kind target args kwargs rv s
    = (Raise (Exn AssertionError ("Unsupported node kind " +:+ kind)), s).
Proof.
  intros Ha Hk Hkind. unfold replay.
  rewrite (bind_Ok _ _ _ _ _ Ha), (bind_Ok _ _ _ _ _ Hk).
  assert (kind ≠ "call_function" ∧ kind ≠ "call_method"
          ∧ kind ≠ "call_module" ∧ kind ≠ "placeholder") as (H1 & H2 & H3 & H4).
  { repeat split; intros ->; apply Hkind; repeat constructor. }
  rewrite !bool_decide_eq_false_2 by done.
  apply bind_Raise. rewrite bool_decide_eq_false_2; [done|].
  by rewrite list_elem_of_singleton.
Qed.

(** X4.  Third: the replay of a function succeeds but [rv] is no proxy. *)
Lemma replay_composite_output target args kwargs rv s args_metas kwargs_metas meta_out :
  map_aggregate proxys_to_metas (VTuple args) s = (Ok args_metas, s) →
  map_aggregate proxys_to_metas (VDict kwargs) s = (Ok kwargs_metas, s) →
  py_call target (tuple_items args_metas) (dict_items kwargs_metas) = Ok meta_out →
  is_Proxy rv = false →
  replay_ "call_function" target args kwargs rv s
    = (Raise (Exn AssertionError "Dont support composite output yet"), s).
Proof.
  intros Ha Hk Hcall Hrv. unfold replay.
  rewrite (bind_Ok _ _ _ _ _ Ha), (bind_Ok _ _ _ _ _ Hk).
  rewrite bool_decide_eq_true_2 by done.
  unfold lift, bind. by rewrite Hcall, Hrv.
Qed.

End create_proxy_properties.

(** ** The search for a proxy among the arguments *)

Lemma check_has_proxy_mapM l :
  Forall finds_proxy l →
  ∀ acc, ∃ rs acc',
    mapM (map_aggregate check_has_proxy) l acc = (Ok rs, acc')
    ∧ is_set acc' = is_set acc || existsb contains_proxy l.
Proof.
  induction 1 as [|v l Hv _ IH]; intros acc.
  - exists [], acc. by rewrite orb_false_r.
  - destruct (Hv acc) as (r & acc1 & Hr & H1).
    destruct (IH acc1) as (rs & acc2 & Hrs & H2).
    exists (r :: rs), acc2. split.
    + simpl. rewrite (bind_Ok _ _ _ _ _ Hr). by rewrite (bind_Ok _ _ _ _ _ Hrs).
    + simpl. by rewrite H2, H1, orb_assoc.
Qed.

Lemma check_has_proxy_mapM_dict (d : list (string * value)) :
  Forall (λ kv, finds_proxy kv.2) d →
  ∀ acc, ∃ rs acc',
    mapM (λ kv : string * value,
            y <~ map_aggregate check_has_proxy kv.2 ;; ret (kv.1, y)) d acc
      = (Ok rs, acc')
    ∧ is_set acc' = is_set acc || existsb (λ kv, contains_proxy kv.2) d.
Proof.
  induction 1 as [|kv d Hv _ IH]; intros acc.
  - exists [], acc. by rewrite orb_false_r.
  - destruct (Hv acc) as (r & acc1 & Hr & H1).
    destruct (IH acc1) as (rs & acc2 & Hrs & H2).
    exists ((kv.1, r) :: rs), acc2. split.
    + assert ((y <~ map_aggregate check_has_proxy kv.2 ;; ret (kv.1, y)) acc
              = (Ok (kv.1, r), acc1)) as Hstep by (by rewrite (bind_Ok _ _ _ _ _ Hr)).
      rewrite mapM_cons. cbv beta.
      rewrite (bind_Ok _ _ _ _ _ Hstep). by rewrite (bind_Ok _ _ _ _ _ Hrs).
    + simpl. by rewrite H2, H1, orb_assoc.
Qed.

Lemma check_has_proxy_finds v : finds_proxy v.
Proof.
  induction v as [| | | |l IH|l IH|d IH| | |] using value_ind_nested; intros acc;
    try (eexists _, _; split; [reflexivity|]; simpl; by rewrite ?orb_false_r, ?orb_true_r).
  - destruct (check_has_proxy_mapM l IH acc) as (rs & acc' & Hrs & H).
    exists (VTuple rs), acc'. split; [|done].
    simpl. by rewrite (bind_Ok _ _ _ _ _ Hrs).
  - destruct (check_has_proxy_mapM l IH acc) as (rs & acc' & Hrs & H).
    exists (VList rs), acc'. split; [|done].
    simpl. by rewrite (bind_Ok _ _ _ _ _ Hrs).
  - destruct (check_has_proxy_mapM_dict d IH acc) as (rs & acc' & Hrs & H).
    exists (VDict rs), acc'. split; [|done].
    simpl. by rewrite (bind_Ok _ _ _ _ _ Hrs).
Qed.

Section proxy_properties.

Variable py_call : value → list value → list (string * value) → result value.
Variable py_getattr_call :
  value → string → list value → list (string * value) → result value.
Variable py_str : value → string.
Variable foreign_install_tensor_meta : value → value → T unit.

Local Abbreviation create_proxy_ :=
  (create_proxy py_call py_getattr_call py_str foreign_install_tensor_meta).
Local Abbreviation wrapper_ :=
  (wrapper py_call py_getattr_call py_str foreign_install_tensor_meta).
Local Abbreviation MetaProxy_size_ :=
  (MetaProxy_size py_call py_getattr_call py_str foreign_install_tensor_meta).
Local Abbreviation MetaProxy_dim_ :=
  (MetaProxy_dim py_call py_getattr_call py_str foreign_install_tensor_meta).
Local Abbreviation MetaAttribute_node_ :=
  (MetaAttribute_node py_call py_getattr_call py_str foreign_install_tensor_meta).
Local Abbreviation MetaAttribute_node_fget_ :=
  (MetaAttribute_node_fget py_call py_getattr_call py_str foreign_install_tensor_meta).
Local Abbreviation MetaAttribute_call_ :=
  (MetaAttribute_call py_call py_getattr_call py_str foreign_install_tensor_meta).

(** The wrapper never assigns [patched_torch_methods]. *)
Lemma wrapper_patched_torch_methods target args kwargs s :
  patched_torch_methods (wrapper_ target args kwargs s).2 = patched_torch_methods s.
Proof.
  unfold wrapper. cbv zeta.
  destruct (map_aggregate check_has_proxy (VDict kwargs) _).2; [|done].
  destruct (create_proxy_default_frame py_call py_getattr_call py_str
              foreign_install_tensor_meta "call_function" target args kwargs
              None None s) as (r & s' & -> & (meta & w & ->) & _).
  done.
Qed.

(** X1.  The shortcut of [size]: with metadata that is not [None] the query
    goes to the metadata and the state is not touched. *)
Lemma MetaProxy_size_meta s self o m dim :
  heap s !! self = Some o → tensor_meta_of o = Some m → is_None m = false →
  MetaProxy_size_ self dim s
    = (py_getattr_call m "size" (if truthy dim then [dim_value dim] else []) [], s).
Proof.
  intros Hp Hm Hn. unfold MetaProxy_size, bind, deref, has_tensor_meta.
  by rewrite Hp, Hm, Hn.
Qed.

Lemma MetaProxy_dim_meta s self o m :
  heap s !! self = Some o → tensor_meta_of o = Some m → is_None m = false →
  MetaProxy_dim_ self s = (py_getattr_call m "dim" [] [], s).
Proof.
  intros Hp Hm Hn. unfold MetaProxy_dim, bind, deref, has_tensor_meta.
  by rewrite Hp, Hm, Hn.
Qed.

(** The fallback of [size] and [dim]: without metadata, or with [None]
    as metadata, the call is a request of a [call_method] node. *)
Lemma MetaProxy_size_fallback s self o dim :
  heap s !! self = Some o → has_tensor_meta o = false →
  MetaProxy_size_ self dim s
    = create_proxy_ "call_method" (VStr "size")
        (if truthy dim then [VProxy self; dim_value dim] else [VProxy self]) []
        None None None s.
Proof.
  intros Hp Hm. unfold MetaProxy_size, bind, deref. by rewrite Hp, Hm.
Qed.

Lemma MetaProxy_dim_fallback s self o :
  heap s !! self = Some o → has_tensor_meta o = false →
  MetaProxy_dim_ self s
    = create_proxy_ "call_method" (VStr "dim") [VProxy self] [] None None None s.
Proof.
  intros Hp Hm. unfold MetaProxy_dim, bind, deref. by rewrite Hp, Hm.
Qed.


Lemma grown_graph nd s s' : grown nd s s' → graph s' = graph s ++ [nd].
Proof. by intros (meta & w & ->). Qed.

Lemma grown_heap_old nd s s' p o :
  grown nd s s' → heap s !! p = Some o → heap s' !! p = Some o.
Proof. intros (meta & w & ->) Hp. simpl. by apply lookup_app_l_Some. Qed.

Lemma grown_heap_new nd s s' :
  grown nd s s' →
  ∃ meta, heap s' !! length (heap s) = Some (ObjMetaProxy (length (graph s)) meta).
Proof.
  intros (meta & w & ->). exists meta. simpl.
  rewrite lookup_app_r by lia. by rewrite Nat.sub_diag.
Qed.

(** C10.  After [install_tensor_meta(None)] the attribute
    [_tensor_meta] exists and holds [None]; [size] and [dim] then take
    the symbolic path: each is the request of a [call_method] node,
    which is added to the graph, exactly as on a proxy that has no
    metadata at all. *)
Theorem install_None_takes_fallback s self o dim :
  heap s !! self = Some o → is_MetaProxy o = true →
  let s' := (MetaProxy_install_tensor_meta self VNone s).2 in
  let size_args := if truthy dim then [VProxy self; dim_value dim] else [VProxy self] in
  let size_node := Node "call_method" (VStr "size") size_args [] None None in
  let dim_node := Node "call_method" (VStr "dim") [VProxy self] [] None None in
  tensor_meta_of <$> heap s' !! self = Some (Some VNone)
  ∧ MetaProxy_size_ self dim s'
      = create_proxy_ "call_method" (VStr "size") size_args [] None None None s'
  ∧ MetaProxy_dim_ self s'
      = create_proxy_ "call_method" (VStr "dim") [VProxy self] [] None None None s'
  ∧ grown size_node s' (MetaProxy_size_ self dim s').2
  ∧ grown dim_node s' (MetaProxy_dim_ self s').2
  ∧ ∀ s0 o0, heap s0 !! self = Some o0 → tensor_meta_of o0 = None →
      MetaProxy_size_ self dim s0
        = create_proxy_ "call_method" (VStr "size") size_args [] None None None s0
      ∧ MetaProxy_dim_ self s0
        = create_proxy_ "call_method" (VStr "dim") [VProxy self] [] None None None s0.
Proof.
  intros Hp Ho s' size_args size_node dim_node.
  assert (heap s' !! self = Some (set_tensor_meta VNone o)) as Hp'.
  { subst s'. simpl. by rewrite list_lookup_alter_eq, Hp. }
  assert (tensor_meta_of (set_tensor_meta VNone o) = Some VNone) as Hm
    by (by destruct o).
  assert (has_tensor_meta (set_tensor_meta VNone o) = false) as Hhas
    by (unfold has_tensor_meta; by rewrite Hm).
  assert (MetaProxy_size_ self dim s'
          = create_proxy_ "call_method" (VStr "size") size_args [] None None None s')
    as Hsize by (by eapply MetaProxy_size_fallback).
  assert (MetaProxy_dim_ self s'
          = create_proxy_ "call_method" (VStr "dim") [VProxy self] [] None None None s')
    as Hdim by (by eapply MetaProxy_dim_fallback).
  split; [by rewrite Hp', <-Hm|]. split; [done|]. split; [done|].
  split; [|split].
  - rewrite Hsize.
    destruct (create_proxy_default_frame py_call py_getattr_call py_str
                foreign_install_tensor_meta "call_method" (VStr "size") size_args []
                None None s') as (r & s2 & -> & Hg & _).
    done.
  - rewrite Hdim.
    destruct (create_proxy_default_frame py_call py_getattr_call py_str
                foreign_install_tensor_meta "call_method" (VStr "dim") [VProxy self] []
                None None s') as (r & s2 & -> & Hg & _).
    done.
  - intros s0 o0 Hp0 Hm0. split.
    + eapply MetaProxy_size_fallback; [done|]. unfold has_tensor_meta. by rewrite Hm0.
    + eapply MetaProxy_dim_fallback; [done|]. unfold has_tensor_meta. by rewrite Hm0.
Qed.

(** The getter of [node] on an attribute that has no node: the request
    of the [getattr] node, then the store when the request returned. *)
Lemma MetaAttribute_node_fget_unfold s self root attr m :
  heap s !! self = Some (ObjMetaAttribute root attr None m) →
  let n := length (graph s) in
  let nd := Node "call_function" getattr_builtin [VProxy root; VStr attr] []
              None None in
  let r := create_proxy_ "call_function" getattr_builtin
             [VProxy root; VStr attr] [] None None None s in
  grown nd s r.2
  ∧ MetaAttribute_node_fget_ self s
    = match r.1 with
      | Ok _ => (Ok n, set_heap (alter (set_node n) self) r.2)
      | Raise e => (Raise e, r.2)
      end.
Proof.
  intros Hp n nd r.
  destruct (create_proxy_default_frame py_call py_getattr_call py_str
              foreign_install_tensor_meta "call_function" getattr_builtin
              [VProxy root; VStr attr] [] None None s) as (r' & s1 & Hcp & Hg & Hrv).
  fold nd in Hg. subst r. rewrite Hcp. cbn [fst snd]. split; [done|].
  unfold MetaAttribute_node_fget. unfold bind at 1. unfold deref at 1. rewrite Hp.
  unfold bind at 1. rewrite Hcp. destruct r' as [rv|e]; [|done].
  rewrite (Hrv rv eq_refl).
  destruct (grown_heap_new _ _ _ Hg) as [meta Hnew].
  unfold plain_node, deref, bind, modify, ret. by rewrite Hnew.
Qed.

(** The read of [node] on an attribute that has no node. *)
Lemma MetaAttribute_node_unfold s self root attr m :
  heap s !! self = Some (ObjMetaAttribute root attr None m) →
  let n := length (graph s) in
  let nd := Node "call_function" getattr_builtin [VProxy root; VStr attr] []
              None None in
  let r := create_proxy_ "call_function" getattr_builtin
             [VProxy root; VStr attr] [] None None None s in
  grown nd s r.2
  ∧ MetaAttribute_node_ self s
    = match r.1 with
      | Ok _ => (Ok (inl n), set_heap (alter (set_node n) self) r.2)
      | Raise e =>
          if bool_decide (exn_kind_of e = AttributeError)
          then (Ok (inr (VProxy (length (heap r.2)))),
                set_heap (λ h, h ++ [ObjMetaAttribute self "node" None None]) r.2)
          else (Raise e, r.2)
      end.
Proof.
  intros Hp n nd r.
  destruct (MetaAttribute_node_fget_unfold s self root attr m Hp) as [Hg Hfget].
  split; [done|]. unfold MetaAttribute_node. rewrite Hfget. fold r.
  destruct r.1 as [rv|e]; [done|]. by case_bool_decide.
Qed.

(** C8, as amended.  On a [MetaAttribute] for the attribute [attr] of
    [root]: calling it is the request of one [call_method] node for
    [attr] with [root] before the arguments, and the attribute keeps the
    [_node] it had (no node for the attribute access is made).  A read
    of [node] on an attribute that has a node returns it and leaves the
    state alone.  A read on an attribute without a node requests a
    [call_function] node of [getattr] on [root] and [attr], which is
    added to the graph.  When the request returns, the node is stored
    and the next read returns it, adding nothing.  When the request
    raises, nothing is stored, and the next read adds a second node of
    the same request; the read raises what the request raised, unless
    that is an [AttributeError], which attribute lookup answers with a
    new [MetaAttribute] for the name [node]. *)
Theorem MetaAttribute_lazy_node
    (s : state) (self root : nat) (attr : string) (_node : option nat)
    (m : option value) :
  heap s !! self = Some (ObjMetaAttribute root attr _node m) →
  (∀ args kwargs,
     let nd := Node "call_method" (VStr attr) (VProxy root :: args) kwargs None None in
     let r := MetaAttribute_call_ self args kwargs s in
     r = create_proxy_ "call_method" (VStr attr) (VProxy root :: args) kwargs
           None None None s
     ∧ grown nd s r.2
     ∧ heap r.2 !! self = Some (ObjMetaAttribute root attr _node m))
  ∧ match _node with
    | Some n => MetaAttribute_node_ self s = (Ok (inl n), s)
    | None =>
        let n := length (graph s) in
        let nd := Node "call_function" getattr_builtin [VProxy root; VStr attr] []
                    None None in
        let r := create_proxy_ "call_function" getattr_builtin
                   [VProxy root; VStr attr] [] None None None s in
        let read := MetaAttribute_node_ self s in
        grown nd s r.2
        ∧ read = match r.1 with
                 | Ok _ => (Ok (inl n), set_heap (alter (set_node n) self) r.2)
                 | Raise e =>
                     if bool_decide (exn_kind_of e = AttributeError)
                     then (Ok (inr (VProxy (length (heap r.2)))),
                           set_heap (λ h, h ++ [ObjMetaAttribute self "node" None None])
                             r.2)
                     else (Raise e, r.2)
                 end
        ∧ graph read.2 = graph s ++ [nd]
        ∧ match r.1 with
          | Ok _ =>
              heap read.2 !! self = Some (ObjMetaAttribute root attr (Some n) m)
              ∧ MetaAttribute_node_ self read.2 = (Ok (inl n), read.2)
          | Raise _ =>
              heap read.2 !! self = Some (ObjMetaAttribute root attr None m)
              ∧ graph (MetaAttribute_node_ self read.2).2 = graph s ++ [nd; nd]
          end
    end.
Proof.
  intros Hp. split.
  - intros args kwargs nd r.
    assert (r = create_proxy_ "call_method" (VStr attr) (VProxy root :: args) kwargs
                  None None None s) as Hr.
    { subst r. unfold MetaAttribute_call, bind, deref. by rewrite Hp. }
    split; [done|]. rewrite Hr.
    destruct (create_proxy_default_frame py_call py_getattr_call py_str
                foreign_install_tensor_meta "call_method" (VStr attr)
                (VProxy root :: args) kwargs None None s) as (r' & s' & -> & Hg & _).
    split; [done|]. by eapply grown_heap_old.
  - destruct _node as [n|].
    { unfold MetaAttribute_node, MetaAttribute_node_fget, bind, deref.
      by rewrite Hp. }
    intros n nd r read.
    destruct (MetaAttribute_node_unfold s self root attr m Hp) as [Hg Hread].
    fold n nd r in Hg, Hread. fold read in Hread.
    split; [done|]. split; [done|].
    pose proof (grown_graph _ _ _ Hg) as Hgraph.
    pose proof (grown_heap_old _ _ _ _ _ Hg Hp) as Hself.
    assert (self < length (heap r.2)) as Hlt by (by eapply lookup_lt_Some).
    assert (graph read.2 = graph s ++ [nd]
            ∧ heap read.2 !! self
              = Some (ObjMetaAttribute root attr
                        (match r.1 with Ok _ => Some n | Raise _ => None end) m))
      as [Hgraph' Hself'].
    { rewrite Hread. destruct r.1 as [rv|e]; [|case_bool_decide]; cbn [snd].
      - split; [done|]. cbn [heap set_heap]. by rewrite list_lookup_alter_eq, Hself.
      - split; [done|]. cbn [heap set_heap]. by rewrite lookup_app_l.
      - done. }
    split; [done|].
    destruct r.1 as [rv|e].
    + split; [done|].
      unfold MetaAttribute_node, MetaAttribute_node_fget, bind, deref.
      by rewrite Hself'.
    + split; [done|].
      destruct (MetaAttribute_node_unfold read.2 self root attr m Hself')
        as [Hg2 Hread2].
      fold nd in Hg2, Hread2.
      pose proof (grown_graph _ _ _ Hg2) as Hgraph2.
      rewrite Hread2.
      destruct (create_proxy_ _ _ _ _ _ _ _ read.2).1 as [rv2|e2];
        [|case_bool_decide]; cbn [snd graph set_heap];
        by rewrite Hgraph2, Hgraph', <-app_assoc.
Qed.

End proxy_properties.

(** ** Attribute access and the device of constructors *)

(** X7.  Attribute access for a name other than the metadata slot makes a new
    [MetaAttribute] bound to the proxy and the name, without a node, and
    adds nothing to the graph. *)
Lemma MetaProxy_getattr_lazy self k s :
  k ≠ "_tensor_meta" →
  MetaProxy_getattr self k s
    = (Ok (VProxy (length (heap s))),
       set_heap (λ h, h ++ [ObjMetaAttribute self k None None]) s).
Proof. intros Hk. unfold MetaProxy_getattr. by rewrite bool_decide_eq_false_2. Qed.

Lemma dict_get_set_eq d k v : dict_get (dict_set d k v) k = Some v.
Proof.
  induction d as [|[k' v'] d IH]; simpl.
  - by rewrite bool_decide_eq_true_2.
  - case_bool_decide; simpl.
    + by rewrite bool_decide_eq_true_2.
    + by rewrite bool_decide_eq_false_2.
Qed.

Lemma dict_get_set_ne d k k' v : k ≠ k' → dict_get (dict_set d k v) k' = dict_get d k'.
Proof.
  intros Hne. induction d as [|[k0 v0] d IH]; simpl.
  - by rewrite bool_decide_eq_false_2.
  - case_bool_decide as Hk0; simpl.
    + subst k0. by rewrite !bool_decide_eq_false_2.
    + case_bool_decide; [done|]. apply IH.
Qed.

(** X8.  Lines 84-91: for a target among the original constructors and a call
    that names a device, the replay gets the device ['meta'] and every
    other keyword argument as it was. *)
Lemma patch_device_meta fns target kwargs :
  existsb (value_eqb target) fns = true → is_Some (dict_get kwargs "device") →
  dict_get (patch_device fns target kwargs) "device" = Some (VStr "meta")
  ∧ ∀ k, k ≠ "device" → dict_get (patch_device fns target kwargs) k = dict_get kwargs k.
Proof.
  intros Hin Hdev. unfold patch_device. rewrite Hin.
  rewrite bool_decide_eq_true_2 by done. split.
  - apply dict_get_set_eq.
  - intros k Hk. by apply dict_get_set_ne.
Qed.

(** ** The search for a free name *)

Lemma suffixed_inj mod_name : Inj (=) (=) (suffixed mod_name).
Proof.
  intros i j H. unfold suffixed in H.
  apply (inj (String.app mod_name)) in H.
  apply (inj (String.app "_")) in H.
  by apply (inj pretty) in H.
Qed.

(** Among the first [size attrs + 1] suffixes one is no attribute. *)
Lemma some_suffix_free (attrs : gmap string (option nn_module)) mod_name :
  ∃ t, t ≤ size attrs ∧ hasattr_root attrs (suffixed mod_name t) = false.
Proof.
  destruct (decide (Forall (λ t, hasattr_root attrs (suffixed mod_name t) = true)
                      (seq 0 (S (size attrs))))) as [Hall | Hex].
  - exfalso.
    set (names := suffixed mod_name <$> seq 0 (S (size attrs))).
    assert (NoDup names) as Hnd.
    { apply (NoDup_fmap_2 _). apply NoDup_seq. }
    assert (list_to_set names ⊆ dom attrs) as Hsub.
    { intros x. rewrite elem_of_list_to_set. unfold names.
      rewrite list_elem_of_fmap. intros (t & -> & Ht).
      rewrite Forall_forall in Hall. specialize (Hall t Ht).
      unfold hasattr_root in Hall. apply bool_decide_eq_true in Hall.
      by apply elem_of_dom. }
    apply subseteq_size in Hsub.
    rewrite size_list_to_set in Hsub by done.
    rewrite size_dom in Hsub. unfold names in Hsub.
    rewrite length_fmap, length_seq in Hsub. lia.
  - apply not_Forall_Exists in Hex; [|intros t; apply _].
    apply Exists_exists in Hex as (t & Ht & Hfree).
    apply elem_of_seq in Ht. exists t. split; [lia|].
    by apply not_true_is_false.
Qed.

Lemma all_true_or_least_false (P : nat → bool) n :
  (∀ t, t < n → P t = true)
  ∨ ∃ i, i < n ∧ P i = false ∧ ∀ t, t < i → P t = true.
Proof.
  induction n as [|n [Hall | (i & Hi & HPi & Hlt)]].
  - left. intros; lia.
  - destruct (P n) eqn:HPn.
    + left. intros t Ht. destruct (decide (t = n)) as [->|]; [done|]. apply Hall. lia.
    + right. exists n. split; [lia|done].
  - right. exists i. split; [lia|done].
Qed.

Lemma least_false (P : nat → bool) n :
  (∃ t, t ≤ n ∧ P t = false) →
  ∃ i, i ≤ n ∧ P i = false ∧ ∀ t, t < i → P t = true.
Proof.
  intros (t & Ht & HP).
  destruct (all_true_or_least_false P (S n)) as [Hall | (i & Hi & HPi & Hlt)].
  - rewrite Hall in HP by lia. done.
  - exists i. split; [lia|done].
Qed.

(** The loop from its second test on: [idx] is one ahead of the suffix
    of [path]. *)
Lemma insert_loop_ahead attrs mod_name i :
  hasattr_root attrs (suffixed mod_name i) = false →
  ∀ d j fuel, i = j + d → d ≤ fuel →
    (∀ t, j ≤ t < i → hasattr_root attrs (suffixed mod_name t) = true) →
    insert_loop fuel attrs mod_name (S j) (suffixed mod_name j)
      = Some (suffixed mod_name i).
Proof.
  intros Hfree. induction d as [|d IH]; intros j fuel Hi Hfuel Hused.
  - assert (j = i) as -> by lia. destruct fuel; simpl; by rewrite Hfree.
  - destruct fuel as [|fuel]; [lia|]. simpl.
    rewrite Hused by lia. apply IH; [lia|lia|]. intros t Ht. apply Hused. lia.
Qed.

(** The loop as line 127 enters it returns the least free suffix, given
    fuel for one round more than that suffix. *)
Lemma insert_loop_least attrs mod_name i fuel :
  hasattr_root attrs (suffixed mod_name i) = false →
  (∀ t, t < i → hasattr_root attrs (suffixed mod_name t) = true) →
  i < fuel →
  insert_loop fuel attrs mod_name 0 (suffixed mod_name 0) = Some (suffixed mod_name i).
Proof.
  intros Hfree Hused Hfuel.
  destruct (decide (i = 0)) as [-> | Hi].
  - destruct fuel; simpl; by rewrite Hfree.
  - destruct fuel as [|fuel]; [lia|]. simpl. rewrite Hused by lia.
    apply (insert_loop_ahead attrs mod_name i Hfree i 0); [done|lia|].
    intros t Ht. apply Hused. lia.
Qed.

(** ** Patching and restoring the constructors of torch *)

(** Building the dictionary of wrappers reads [torch] without changing
    it; every entry holds the function that [torch] binds to its name. *)
Lemma mapM_patch_entry names :
  ∀ s r s', mapM patch_entry names s = (r, s') →
    torch s' = torch s
    ∧ ∀ patched, r = Ok patched →
        Forall (λ item, torch s !! item.1 = Some item.2.2) patched
        ∧ patched.*1 = names.
Proof.
  induction names as [|name names IH]; intros s r s'.
  - intros [= <- <-]. split; [done|]. by intros patched [= <-].
  - rewrite mapM_cons. unfold bind at 1.
    unfold patch_entry at 1. unfold bind at 1. unfold getattr_torch at 1.
    destruct (torch s !! name) as [orig|] eqn:Horig; [|by intros [= <- <-]].
    unfold bind at 1. unfold gen_constructor_wrapper at 1. unfold ret at 1.
    unfold bind at 1.
    destruct (mapM patch_entry names (set_next_fn S s)) as [r1 s1] eqn:Hrest.
    destruct (IH _ _ _ Hrest) as [Ht Hp].
    destruct r1 as [patched|e]; intros [= <- <-]; [|by split].
    split; [done|]. intros ? [= <-].
    destruct (Hp patched eq_refl) as [HF Hn].
    split; [|by rewrite <-Hn]. by constructor.
Qed.

Lemma for_each_patch_one patched :
  ∀ s, is_Some (orig_fns s) →
    ∃ s', for_each patch_one patched s = (Ok tt, s')
      ∧ patched_torch_methods s' = patched_torch_methods s.
Proof.
  induction patched as [|[name [w orig]] patched IH]; intros s [fns Hfns].
  - by exists s.
  - destruct (IH (set_orig_fns (Some (set_add orig fns))
                    (set_torch (<[name := w]>) s))) as (s' & Hs' & Hp); [by eexists|].
    exists s'. split; [|done].
    simpl. unfold bind at 1. unfold patch_one, setattr_torch.
    unfold bind at 1. unfold modify at 1. unfold bind at 1.
    unfold getattr_self at 1. simpl. rewrite Hfns. done.
Qed.

Lemma for_each_restore_one patched :
  ∀ s, ∃ s', for_each restore_one patched s = (Ok tt, s')
    ∧ torch s' = foldl (λ t item, <[item.1 := item.2.2]> t) (torch s) patched.
Proof.
  induction patched as [|[name [w orig]] patched IH]; intros s.
  - by exists s.
  - destruct (IH (set_torch (<[name := orig]>) s)) as (s' & Hs' & Ht).
    exists s'. split; [|done]. simpl. by unfold bind, restore_one, setattr_torch, modify.
Qed.

Lemma restored_lookup (t0 : gmap string value) patched :
  Forall (λ item : string * (value * value), t0 !! item.1 = Some item.2.2) patched →
  ∀ (t : gmap string value) name,
    foldl (λ t item, <[item.1 := item.2.2]> t) t patched !! name
      = if bool_decide (name ∈ patched.*1) then t0 !! name else t !! name.
Proof.
  induction 1 as [|item patched Hitem _ IH]; intros t name; [done|].
  simpl. rewrite IH.
  destruct (decide (name ∈ patched.*1)) as [Hin | Hnin].
  - rewrite !bool_decide_eq_true_2; [done| |done]. rewrite elem_of_cons. by right.
  - rewrite (bool_decide_eq_false_2 _ Hnin).
    destruct (decide (name = item.1)) as [-> | Hne].
    + rewrite bool_decide_eq_true_2 by left. by rewrite lookup_insert_eq.
    + rewrite bool_decide_eq_false_2; [by rewrite lookup_insert_ne|].
      rewrite elem_of_cons. by intros [?|?].
Qed.

Section Tracer_properties.

Variable Tracer_path_of_module : nn_module → T string.
Variable Tracer_trace : value → option value → T value.

Local Abbreviation path_of_module_ := (path_of_module Tracer_path_of_module).
Local Abbreviation trace_ := (trace Tracer_trace).

(** C7.  When the underlying tracer fails to resolve the path of a
    module with a [NameError]: if insertion is allowed and the module has
    neither parameters nor buffers, [path_of_module] returns the
    lower-cased class name with the least numeric suffix that is no
    attribute of the root, registers the module under that name and
    records it as [prev_module]; the loop of the search ends within
    [size (root_attrs s1) + 1] rounds.  Otherwise the [NameError] is
    raised again and nothing changes. *)
Theorem path_of_module_fallback md s e s1 fuel :
  Tracer_path_of_module md s = (Raise e, s1) →
  exn_kind_of e = NameError →
  (allow_insert_stateless_mods s1 = true → parameters md = [] → buffers md = [] →
   size (root_attrs s1) < fuel →
   ∃ i, let path := suffixed (lower (class_name md)) i in
     root_attrs s1 !! path = None
     ∧ (∀ j, j < i → is_Some (root_attrs s1 !! suffixed (lower (class_name md)) j))
     ∧ path_of_module_ fuel md s
         = Some (Ok path,
                 set_prev_module (Some path)
                   (set_root_attrs (<[path := Some md]>) s1)))
  ∧ (allow_insert_stateless_mods s1 = false ∨ parameters md ≠ [] ∨ buffers md ≠ [] →
     path_of_module_ fuel md s = Some (Raise e, s1)).
Proof.
  intros Hsuper He. split.
  - intros Hallow Hpar Hbuf Hfuel.
    destruct (least_false (λ t, hasattr_root (root_attrs s1)
                                  (suffixed (lower (class_name md)) t))
                (size (root_attrs s1)) (some_suffix_free _ _))
      as (i & Hi & Hfree & Hused).
    exists i. intros path. split; [|split].
    + unfold hasattr_root in Hfree. apply bool_decide_eq_false in Hfree.
      by apply eq_None_not_Some.
    + intros j Hj. specialize (Hused j Hj).
      unfold hasattr_root in Hused. by apply bool_decide_eq_true in Hused.
    + unfold path_of_module. rewrite Hsuper.
      rewrite bool_decide_eq_true_2 by done.
      rewrite Hallow, Hpar, Hbuf. simpl.
      unfold _insert_module_as_submodule.
      rewrite (insert_loop_least _ _ i) by (done || lia). done.
  - intros Hcond. unfold path_of_module. rewrite Hsuper.
    rewrite bool_decide_eq_true_2 by done.
    destruct Hcond as [-> | [Hpar | Hbuf]]; [done| |].
    + destruct (parameters md); [done|]. simpl. by rewrite andb_false_r.
    + destruct (buffers md); [done|]. simpl. by rewrite andb_false_r.
Qed.


(** C4.  Every name of [_TORCH_METHODS_TO_PATCH] is bound in [torch]
    after [trace] to what it was bound to before, whether [trace] returns
    or raises (a failed assertion on [meta_args], a name missing from
    [torch], an exception of the underlying trace).  The underlying trace
    is any computation that leaves the attribute [patched_torch_methods]
    of the tracer as [trace] set it: nothing but [trace] assigns it, and
    traces on one tracer do not nest. *)
Theorem trace_restores_torch root meta_args concrete_args s :
  (∀ s0, patched_torch_methods (Tracer_trace root concrete_args s0).2
         = patched_torch_methods s0) →
  ∀ name, name ∈ _TORCH_METHODS_TO_PATCH →
    torch (trace_ root meta_args concrete_args s).2 !! name = torch s !! name.
Proof.
  intros Hframe name Hname. unfold trace.
  unfold bind at 1. destruct (is_dict meta_args); [|done]. simpl assert. cbv beta iota.
  unfold ret at 1. unfold bind at 1. unfold modify at 1.
  set (s1 := set_meta_args (Some meta_args) s).
  unfold bind at 1.
  destruct (mapM patch_entry _TORCH_METHODS_TO_PATCH s1) as [r2 s2] eqn:Hpatch.
  destruct (mapM_patch_entry _ _ _ _ Hpatch) as [Ht Hp].
  destruct r2 as [patched|e]; [|cbn [snd]; by rewrite Ht].
  destruct (Hp patched eq_refl) as [HF Hn].
  unfold bind at 1. unfold modify at 1. unfold bind at 1. unfold modify at 1.
  set (s3 := set_orig_fns _ _).
  unfold bind at 1. unfold getattr_self at 1. cbn [patched_torch_methods s3 set_orig_fns set_patched_torch_methods].
  destruct (for_each_patch_one patched s3) as (s4 & Hs4 & Hp4); [by eexists|].
  unfold bind at 1. rewrite Hs4.
  unfold try_finally.
  pose proof (Hframe s4) as Hf.
  destruct (Tracer_trace root concrete_args s4) as [r5 s5]. cbn [snd] in Hf.
  unfold bind at 1. unfold getattr_self at 1. rewrite Hf, Hp4. cbn [patched_torch_methods s3 set_orig_fns set_patched_torch_methods].
  destruct (for_each_restore_one patched s5) as (s6 & -> & Ht6).
  cbn [snd]. rewrite Ht6.
  rewrite (restored_lookup (torch s) patched); [|exact HF].
  rewrite bool_decide_eq_true_2; [done|]. by rewrite Hn.
Qed.

(** X6.  The precondition of line 148: metadata inputs that are no
    dictionary abort the trace before anything is touched. *)
Lemma trace_rejects_non_dict root meta_args concrete_args s :
  is_dict meta_args = false →
  trace_ root meta_args concrete_args s = (Raise (Exn AssertionError ""), s).
Proof. intros H. unfold trace, bind. by rewrite H. Qed.

End Tracer_properties.

(** * The properties at concrete inputs *)

Lemma grown_patched_torch_methods nd s s' :
  grown nd s s' → patched_torch_methods s' = patched_torch_methods s.
Proof. by intros (meta & w & ->). Qed.

(** The underlying trace of the examples never assigns
    [patched_torch_methods]. *)
Lemma example_trace_frame root concrete_args s0 :
  patched_torch_methods (example_trace root concrete_args s0).2
    = patched_torch_methods s0.
Proof.
  unfold example_trace, example_create_proxy. unfold bind at 1.
  destruct (create_proxy_default_frame example_call example_getattr_call example_str
              example_foreign_install "placeholder" (VStr "x") [] [] None None s0)
    as (r & s1 & -> & Hg & _).
  apply grown_patched_torch_methods in Hg.
  destruct r as [x|e]; [|done].
  unfold bind at 1. unfold getattr_torch at 1.
  destruct (torch s1 !! "zeros") as [zeros|]; [|done].
  unfold bind at 1.
  assert (∀ c : T value, patched_torch_methods (c s1).2 = patched_torch_methods s1 →
          patched_torch_methods
            (match c s1 with
             | (Ok a, s') => raise (A:=value) (Exn RuntimeError "forward failed") s'
             | (Raise e, s') => (Raise e, s')
             end).2 = patched_torch_methods s0) as Hstep.
  { intros c Hc. rewrite <-Hg, <-Hc. by destruct (c s1) as [[?|?] ?]. }
  destruct zeros; try (by apply Hstep).
  apply Hstep.
  apply (wrapper_patched_torch_methods example_call example_getattr_call example_str
           example_foreign_install).
Qed.

(** C1 at the placeholder [x] of the examples: proxy 0 receives the
    tensor 1 of the metadata inputs. *)
Lemma create_proxy_placeholder_meta_input_witness :
  let s1 := (Tracer_create_proxy "placeholder" (VStr "x") [] [] None None None
               example_state).2 in
  let s' := set_heap (alter (set_tensor_meta (VObj 1)) 0) s1 in
  (heap s1 !! 0 = Some (ObjMetaProxy 0 None)
   ∧ meta_args s1 = Some example_meta_args
   ∧ value_getitem example_meta_args (VStr "x") = Some (VObj 1))
  ∧ example_create_proxy "placeholder" (VStr "x") [] [] None None None example_state
      = (Ok (VProxy 0), s')
  ∧ tensor_meta_of <$> heap s' !! 0 = Some (Some (VObj 1))
  ∧ graph s' = graph s1 ∧ warnings s' = warnings s1.
Proof.
  split; [repeat split; reflexivity|].
  apply (create_proxy_placeholder_meta_input example_call example_getattr_call
           example_str example_foreign_install (VStr "x") [] [] None None None
           example_state 0 (ObjMetaProxy 0 None) _
           example_meta_args (VObj 1)); reflexivity.
Defined.

(** C2 at a call of function 11, whose replay fails an assertion. *)
Lemma create_proxy_assertion_recovered_witness :
  let s1 := (Tracer_create_proxy "call_function" (VObj 11) [VProxy 0] [] None None None
               example_state_x).2 in
  let e := Exn AssertionError "expected a contiguous tensor" in
  (orig_fns s1 = Some example_orig_fns
   ∧ example_replay "call_function" (VObj 11) [VProxy 0]
       (patch_device example_orig_fns (VObj 11) []) (VProxy 1) s1 = (Raise e, s1))
  ∧ example_create_proxy "call_function" (VObj 11) [VProxy 0] [] None None None
        example_state_x
      = (Ok (VProxy 1),
         set_warnings
           (λ w, w ++ ["Could not compute metadata for target <object>: expected a contiguous tensor"])
           s1)
  ∧ (own_rv (VProxy 1) s1 → s1 = s1).
Proof.
  split; [split; reflexivity|].
  apply (create_proxy_assertion_recovered example_call example_getattr_call
           example_str example_foreign_install "call_function" (VObj 11) [VProxy 0] []
           None None None example_state_x (VProxy 1) _ example_orig_fns
           (Exn AssertionError "expected a contiguous tensor") _);
    [reflexivity | by left | reflexivity | reflexivity | reflexivity].
Defined.

(** C3, refuted as stated: the replay of [add] on the tensors of shapes
    (2, 3) and (4,) raises a [RuntimeError], and so does [create_proxy]:
    the request aborts although only the metadata could not be computed. *)
Lemma create_proxy_RuntimeError_propagates :
  let e := Exn RuntimeError "The size of tensor a must match the size of tensor b" in
  let s1 := (Tracer_create_proxy "call_function" (VObj 10) [VProxy 0; VProxy 1] []
               None None None example_state_xy).2 in
  example_replay "call_function" (VObj 10) [VProxy 0; VProxy 1] [] (VProxy 2) s1
    = (Raise e, s1)
  ∧ example_create_proxy "call_function" (VObj 10) [VProxy 0; VProxy 1] []
      None None None example_state_xy
    = (Raise e, s1).
Proof. split; reflexivity. Qed.

(** C3 as amended, at a [call_method] request without arguments: the
    replay raises an [IndexError], and so does [create_proxy], in the
    state that holds the node and the new proxy, which has no metadata. *)
Lemma create_proxy_outcome_witness :
  let nd := Node "call_method" (VStr "size") [] [] None None in
  let s1 := added nd None [] example_state_x in
  example_replay "call_method" (VStr "size") []
      (patch_device example_orig_fns (VStr "size") []) (VProxy 1) s1
    = (Raise (Exn IndexError "tuple index out of range"), s1)
  ∧ example_create_proxy "call_method" (VStr "size") [] [] None None None
      example_state_x
    = (Raise (Exn IndexError "tuple index out of range"), s1)
  ∧ graph s1 = graph example_state_x ++ [nd]
  ∧ heap s1 !! 1 = Some (ObjMetaProxy 1 None).
Proof.
  intros nd s1. split; [reflexivity|]. split; [|split; reflexivity].
  destruct (create_proxy_outcome example_call example_getattr_call example_str
              example_foreign_install "call_method" (VStr "size") [] [] None None None
              example_state_x (VProxy 1) s1 example_orig_fns)
    as (Hout & _ & _); [reflexivity | by left | reflexivity |].
  etrans; [exact Hout | reflexivity].
Defined.

(** C4 at the trace that raises mid-way, for the name [zeros]. *)
Lemma trace_restores_torch_witness :
  "zeros" ∈ _TORCH_METHODS_TO_PATCH
  ∧ torch (trace example_trace (VObj 30) example_meta_args None example_idle_state).2
      !! "zeros" = torch example_idle_state !! "zeros".
Proof.
  assert ("zeros" ∈ _TORCH_METHODS_TO_PATCH) as Hin
    by (unfold _TORCH_METHODS_TO_PATCH; repeat constructor).
  split; [exact Hin|].
  exact (trace_restores_torch example_trace (VObj 30) example_meta_args None
           example_idle_state (example_trace_frame (VObj 30) None) "zeros" Hin).
Defined.

(** C7 at a root that has a child [relu_0] and a module of class [ReLU]
    that the underlying tracer does not know. *)
Lemma path_of_module_fallback_witness :
  (example_path_of_module example_relu example_root_state
     = (Raise (Exn NameError "module is not installed as a submodule"),
        example_root_state))
  ∧ (allow_insert_stateless_mods example_root_state = true →
     parameters example_relu = [] → buffers example_relu = [] →
     size (root_attrs example_root_state) < 3 →
     ∃ i, let path := suffixed (lower (class_name example_relu)) i in
       root_attrs example_root_state !! path = None
       ∧ (∀ j, j < i →
            is_Some (root_attrs example_root_state
                       !! suffixed (lower (class_name example_relu)) j))
       ∧ path_of_module example_path_of_module 3 example_relu example_root_state
           = Some (Ok path,
                   set_prev_module (Some path)
                     (set_root_attrs (<[path := Some example_relu]>)
                        example_root_state)))
  ∧ (allow_insert_stateless_mods example_root_state = false
     ∨ parameters example_relu ≠ [] ∨ buffers example_relu ≠ [] →
     path_of_module example_path_of_module 3 example_relu example_root_state
       = Some (Raise (Exn NameError "module is not installed as a submodule"),
               example_root_state)).
Proof.
  split; [reflexivity|].
  apply (path_of_module_fallback example_path_of_module example_relu
           example_root_state (Exn NameError "module is not installed as a submodule")
           example_root_state 3); reflexivity.
Defined.

(** C10 at proxy 0 of the examples, with [size(1)] and [dim()]. *)
Lemma install_None_takes_fallback_witness :
  let s' := (MetaProxy_install_tensor_meta 0 VNone example_state_x).2 in
  let size_node := Node "call_method" (VStr "size") [VProxy 0; VInt 1] [] None None in
  let dim_node := Node "call_method" (VStr "dim") [VProxy 0] [] None None in
  heap example_state_x !! 0 = Some (ObjMetaProxy 0 (Some (VObj 1)))
  ∧ tensor_meta_of <$> heap s' !! 0 = Some (Some VNone)
  ∧ example_size 0 (Some 1%Z) s'
      = example_create_proxy "call_method" (VStr "size") [VProxy 0; VInt 1] []
          None None None s'
  ∧ example_dim 0 s'
      = example_create_proxy "call_method" (VStr "dim") [VProxy 0] [] None None None s'
  ∧ grown size_node s' (example_size 0 (Some 1%Z) s').2
  ∧ grown dim_node s' (example_dim 0 s').2.
Proof.
  split; [reflexivity|].
  destruct (install_None_takes_fallback example_call example_getattr_call example_str
              example_foreign_install example_state_x 0 (ObjMetaProxy 0 (Some (VObj 1)))
              (Some 1%Z) eq_refl eq_refl) as (H1 & H2 & H3 & H4 & H5 & _).
  repeat split; assumption.
Defined.

(** C8, refuted as stated: the attribute [imag] of proxy 0, whose
    metadata is a real tensor.  The request of the [getattr] node raises
    a [RuntimeError] after the node was added, so the first read of
    [node] raises and stores nothing; the second read adds the same node
    once more and raises again.  No read returns a node, and the graph
    has two nodes for the one attribute. *)
Lemma MetaAttribute_node_requested_again :
  let s := (MetaProxy_getattr 0 "imag" example_state_x).2 in
  let nd := Node "call_function" getattr_builtin [VProxy 0; VStr "imag"] []
              None None in
  let e := Exn RuntimeError
             "imag is not implemented for tensors with non-complex dtypes" in
  let first := example_node 1 s in
  let second := example_node 1 first.2 in
  heap s !! 1 = Some (ObjMetaAttribute 0 "imag" None None)
  ∧ first.1 = Raise e
  ∧ graph first.2 = graph example_state_x ++ [nd]
  ∧ heap first.2 !! 1 = Some (ObjMetaAttribute 0 "imag" None None)
  ∧ second.1 = Raise e
  ∧ graph second.2 = graph example_state_x ++ [nd; nd].
Proof. repeat split; reflexivity. Qed.

(** C8 as amended, at the attribute [shape] of proxy 0: the first read
    of [node] adds the [getattr] node, node 1, and stores it; the second
    read returns node 1 and changes nothing. *)
Lemma MetaAttribute_lazy_node_witness :
  let s := (MetaProxy_getattr 0 "shape" example_state_x).2 in
  let nd := Node "call_function" getattr_builtin [VProxy 0; VStr "shape"] []
              None None in
  let read := example_node 1 s in
  heap s !! 1 = Some (ObjMetaAttribute 0 "shape" None None)
  ∧ read.1 = Ok (inl 1)
  ∧ graph read.2 = graph example_state_x ++ [nd]
  ∧ heap read.2 !! 1 = Some (ObjMetaAttribute 0 "shape" (Some 1) None)
  ∧ example_node 1 read.2 = (Ok (inl 1), read.2).
Proof.
  intros s nd read. split; [reflexivity|].
  destruct (MetaAttribute_lazy_node example_call example_getattr_call example_str
              example_foreign_install s 1 0 "shape" None None eq_refl)
    as (_ & _ & Hread & Hgraph & Hstored & Hagain).
  split; [|split; [exact Hgraph|split; [exact Hstored|exact Hagain]]].
  unfold read, example_node. by rewrite Hread.
Defined.

(** C6, where the code departs from it.  Proxy 0 carries the tensor of
    shape (2, 3).  [size(0)] on it returns the whole size (2, 3), where
    the size query of the metadata for dimension 0 is 2: the test
    [if dim] of line 31 takes 0 for an absent argument.  Line 32 has the
    same test: on a proxy without metadata the node requested for
    [size(0)] does not carry the 0. *)
Theorem MetaProxy_size_dim_zero :
  example_size 0 (Some 0%Z) example_state_x
    = (Ok (VTuple [VInt 2; VInt 3]), example_state_x)
  ∧ example_getattr_call (VObj 1) "size" [VInt 0] [] = Ok (VInt 2)
  ∧ graph (example_size 0 (Some 0%Z) example_state_z).2
    = graph example_state_z
      ++ [Node "call_method" (VStr "size") [VProxy 0] [] None None].
Proof. repeat split; reflexivity. Qed.

(** ** Runs of the examples *)

(** The trace that raises mid-way: the wrapper of [zeros] redirects the
    call on the proxy into the graph, the replay of [zeros] on the
    metadata fails with a [TypeError], the trace raises it, and [torch] is
    as before. *)
Example trace_raising_restores :
  let r := trace example_trace (VObj 30) example_meta_args None example_idle_state in
  r.1 = Raise (Exn TypeError "zeros(): argument 'size' must be tuple of ints")
  ∧ torch r.2 = example_torch
  ∧ node_op <$> graph r.2 = ["placeholder"; "call_function"]
  ∧ patched_torch_methods r.2 = Some example_patched
  ∧ orig_fns r.2 = Some example_orig_fns.
Proof. vm_compute. repeat split; reflexivity. Qed.

(** The state in which [trace] starts the underlying trace is the one the
    examples start from. *)
Example trace_starts_underlying_trace :
  (trace (λ _ _ s, (Ok VNone, set_torch (λ _, example_torch) s)) (VObj 30)
     example_meta_args None example_idle_state).2
    = set_torch (λ _, example_torch) example_state.
Proof. vm_compute. reflexivity. Qed.

(** Lines 84-91: a constructor of [torch] is replayed on the device
    ['meta'] whatever device the call names; the node keeps the device of
    the call. *)
Example constructor_replayed_on_meta :
  let r := example_create_proxy "call_function" (VObj 21) [VInt 4]
             [("device", VStr "cpu")] None None None example_state in
  r.1 = Ok (VProxy 0)
  ∧ tensor_meta_of <$> heap r.2 !! 0 = Some (Some (VObj 2))
  ∧ node_kwargs <$> graph r.2 !! 0 = Some [("device", VStr "cpu")].
Proof. repeat split; reflexivity. Qed.

Example path_of_module_relu :
  path_of_module example_path_of_module 3 example_relu example_root_state
    = Some (Ok "relu_1",
            set_prev_module (Some "relu_1")
              (set_root_attrs (<["relu_1" := Some example_relu]>) example_root_state)).
Proof. vm_compute. reflexivity. Qed.

Example size_of_dimension_one :
  example_size 0 (Some 1%Z) example_state_x = (Ok (VInt 3), example_state_x)
  ∧ example_size 0 None example_state_x
    = (Ok (VTuple [VInt 2; VInt 3]), example_state_x)
  ∧ example_dim 0 example_state_x = (Ok (VInt 2), example_state_x).
Proof. repeat split; reflexivity. Qed.

Example wrapper_without_proxy :
  example_wrapper (VObj 12) [VInt 3; VList [VInt 2]] [("device", VStr "cpu")] example_state_x
    = (Ok (VInt 3), example_state_x).
Proof. reflexivity. Qed.

Example wrapper_with_nested_proxy :
  let r := example_wrapper (VObj 12) [VList [VInt 2; VProxy 0]] [] example_state_x in
  r.1 = Ok (VProxy 1)
  ∧ graph r.2 = graph example_state_x
      ++ [Node "call_function" (VObj 12) [VList [VInt 2; VProxy 0]] [] None None]
  ∧ tensor_meta_of <$> heap r.2 !! 1 = Some (Some (VList [VInt 2; VObj 1])).
Proof. repeat split; reflexivity. Qed.

(** ** Further properties at concrete inputs *)

(** X1 at proxy 0 of the examples and the dimension -1. *)
Lemma MetaProxy_size_meta_witness :
  heap example_state_x !! 0 = Some (ObjMetaProxy 0 (Some (VObj 1)))
  ∧ example_size 0 (Some (-1)%Z) example_state_x
    = (example_getattr_call (VObj 1) "size" [VInt (-1)] [], example_state_x).
Proof.
  split; [reflexivity|].
  apply (MetaProxy_size_meta example_call example_getattr_call example_str
           example_foreign_install example_state_x 0 (ObjMetaProxy 0 (Some (VObj 1)))
           (VObj 1) (Some (-1)%Z)); reflexivity.
Defined.

(** X2 at the placeholder [z], which has no metadata. *)
Lemma replay_missing_meta_witness :
  heap example_state_z !! 0 = Some (ObjMetaProxy 0 None)
  ∧ example_replay "call_function" (VObj 10) [VProxy 0; VProxy 0] [] (VProxy 1)
      example_state_z
    = (Raise (Exn AssertionError "MetaProxy does not have an associated meta"),
       example_state_z).
Proof.
  split; [reflexivity|].
  apply (replay_missing_meta example_call example_getattr_call example_foreign_install
           "call_function" (VObj 10) 0 (ObjMetaProxy 0 None) [VProxy 0] [] (VProxy 1)
           example_state_z); reflexivity.
Defined.

(** X3 at a [get_attr] request. *)
Lemma replay_unsupported_kind_witness :
  example_replay "get_attr" (VStr "weight") [] [] (VProxy 1) example_state_x
    = (Raise (Exn AssertionError "Unsupported node kind get_attr"), example_state_x).
Proof.
  apply (replay_unsupported_kind example_call example_getattr_call
           example_foreign_install "get_attr" (VStr "weight") [] [] (VProxy 1)
           example_state_x (VTuple []) (VDict [])); [reflexivity | reflexivity |].
  rewrite !elem_of_cons, elem_of_nil. intros [H|[H|[H|[H|[]]]]]; discriminate H.
Defined.

(** X4 at a pair of proxies in place of [rv]. *)
Lemma replay_composite_output_witness :
  example_replay "call_function" (VObj 10) [VProxy 0; VProxy 0] []
      (VTuple [VProxy 1; VProxy 2]) example_state_x
    = (Raise (Exn AssertionError "Dont support composite output yet"), example_state_x).
Proof.
  apply (replay_composite_output example_call example_getattr_call
           example_foreign_install (VObj 10) [VProxy 0; VProxy 0] []
           (VTuple [VProxy 1; VProxy 2]) example_state_x
           (VTuple [VObj 1; VObj 1]) (VDict []) (VObj 1)); reflexivity.
Defined.

(** X5 at the placeholder [y], requested after [x]. *)
Lemma create_proxy_placeholder_default_witness :
  example_create_proxy "placeholder" (VStr "y") [] [] None None None example_state_x
    = (Ok (VProxy 1),
       State (graph example_state_x ++ [Node "placeholder" (VStr "y") [] [] None None])
         (heap example_state_x ++ [ObjMetaProxy 1 (Some (VObj 2))])
         (next_fn example_state_x) (torch example_state_x) (root_attrs example_state_x)
         (meta_args example_state_x) (orig_fns example_state_x)
         (patched_torch_methods example_state_x) (orig_forward example_state_x)
         (prev_module example_state_x) (allow_insert_stateless_mods example_state_x)
         (warnings example_state_x)).
Proof.
  apply (create_proxy_placeholder_default example_call example_getattr_call example_str
           example_foreign_install (VStr "y") [] [] None None example_state_x
           example_meta_args (VObj 2)); reflexivity.
Defined.

(** X6 at a list in place of the metadata inputs. *)
Lemma trace_rejects_non_dict_witness :
  trace example_trace (VObj 30) (VList [VObj 1]) None example_idle_state
    = (Raise (Exn AssertionError ""), example_idle_state).
Proof.
  apply (trace_rejects_non_dict example_trace (VObj 30) (VList [VObj 1]) None
           example_idle_state); reflexivity.
Defined.

(** X7 at the attribute [shape] of proxy 0. *)
Lemma MetaProxy_getattr_lazy_witness :
  MetaProxy_getattr 0 "shape" example_state_x
    = (Ok (VProxy 1),
       set_heap (λ h, h ++ [ObjMetaAttribute 0 "shape" None None]) example_state_x).
Proof.
  apply (MetaProxy_getattr_lazy 0 "shape" example_state_x). discriminate.
Defined.

(** X8 at a call of [zeros] that names the device ['cpu']. *)
Lemma patch_device_meta_witness :
  dict_get (patch_device example_orig_fns (VObj 21) [("device", VStr "cpu")]) "device"
    = Some (VStr "meta")
  ∧ ∀ k, k ≠ "device" →
      dict_get (patch_device example_orig_fns (VObj 21) [("device", VStr "cpu")]) k
        = dict_get [("device", VStr "cpu")] k.
Proof.
  apply (patch_device_meta example_orig_fns (VObj 21) [("device", VStr "cpu")]);
    [reflexivity | by eexists].
Defined.

(** Lazy attributes of the proxy 0, which carries the tensor of shape
    (2, 3).  [x.view] makes proxy 1 and no node; calling it with 6 makes
    one [call_method] node, whose proxy carries the tensor of shape (6,),
    and leaves the attribute without a node.  [x.shape] makes proxy 1 and
    no node; reading its node makes the [getattr] node, node 1, and a
    second read returns node 1 and changes nothing. *)
Example lazy_attribute_called :
  let s := (MetaProxy_getattr 0 "view" example_state_x).2 in
  let called := example_attr_call 1 [VInt 6] [] s in
  graph s = graph example_state_x
  ∧ called.1 = Ok (VProxy 2)
  ∧ graph called.2
    = graph example_state_x
      ++ [Node "call_method" (VStr "view") [VProxy 0; VInt 6] [] None None]
  ∧ heap called.2 !! 1 = Some (ObjMetaAttribute 0 "view" None None)
  ∧ heap called.2 !! 2 = Some (ObjMetaProxy 1 (Some (VObj 4))).
Proof. repeat split; reflexivity. Qed.

Example lazy_attribute_read :
  let s := (MetaProxy_getattr 0 "shape" example_state_x).2 in
  let read := example_node 1 s in
  read.1 = Ok (inl 1)
  ∧ graph read.2
    = graph example_state_x
      ++ [Node "call_function" getattr_builtin [VProxy 0; VStr "shape"] [] None None]
  ∧ heap read.2 !! 1 = Some (ObjMetaAttribute 0 "shape" (Some 1) None)
  ∧ heap read.2 !! 2 = Some (ObjMetaProxy 1 (Some (VTuple [VInt 2; VInt 3])))
  ∧ example_node 1 read.2 = (Ok (inl 1), read.2).
Proof. repeat split; reflexivity. Qed.

(** An attribute that the metadata does not have: the request of the
    [getattr] node raises an [AttributeError], which the lookup of [node]
    answers with a new [MetaAttribute] for the name [node]; the node is
    in the graph, nothing is stored, and a second read adds the node
    again. *)
Example lazy_attribute_read_missing :
  let s := (MetaProxy_getattr 0 "foo" example_state_x).2 in
  let nd := Node "call_function" getattr_builtin [VProxy 0; VStr "foo"] [] None None in
  let read := example_node 1 s in
  let again := example_node 1 read.2 in
  read.1 = Ok (inr (VProxy 3))
  ∧ graph read.2 = graph example_state_x ++ [nd]
  ∧ heap read.2 !! 1 = Some (ObjMetaAttribute 0 "foo" None None)
  ∧ heap read.2 !! 3 = Some (ObjMetaAttribute 1 "node" None None)
  ∧ again.1 = Ok (inr (VProxy 5))
  ∧ graph again.2 = graph example_state_x ++ [nd; nd].
Proof. repeat split; reflexivity. Qed.

(** * Further properties of the code *)

(** ** Metadata extraction over containers *)

Lemma extraction_decided_mapM s l :
  Forall (extraction_decided s) l →
  (forallb (extractable (heap s)) l = true →
     mapM (map_aggregate proxys_to_metas) l s = (Ok (metas_of (heap s) <$> l), s))
  ∧ (forallb (extractable (heap s)) l = false →
     ∃ e, mapM (map_aggregate proxys_to_metas) l s = (Raise e, s)
          ∧ (exn_kind_of e = AssertionError ∨ exn_kind_of e = ReferenceError)).
Proof.
  induction 1 as [|v l [Hok Hbad] _ [IHok IHbad]]; [by split|].
  cbn [forallb]. rewrite mapM_cons, fmap_cons.
  destruct (extractable (heap s) v) eqn:Hv; cbn [andb].
  - rewrite (bind_Ok _ _ _ _ _ (Hok eq_refl)). split.
    + intros Hl. by rewrite (bind_Ok _ _ _ _ _ (IHok Hl)).
    + intros Hl. destruct (IHbad Hl) as (e & He & Hk).
      exists e. by rewrite (bind_Raise _ _ _ _ _ He).
  - split; [done|]. intros _. destruct (Hbad eq_refl) as (e & He & Hk).
    exists e. by rewrite (bind_Raise _ _ _ _ _ He).
Qed.

Lemma extraction_decided_mapM_dict s (d : list (string * value)) :
  Forall (λ kv, extraction_decided s kv.2) d →
  (forallb (λ kv, extractable (heap s) kv.2) d = true →
     mapM (λ kv : string * value,
             y <~ map_aggregate proxys_to_metas kv.2 ;; ret (kv.1, y)) d s
       = (Ok (kwargs_metas_of (heap s) d), s))
  ∧ (forallb (λ kv, extractable (heap s) kv.2) d = false →
     ∃ e, mapM (λ kv : string * value,
                  y <~ map_aggregate proxys_to_metas kv.2 ;; ret (kv.1, y)) d s
            = (Raise e, s)
          ∧ (exn_kind_of e = AssertionError ∨ exn_kind_of e = ReferenceError)).
Proof.
  induction 1 as [|kv d [Hok Hbad] _ [IHok IHbad]]; [by split|].
  cbn [forallb]. rewrite mapM_cons. unfold kwargs_metas_of. rewrite fmap_cons.
  fold (kwargs_metas_of (heap s) d). cbv beta.
  destruct (extractable (heap s) kv.2) eqn:Hv; cbn [andb].
  - assert ((y <~ map_aggregate proxys_to_metas kv.2 ;; ret (kv.1, y)) s
            = (Ok (kv.1, metas_of (heap s) kv.2), s)) as Hstep
      by (by rewrite (bind_Ok _ _ _ _ _ (Hok eq_refl))).
    rewrite (bind_Ok _ _ _ _ _ Hstep). split.
    + intros Hl. by rewrite (bind_Ok _ _ _ _ _ (IHok Hl)).
    + intros Hl. destruct (IHbad Hl) as (e & He & Hk).
      exists e. by rewrite (bind_Raise _ _ _ _ _ He).
  - split; [done|]. intros _. destruct (Hbad eq_refl) as (e & He & Hk).
    exists e. split; [|done].
    apply bind_Raise. by apply bind_Raise.
Qed.

(** Extracting the metadata of a value, through tuples, lists and the
    values of dictionaries, succeeds exactly when every proxy in it is a
    [MetaProxy] that has metadata; the result is then the value with
    every proxy replaced by its metadata.  Otherwise the extraction
    raises.  In both cases the state is untouched. *)
Lemma extraction_decided_value s v : extraction_decided s v.
Proof.
  induction v as [| | | |l IH|l IH|d IH|p| |] using value_ind_nested;
    try (split; [done|done]).
  - destruct (extraction_decided_mapM s l IH) as [Hok Hbad]. split; simpl.
    + intros Hl. by rewrite (bind_Ok _ _ _ _ _ (Hok Hl)).
    + intros Hl. destruct (Hbad Hl) as (e & He & Hk).
      exists e. by rewrite (bind_Raise _ _ _ _ _ He).
  - destruct (extraction_decided_mapM s l IH) as [Hok Hbad]. split; simpl.
    + intros Hl. by rewrite (bind_Ok _ _ _ _ _ (Hok Hl)).
    + intros Hl. destruct (Hbad Hl) as (e & He & Hk).
      exists e. by rewrite (bind_Raise _ _ _ _ _ He).
  - destruct (extraction_decided_mapM_dict s d IH) as [Hok Hbad]. split; simpl.
    + intros Hl. by rewrite (bind_Ok _ _ _ _ _ (Hok Hl)).
    + intros Hl. destruct (Hbad Hl) as (e & He & Hk).
      exists e. by rewrite (bind_Raise _ _ _ _ _ He).
  - split; simpl; unfold deref, bind.
    + destruct (heap s !! p) as [o|]; [|done]. simpl.
      destruct (is_MetaProxy o); [|done].
      by destruct (tensor_meta_of o).
    + destruct (heap s !! p) as [o|]; [|by eauto]. simpl.
      destruct (is_MetaProxy o); simpl; [|by eauto].
      destruct (tensor_meta_of o); simpl; [done|by eauto].
Qed.

Lemma metas_of_proxy_free h v : contains_proxy v = false → metas_of h v = v.
Proof.
  induction v as [| | | |l IH|l IH|d IH| | |] using value_ind_nested;
    simpl; try done.
  - intros Hl. f_equal. induction IH as [|x l Hx _ IHl]; [done|].
    simpl in Hl. apply orb_false_iff in Hl as [H1 H2].
    rewrite fmap_cons. by rewrite Hx, IHl.
  - intros Hl. f_equal. induction IH as [|x l Hx _ IHl]; [done|].
    simpl in Hl. apply orb_false_iff in Hl as [H1 H2].
    rewrite fmap_cons. by rewrite Hx, IHl.
  - intros Hl. f_equal. induction IH as [|[k x] d Hx _ IHd]; [done|].
    simpl in Hl. apply orb_false_iff in Hl as [H1 H2].
    rewrite fmap_cons. simpl in *. by rewrite Hx, IHd.
Qed.

Lemma extractable_proxy_free h v : contains_proxy v = false → extractable h v = true.
Proof.
  induction v as [| | | |l IH|l IH|d IH| | |] using value_ind_nested;
    simpl; try done.
  - intros Hl. induction IH as [|x l Hx _ IHl]; [done|].
    simpl in *. apply orb_false_iff in Hl as [H1 H2]. by rewrite Hx, IHl.
  - intros Hl. induction IH as [|x l Hx _ IHl]; [done|].
    simpl in *. apply orb_false_iff in Hl as [H1 H2]. by rewrite Hx, IHl.
  - intros Hl. induction IH as [|[k x] d Hx _ IHd]; [done|].
    simpl in *. apply orb_false_iff in Hl as [H1 H2]. by rewrite Hx, IHd.
Qed.

(** X10.  A value in which no proxy occurs is its own metadata: the
    extraction returns it as it is, whatever the state. *)
Theorem extraction_identity v s :
  contains_proxy v = false → map_aggregate proxys_to_metas v s = (Ok v, s).
Proof.
  intros Hv. destruct (extraction_decided_value s v) as [Hok _].
  rewrite Hok by (by apply extractable_proxy_free).
  by rewrite metas_of_proxy_free.
Qed.

Lemma extractable_app_list h l vs :
  Forall (λ v, extractable h v = true →
               extractable (h ++ l) v = true ∧ metas_of (h ++ l) v = metas_of h v) vs →
  forallb (extractable h) vs = true →
  forallb (extractable (h ++ l)) vs = true
  ∧ metas_of (h ++ l) <$> vs = metas_of h <$> vs.
Proof.
  induction 1 as [|x vs Hx _ IH]; [done|].
  cbn [forallb]. rewrite !fmap_cons. intros [H1 H2]%andb_true_iff.
  destruct (Hx H1) as [-> ->]. by destruct (IH H2) as [-> ->].
Qed.

Lemma extractable_app_dict h l (d : list (string * value)) :
  Forall (λ kv, extractable h kv.2 = true →
                extractable (h ++ l) kv.2 = true
                ∧ metas_of (h ++ l) kv.2 = metas_of h kv.2) d →
  forallb (λ kv, extractable h kv.2) d = true →
  forallb (λ kv, extractable (h ++ l) kv.2) d = true
  ∧ kwargs_metas_of (h ++ l) d = kwargs_metas_of h d.
Proof.
  unfold kwargs_metas_of. induction 1 as [|kv d Hx _ IH]; [done|].
  cbn [forallb]. rewrite !fmap_cons. intros [H1 H2]%andb_true_iff.
  destruct (Hx H1) as [-> ->]. by destruct (IH H2) as [-> ->].
Qed.

Lemma extractable_app h l v :
  extractable h v = true →
  extractable (h ++ l) v = true ∧ metas_of (h ++ l) v = metas_of h v.
Proof.
  induction v as [| | | |vs IH|vs IH|d IH|p| |] using value_ind_nested;
    try done.
  - intros Hl. cbn [extractable metas_of] in *.
    by destruct (extractable_app_list h l vs IH Hl) as [-> ->].
  - intros Hl. cbn [extractable metas_of] in *.
    by destruct (extractable_app_list h l vs IH Hl) as [-> ->].
  - intros Hl. cbn [extractable metas_of] in *.
    fold (kwargs_metas_of (h ++ l) d). fold (kwargs_metas_of h d).
    by destruct (extractable_app_dict h l d IH Hl) as [-> ->].
  - simpl. destruct (h !! p) as [o|] eqn:Hp; [|done]. intros Ho.
    by rewrite (lookup_app_l_Some _ _ _ _ Hp), Ho.
Qed.

(** ** The outcomes of a request without factory *)

Lemma base_is_added nd s :
  set_heap (λ h, h ++ [ObjMetaProxy (length (graph s)) None])
    (set_graph (λ g, g ++ [nd]) s) = added nd None [] s.
Proof. unfold added, set_heap, set_graph; simpl. by rewrite app_nil_r. Qed.

Lemma install_is_added nd s meta :
  set_heap (alter (set_tensor_meta meta) (length (heap s))) (added nd None [] s)
    = added nd (Some meta) [] s.
Proof.
  unfold added, set_heap; simpl. f_equal.
  rewrite <-(Nat.add_0_r (length (heap s))) at 1. by rewrite alter_app_r.
Qed.

Lemma warn_is_added nd s msg :
  set_warnings (λ w, w ++ [msg]) (added nd None [] s) = added nd None [msg] s.
Proof. unfold added, set_warnings; simpl. by rewrite app_nil_r. Qed.

Lemma added_new_proxy nd meta w s :
  heap (added nd meta w s) !! length (heap s)
    = Some (ObjMetaProxy (length (graph s)) meta).
Proof. simpl. rewrite lookup_app_r by lia. by rewrite Nat.sub_diag. Qed.

Section request_outcomes.

Variable py_call : value → list value → list (string * value) → result value.
Variable py_getattr_call :
  value → string → list value → list (string * value) → result value.
Variable py_str : value → string.
Variable foreign_install_tensor_meta : value → value → T unit.

Local Abbreviation create_proxy_ :=
  (create_proxy py_call py_getattr_call py_str foreign_install_tensor_meta).
Local Abbreviation replay_ :=
  (replay py_call py_getattr_call foreign_install_tensor_meta).

(** A request without factory that is no metadata input, unfolded up to
    the [try]. *)
Lemma create_proxy_default_replay kind target args kwargs name type_expr s fns :
  not_meta_input kind target s → orig_fns s = Some fns →
  let nd := Node kind target args kwargs name type_expr in
  let rv := VProxy (length (heap s)) in
  create_proxy_ kind target args kwargs name type_expr None s
    = (try_except_AssertionError
         (replay_ kind target args (patch_device fns target kwargs) rv)
         (λ e, warn (warning_text py_str target e)) ;;; ret rv) (added nd None [] s).
Proof.
  intros Hno Hfns nd rv.
  apply (create_proxy_unfold_replay py_call py_getattr_call py_str
           foreign_install_tensor_meta kind target args kwargs name type_expr None s
           rv (added nd None [] s) fns); [|done|done].
  by rewrite Tracer_create_proxy_default, base_is_added.
Qed.

(** The metadata of the arguments, in the state that holds the new proxy. *)
Lemma extraction_after_request nd s v :
  extractable (heap s) v = true →
  map_aggregate proxys_to_metas v (added nd None [] s)
    = (Ok (metas_of (heap s) v), added nd None [] s).
Proof.
  intros Hv.
  destruct (extractable_app (heap s) [ObjMetaProxy (length (graph s)) None] v Hv)
    as [He Hm].
  destruct (extraction_decided_value (added nd None [] s) v) as [Hok _].
  rewrite Hok by exact He. simpl. by rewrite Hm.
Qed.

(** The last two statements of the [try] on the new proxy. *)
Lemma install_on_new_proxy nd s meta_out :
  (assert (is_Proxy (VProxy (length (heap s)))) "Dont support composite output yet" ;;;
   call_install_tensor_meta foreign_install_tensor_meta (VProxy (length (heap s)))
     meta_out) (added nd None [] s)
    = (Ok tt, added nd (Some meta_out) [] s).
Proof.
  rewrite (bind_Ok _ _ _ tt (added nd None [] s)) by done.
  erewrite call_install_tensor_meta_own; [|apply added_new_proxy|done].
  by rewrite install_is_added.
Qed.

(** The body of the [try] for a [call_function] and for a [call_method]
    node whose arguments all carry metadata, when the host returns. *)
Lemma replay_call_function nd s target args kwargs' meta_out :
  forallb (extractable (heap s)) args = true →
  forallb (λ kv, extractable (heap s) kv.2) kwargs' = true →
  py_call target (metas_of (heap s) <$> args) (kwargs_metas_of (heap s) kwargs')
    = Ok meta_out →
  replay_ "call_function" target args kwargs' (VProxy (length (heap s)))
      (added nd None [] s)
    = (Ok tt, added nd (Some meta_out) [] s).
Proof.
  intros Hargs Hkwargs Hcall. unfold replay.
  rewrite (bind_Ok _ _ _ _ _ (extraction_after_request nd s (VTuple args) Hargs)).
  rewrite (bind_Ok _ _ _ _ _ (extraction_after_request nd s (VDict kwargs') Hkwargs)).
  rewrite bool_decide_eq_true_2 by done. cbn [metas_of tuple_items dict_items].
  fold (kwargs_metas_of (heap s) kwargs').
  rewrite (bind_Ok _ _ _ meta_out (added nd None [] s))
    by (unfold lift; by rewrite Hcall).
  apply install_on_new_proxy.
Qed.

Lemma replay_call_method nd s method self_arg args kwargs' meta_out :
  forallb (extractable (heap s)) (self_arg :: args) = true →
  forallb (λ kv, extractable (heap s) kv.2) kwargs' = true →
  py_getattr_call (metas_of (heap s) self_arg) method (metas_of (heap s) <$> args)
    (kwargs_metas_of (heap s) kwargs') = Ok meta_out →
  replay_ "call_method" (VStr method) (self_arg :: args) kwargs'
      (VProxy (length (heap s))) (added nd None [] s)
    = (Ok tt, added nd (Some meta_out) [] s).
Proof.
  intros Hargs Hkwargs Hcall. unfold replay.
  rewrite (bind_Ok _ _ _ _ _
             (extraction_after_request nd s (VTuple (self_arg :: args)) Hargs)).
  rewrite (bind_Ok _ _ _ _ _ (extraction_after_request nd s (VDict kwargs') Hkwargs)).
  rewrite bool_decide_eq_false_2 by done.
  rewrite bool_decide_eq_true_2 by done. cbn [metas_of tuple_items dict_items].
  fold (kwargs_metas_of (heap s) kwargs'). rewrite fmap_cons.
  rewrite (bind_Ok _ _ _ meta_out (added nd None [] s))
    by (unfold lift; by rewrite Hcall).
  apply install_on_new_proxy.
Qed.

(** X11.  A [call_function] request without factory, on arguments whose
    proxies all carry metadata: when the target returns [meta_out] on the
    metadata of the arguments (with the device patched as lines 84-91
    say), [create_proxy] returns the new proxy, which carries [meta_out];
    the node records the arguments as they were given, and no warning is
    emitted. *)
Theorem create_proxy_call_function_installs
    target args kwargs name type_expr s fns meta_out :
  orig_fns s = Some fns →
  let kwargs' := patch_device fns target kwargs in
  forallb (extractable (heap s)) args = true →
  forallb (λ kv, extractable (heap s) kv.2) kwargs' = true →
  py_call target (metas_of (heap s) <$> args) (kwargs_metas_of (heap s) kwargs')
    = Ok meta_out →
  create_proxy_ "call_function" target args kwargs name type_expr None s
    = (Ok (VProxy (length (heap s))),
       added (Node "call_function" target args kwargs name type_expr)
         (Some meta_out) [] s).
Proof.
  intros Hfns kwargs' Hargs Hkwargs Hcall.
  rewrite (create_proxy_default_replay _ _ _ _ _ _ _ fns) by (done || by left).
  fold kwargs'. set (nd := Node _ _ _ _ _ _).
  pose proof (replay_call_function nd s target args kwargs' meta_out
                Hargs Hkwargs Hcall) as Hreplay.
  unfold bind, try_except_AssertionError. by rewrite Hreplay.
Qed.

(** X12.  A [call_method] request without factory: the method named by
    the target is called on the metadata of the first argument, with the
    metadata of the others; when it returns [meta_out], the new proxy
    carries [meta_out] and no warning is emitted. *)
Theorem create_proxy_call_method_installs
    method self_arg args kwargs name type_expr s fns meta_out :
  orig_fns s = Some fns →
  let kwargs' := patch_device fns (VStr method) kwargs in
  forallb (extractable (heap s)) (self_arg :: args) = true →
  forallb (λ kv, extractable (heap s) kv.2) kwargs' = true →
  py_getattr_call (metas_of (heap s) self_arg) method (metas_of (heap s) <$> args)
    (kwargs_metas_of (heap s) kwargs') = Ok meta_out →
  create_proxy_ "call_method" (VStr method) (self_arg :: args) kwargs name type_expr
      None s
    = (Ok (VProxy (length (heap s))),
       added (Node "call_method" (VStr method) (self_arg :: args) kwargs name type_expr)
         (Some meta_out) [] s).
Proof.
  intros Hfns kwargs' Hargs Hkwargs Hcall.
  rewrite (create_proxy_default_replay _ _ _ _ _ _ _ fns) by (done || by left).
  fold kwargs'. set (nd := Node _ _ _ _ _ _).
  pose proof (replay_call_method nd s method self_arg args kwargs' meta_out
                Hargs Hkwargs Hcall) as Hreplay.
  unfold bind, try_except_AssertionError. by rewrite Hreplay.
Qed.


(** X13.  [call_module] records the forward it is given before it
    delegates.  With an underlying tracer that requests the node of a
    leaf module, the replay of that node calls the recorded forward on
    the metadata of the arguments, whatever forward was recorded before,
    and the new proxy carries what it returns. *)
Theorem call_module_replays_forward
    m forward target args kwargs s fns meta_out :
  orig_fns s = Some fns →
  let kwargs' := patch_device fns target kwargs in
  forallb (extractable (heap s)) args = true →
  forallb (λ kv, extractable (heap s) kv.2) kwargs' = true →
  py_call forward (metas_of (heap s) <$> args) (kwargs_metas_of (heap s) kwargs')
    = Ok meta_out →
  call_module (λ _ _ a k, create_proxy_ "call_module" target a k None None None)
      m forward args kwargs s
    = (Ok (VProxy (length (heap s))),
       added (Node "call_module" target args kwargs None None) (Some meta_out) []
         (set_orig_forward (Some forward) s)).
Proof.
  intros Hfns kwargs' Hargs Hkwargs Hcall.
  unfold call_module. rewrite (bind_Ok _ _ _ tt (set_orig_forward (Some forward) s))
    by done.
  set (s0 := set_orig_forward (Some forward) s).
  rewrite (create_proxy_default_replay _ _ _ _ _ _ s0 fns) by (done || by left).
  fold kwargs'. set (nd := Node _ _ _ _ _ _).
  assert (replay_ "call_module" target args kwargs' (VProxy (length (heap s0)))
            (added nd None [] s0) = (Ok tt, added nd (Some meta_out) [] s0)) as Hreplay.
  { unfold replay.
    rewrite (bind_Ok _ _ _ _ _ (extraction_after_request nd s0 (VTuple args) Hargs)).
    rewrite (bind_Ok _ _ _ _ _ (extraction_after_request nd s0 (VDict kwargs') Hkwargs)).
    rewrite !bool_decide_eq_false_2 by done.
    rewrite bool_decide_eq_true_2 by done. cbn [metas_of tuple_items dict_items].
    fold (kwargs_metas_of (heap s0) kwargs').
    rewrite (bind_Ok _ _ _ (added nd None [] s0) (added nd None [] s0)) by done.
    rewrite (bind_Ok _ _ _ tt (added nd None [] s0)) by done.
    rewrite (bind_Ok _ _ _ forward (added nd None [] s0)) by done.
    rewrite (bind_Ok _ _ _ meta_out (added nd None [] s0))
      by (unfold lift; change (heap s0) with (heap s); by rewrite Hcall).
    apply install_on_new_proxy. }
  unfold bind, try_except_AssertionError. by rewrite Hreplay.
Qed.

(** X14.  A [call_module] request on a tracer that has recorded no
    forward: the assertion of line 102 fails, and the request returns the
    new proxy without metadata, with one warning whose reason is empty. *)
Theorem create_proxy_call_module_without_forward
    target args kwargs name type_expr s fns :
  orig_fns s = Some fns → orig_forward s = None →
  let kwargs' := patch_device fns target kwargs in
  forallb (extractable (heap s)) args = true →
  forallb (λ kv, extractable (heap s) kv.2) kwargs' = true →
  create_proxy_ "call_module" target args kwargs name type_expr None s
    = (Ok (VProxy (length (heap s))),
       added (Node "call_module" target args kwargs name type_expr) None
         [warning_text py_str target (Exn AssertionError "")] s).
Proof.
  intros Hfns Hfwd kwargs' Hargs Hkwargs.
  rewrite (create_proxy_default_replay _ _ _ _ _ _ _ fns) by (done || by left).
  fold kwargs'. set (nd := Node _ _ _ _ _ _).
  assert (replay_ "call_module" target args kwargs' (VProxy (length (heap s)))
            (added nd None [] s) = (Raise (Exn AssertionError ""), added nd None [] s))
    as Hreplay.
  { unfold replay.
    rewrite (bind_Ok _ _ _ _ _ (extraction_after_request nd s (VTuple args) Hargs)).
    rewrite (bind_Ok _ _ _ _ _ (extraction_after_request nd s (VDict kwargs') Hkwargs)).
    rewrite !bool_decide_eq_false_2 by done.
    rewrite bool_decide_eq_true_2 by done.
    rewrite (bind_Ok _ _ _ (added nd None [] s) (added nd None [] s)) by done.
    apply bind_Raise. cbn [orig_forward added]. by rewrite Hfwd. }
  unfold bind, try_except_AssertionError. rewrite Hreplay.
  rewrite bool_decide_eq_true_2 by done.
  unfold warn, modify. by rewrite warn_is_added.
Qed.

(** X15.  A [placeholder] request whose target is no key of
    [self.meta_args]: nothing is replayed; the new proxy has no metadata
    and no warning is emitted. *)
Theorem create_proxy_unbound_placeholder
    target args kwargs name type_expr s m fns :
  meta_args s = Some m → value_getitem m target = None →
  orig_fns s = Some fns →
  let kwargs' := patch_device fns target kwargs in
  forallb (extractable (heap s)) args = true →
  forallb (λ kv, extractable (heap s) kv.2) kwargs' = true →
  create_proxy_ "placeholder" target args kwargs name type_expr None s
    = (Ok (VProxy (length (heap s))),
       added (Node "placeholder" target args kwargs name type_expr) None [] s).
Proof.
  intros Hm Hget Hfns kwargs' Hargs Hkwargs.
  rewrite (create_proxy_default_replay _ _ _ _ _ _ _ fns) by (done || right; eauto).
  fold kwargs'. set (nd := Node _ _ _ _ _ _).
  assert (replay_ "placeholder" target args kwargs' (VProxy (length (heap s)))
            (added nd None [] s) = (Ok tt, added nd None [] s)) as Hreplay.
  { unfold replay.
    rewrite (bind_Ok _ _ _ _ _ (extraction_after_request nd s (VTuple args) Hargs)).
    rewrite (bind_Ok _ _ _ _ _ (extraction_after_request nd s (VDict kwargs') Hkwargs)).
    rewrite !bool_decide_eq_false_2 by done.
    rewrite (bind_Ok _ _ _ tt (added nd None [] s)); [done|].
    rewrite bool_decide_eq_true_2; [done|]. by apply list_elem_of_singleton. }
  unfold bind, try_except_AssertionError. by rewrite Hreplay.
Qed.

(** X9.  When a proxy among the arguments or the keyword arguments is no
    [MetaProxy] or has no metadata, the body of the [try] raises before
    the host is called, whatever the kind of the node, and leaves the
    state as it was. *)
Theorem replay_needs_metadata kind target args kwargs rv s :
  forallb (extractable (heap s)) args
    && forallb (λ kv, extractable (heap s) kv.2) kwargs = false →
  ∃ e, replay_ kind target args kwargs rv s = (Raise e, s)
       ∧ (exn_kind_of e = AssertionError ∨ exn_kind_of e = ReferenceError).
Proof.
  intros Hbad. unfold replay.
  destruct (extraction_decided_value s (VTuple args)) as [Haok Habad].
  destruct (extraction_decided_value s (VDict kwargs)) as [Hkok Hkbad].
  cbn [extractable] in *.
  destruct (forallb (extractable (heap s)) args).
  - rewrite (bind_Ok _ _ _ _ _ (Haok eq_refl)).
    destruct (Hkbad Hbad) as (e & He & Hk). exists e. split; [|done].
    by apply bind_Raise.
  - destruct (Habad eq_refl) as (e & He & Hk). exists e. split; [|done].
    by apply bind_Raise.
Qed.

(** ** Requests made through proxies and wrappers *)

Local Abbreviation wrapper_ :=
  (wrapper py_call py_getattr_call py_str foreign_install_tensor_meta).
Local Abbreviation MetaProxy_size_ :=
  (MetaProxy_size py_call py_getattr_call py_str foreign_install_tensor_meta).
Local Abbreviation MetaProxy_dim_ :=
  (MetaProxy_dim py_call py_getattr_call py_str foreign_install_tensor_meta).
Local Abbreviation MetaAttribute_call_ :=
  (MetaAttribute_call py_call py_getattr_call py_str foreign_install_tensor_meta).

(** No name of the host is a constructor with a device when there are no
    keyword arguments. *)
Lemma patch_device_nil fns target : patch_device fns target [] = [].
Proof. unfold patch_device. by destruct (existsb _ _). Qed.

(** Replacing the device by a string keeps the metadata of the others. *)
Lemma extractable_dict_set h (d : list (string * value)) k u :
  extractable h u = true →
  forallb (λ kv, extractable h kv.2) d = true →
  forallb (λ kv, extractable h kv.2) (dict_set d k u) = true.
Proof.
  intros Hu. induction d as [|[k' v'] d IH]; cbn [dict_set forallb].
  - cbn [snd]. by rewrite Hu.
  - intros [H1 H2]%andb_true_iff. case_bool_decide; cbn [forallb snd] in *.
    + by rewrite Hu, H2.
    + by rewrite H1, IH.
Qed.

(** A request whose first argument is a [MetaProxy] without the
    attribute [_tensor_meta]: the extraction fails, the failure is
    reported and the new proxy has no metadata. *)
Lemma create_proxy_first_without_meta kind target p o args name type_expr s fns :
  kind ≠ "placeholder" →
  heap s !! p = Some o → is_MetaProxy o = true → tensor_meta_of o = None →
  orig_fns s = Some fns →
  create_proxy_ kind target (VProxy p :: args) [] name type_expr None s
    = (Ok (VProxy (length (heap s))),
       added (Node kind target (VProxy p :: args) [] name type_expr) None
         [warning_text py_str target
            (Exn AssertionError "MetaProxy does not have an associated meta")] s).
Proof.
  intros Hk Hp Ho Hm Hfns.
  rewrite (create_proxy_default_replay _ _ _ _ _ _ _ fns) by (done || by left).
  rewrite patch_device_nil. set (nd := Node _ _ _ _ _ _).
  assert (replay_ kind target (VProxy p :: args) [] (VProxy (length (heap s)))
            (added nd None [] s)
          = (Raise (Exn AssertionError "MetaProxy does not have an associated meta"),
             added nd None [] s)) as Hreplay.
  { unfold replay. apply bind_Raise.
    change (map_aggregate proxys_to_metas (VTuple (VProxy p :: args)))
      with (l' <~ mapM (map_aggregate proxys_to_metas) (VProxy p :: args) ;;
            ret (St:=state) (VTuple l')).
    apply bind_Raise. rewrite mapM_cons. apply bind_Raise.
    apply (proxys_to_metas_missing _ p o); [|done|done].
    cbn [heap added]. by apply lookup_app_l_Some. }
  unfold bind, try_except_AssertionError. rewrite Hreplay.
  rewrite bool_decide_eq_true_2 by done.
  unfold warn, modify. by rewrite warn_is_added.
Qed.

(** X23.  [size] and [dim] on a [MetaProxy] that has no attribute
    [_tensor_meta] do not fail: each requests a [call_method] node on the
    proxy itself, whose metadata cannot be computed, and returns the new
    proxy, without metadata, with the warning that the metadata is
    missing. *)
Theorem MetaProxy_size_dim_without_meta s self o dim fns :
  heap s !! self = Some o → is_MetaProxy o = true → tensor_meta_of o = None →
  orig_fns s = Some fns →
  let missing := Exn AssertionError "MetaProxy does not have an associated meta" in
  let size_args := if truthy dim then [VProxy self; dim_value dim] else [VProxy self] in
  MetaProxy_size_ self dim s
    = (Ok (VProxy (length (heap s))),
       added (Node "call_method" (VStr "size") size_args [] None None) None
         [warning_text py_str (VStr "size") missing] s)
  ∧ MetaProxy_dim_ self s
    = (Ok (VProxy (length (heap s))),
       added (Node "call_method" (VStr "dim") [VProxy self] [] None None) None
         [warning_text py_str (VStr "dim") missing] s).
Proof.
  intros Hp Ho Hm Hfns missing size_args.
  assert (has_tensor_meta o = false) as Hno by (unfold has_tensor_meta; by rewrite Hm).
  split.
  - rewrite (MetaProxy_size_fallback _ _ _ _ s self o dim Hp Hno). subst size_args.
    destruct (truthy dim);
      by apply (create_proxy_first_without_meta "call_method" _ self o _ _ _ s fns).
  - rewrite (MetaProxy_dim_fallback _ _ _ _ s self o Hp Hno).
    by apply (create_proxy_first_without_meta "call_method" _ self o _ _ _ s fns).
Qed.

(** X24.  A request of a kind that is none of the four that are replayed
    ([get_attr], [output]): the node and its proxy are made, the proxy
    has no metadata, and the request warns that the kind is not
    supported. *)
Theorem create_proxy_unsupported_kind kind target args kwargs name type_expr s fns :
  kind ∉ ["placeholder"; "call_function"; "call_method"; "call_module"] →
  orig_fns s = Some fns →
  let kwargs' := patch_device fns target kwargs in
  forallb (extractable (heap s)) args = true →
  forallb (λ kv, extractable (heap s) kv.2) kwargs' = true →
  create_proxy_ kind target args kwargs name type_expr None s
    = (Ok (VProxy (length (heap s))),
       added (Node kind target args kwargs name type_expr) None
         [warning_text py_str target
            (Exn AssertionError ("Unsupported node kind " +:+ kind))] s).
Proof.
  intros Hkind Hfns kwargs' Hargs Hkwargs.
  rewrite !not_elem_of_cons in Hkind. destruct Hkind as (Hk1 & Hk2 & Hk3 & Hk4 & _).
  rewrite (create_proxy_default_replay _ _ _ _ _ _ _ fns) by (done || by left).
  fold kwargs'. set (nd := Node _ _ _ _ _ _).
  assert (replay_ kind target args kwargs' (VProxy (length (heap s)))
            (added nd None [] s)
          = (Raise (Exn AssertionError ("Unsupported node kind " +:+ kind)),
             added nd None [] s)) as Hreplay.
  { unfold replay.
    rewrite (bind_Ok _ _ _ _ _ (extraction_after_request nd s (VTuple args) Hargs)).
    rewrite (bind_Ok _ _ _ _ _ (extraction_after_request nd s (VDict kwargs') Hkwargs)).
    rewrite !bool_decide_eq_false_2 by done.
    apply bind_Raise. rewrite bool_decide_eq_false_2; [done|].
    by rewrite list_elem_of_singleton. }
  unfold bind, try_except_AssertionError. rewrite Hreplay.
  rewrite bool_decide_eq_true_2 by done.
  unfold warn, modify. by rewrite warn_is_added.
Qed.

(** A [call_function] request without factory on arguments whose
    proxies all carry metadata: what the target does on the metadata
    decides the outcome. *)
Lemma call_function_request_outcome target args kwargs name type_expr s fns :
  orig_fns s = Some fns →
  let kwargs' := patch_device fns target kwargs in
  let nd := Node "call_function" target args kwargs name type_expr in
  forallb (extractable (heap s)) args = true →
  forallb (λ kv, extractable (heap s) kv.2) kwargs' = true →
  create_proxy_ "call_function" target args kwargs name type_expr None s
    = match py_call target (metas_of (heap s) <$> args)
              (kwargs_metas_of (heap s) kwargs') with
      | Ok meta_out => (Ok (VProxy (length (heap s))), added nd (Some meta_out) [] s)
      | Raise e =>
          if bool_decide (exn_kind_of e = AssertionError)
          then (Ok (VProxy (length (heap s))),
                added nd None [warning_text py_str target e] s)
          else (Raise e, added nd None [] s)
      end.
Proof.
  intros Hfns kwargs' nd Hargs Hkwargs.
  rewrite (create_proxy_default_replay _ _ _ _ _ _ _ fns) by (done || by left).
  fold kwargs' nd.
  destruct (py_call target _ _) as [meta_out|e] eqn:Hcall.
  - pose proof (replay_call_function nd s target args kwargs' meta_out
                  Hargs Hkwargs Hcall) as Hreplay.
    unfold bind, try_except_AssertionError. by rewrite Hreplay.
  - assert (replay_ "call_function" target args kwargs' (VProxy (length (heap s)))
              (added nd None [] s) = (Raise e, added nd None [] s)) as Hreplay.
    { unfold replay.
      rewrite (bind_Ok _ _ _ _ _ (extraction_after_request nd s (VTuple args) Hargs)).
      rewrite (bind_Ok _ _ _ _ _
                 (extraction_after_request nd s (VDict kwargs') Hkwargs)).
      rewrite bool_decide_eq_true_2 by done. cbn [metas_of tuple_items dict_items].
      fold (kwargs_metas_of (heap s) kwargs').
      apply bind_Raise. unfold lift. by rewrite Hcall. }
    unfold bind, try_except_AssertionError. rewrite Hreplay.
    case_bool_decide; [|done].
    unfold warn, modify. by rewrite warn_is_added.
Qed.

(** C5, as amended.  The wrapper of a constructor looks for a proxy
    through the positional and keyword arguments.  When there is none,
    it returns what the original target returns on these arguments and
    leaves the state, hence the graph, as it was.  When there is one,
    the call is the request of a [call_function] node for the target
    from the tracer, and nothing else: the node is added to the graph,
    and when the wrapper returns, it returns the new proxy of that node.
    The target is not called on the arguments, but the tracer calls it
    on their metadata: when every proxy among the arguments carries
    metadata, what the target does there decides the outcome.  When it
    returns, the new proxy carries what it returned; when it fails an
    assertion, the new proxy has no metadata and a warning is emitted;
    when it raises anything else, so does the wrapper. *)
Theorem wrapper_dispatch target args kwargs s :
  let has_proxy := contains_proxy (VTuple args) || contains_proxy (VDict kwargs) in
  let nd := Node "call_function" target args kwargs None None in
  (has_proxy = false →
     wrapper_ target args kwargs s = (py_call target args kwargs, s))
  ∧ (has_proxy = true →
     wrapper_ target args kwargs s
       = create_proxy_ "call_function" target args kwargs None None None s
     ∧ grown nd s (wrapper_ target args kwargs s).2
     ∧ (∀ rv, (wrapper_ target args kwargs s).1 = Ok rv → rv = VProxy (length (heap s)))
     ∧ ∀ fns,
         orig_fns s = Some fns →
         let kwargs' := patch_device fns target kwargs in
         forallb (extractable (heap s)) args = true →
         forallb (λ kv, extractable (heap s) kv.2) kwargs' = true →
         wrapper_ target args kwargs s
           = match py_call target (metas_of (heap s) <$> args)
                     (kwargs_metas_of (heap s) kwargs') with
             | Ok meta_out =>
                 (Ok (VProxy (length (heap s))), added nd (Some meta_out) [] s)
             | Raise e =>
                 if bool_decide (exn_kind_of e = AssertionError)
                 then (Ok (VProxy (length (heap s))),
                       added nd None [warning_text py_str target e] s)
                 else (Raise e, added nd None [] s)
             end).
Proof.
  intros has_proxy nd.
  destruct (check_has_proxy_finds (VTuple args) None) as (r1 & acc1 & H1 & Hs1).
  destruct (check_has_proxy_finds (VDict kwargs) acc1) as (r2 & acc2 & H2 & Hs2).
  assert (is_set acc2 = has_proxy) as Hacc by (by rewrite Hs2, Hs1).
  assert (wrapper_ target args kwargs s
          = match acc2 with
            | Some _ => create_proxy_ "call_function" target args kwargs None None None s
            | None => (py_call target args kwargs, s)
            end) as Hw.
  { unfold wrapper. cbv zeta. rewrite H1. cbn [snd]. rewrite H2. cbn [snd].
    by destruct acc2. }
  split; intros Hhas; rewrite Hhas in Hacc; destruct acc2; try done.
  rewrite Hw. split; [done|].
  destruct (create_proxy_default_frame py_call py_getattr_call py_str
              foreign_install_tensor_meta "call_function" target args kwargs
              None None s) as (r & s' & Hcp & Hg & Hrv).
  rewrite Hcp. split; [done|]. split; [done|].
  intros fns Hfns kwargs' Hargs Hkwargs. rewrite <-Hcp.
  by apply call_function_request_outcome.
Qed.

(** X25.  A patched constructor called on a proxy with a device: the
    wrapper requests a [call_function] node for the original
    constructor; the metadata of the new proxy is what the constructor
    returns on the metadata of the arguments with the device ['meta'],
    while the node keeps the keyword arguments of the call, with the
    device that was asked for. *)
Theorem wrapper_replays_on_meta_device target args kwargs s fns device meta_out :
  contains_proxy (VTuple args) || contains_proxy (VDict kwargs) = true →
  orig_fns s = Some fns → existsb (value_eqb target) fns = true →
  dict_get kwargs "device" = Some device →
  forallb (extractable (heap s)) args = true →
  forallb (λ kv, extractable (heap s) kv.2) kwargs = true →
  py_call target (metas_of (heap s) <$> args)
    (kwargs_metas_of (heap s) (dict_set kwargs "device" (VStr "meta"))) = Ok meta_out →
  wrapper_ target args kwargs s
    = (Ok (VProxy (length (heap s))),
       added (Node "call_function" target args kwargs None None) (Some meta_out) [] s).
Proof.
  intros Hhas Hfns Hin Hdev Hargs Hkwargs Hcall.
  destruct (check_has_proxy_finds (VTuple args) None) as (r1 & acc1 & H1 & Hs1).
  destruct (check_has_proxy_finds (VDict kwargs) acc1) as (r2 & acc2 & H2 & Hs2).
  assert (wrapper_ target args kwargs s
          = create_proxy_ "call_function" target args kwargs None None None s) as ->.
  { unfold wrapper. cbv zeta. rewrite H1. cbn [snd]. rewrite H2. cbn [snd].
    assert (is_set acc2 = true) as Hacc by (rewrite Hs2, Hs1; exact Hhas).
    by destruct acc2. }
  rewrite (create_proxy_default_replay _ _ _ _ _ _ _ fns) by (done || by left).
  assert (patch_device fns target kwargs = dict_set kwargs "device" (VStr "meta")) as ->.
  { unfold patch_device. rewrite Hin. rewrite bool_decide_eq_true_2; [done|].
    by rewrite Hdev. }
  set (nd := Node _ _ _ _ _ _).
  pose proof (extractable_dict_set (heap s) kwargs "device" (VStr "meta") eq_refl
                Hkwargs) as Hkwargs'.
  pose proof (replay_call_function nd s target args _ meta_out Hargs Hkwargs' Hcall)
    as Hreplay.
  unfold bind, try_except_AssertionError. by rewrite Hreplay.
Qed.

(** X26.  A method called through attribute access, [x.attr(args)]: the
    attribute is made without a node, and the call requests one
    [call_method] node on [x]; its proxy carries what the method returns
    on the metadata of [x] and of the arguments.  No [getattr] node is
    added and no warning is emitted. *)
Theorem MetaAttribute_method_call root attr args kwargs s fns meta_out :
  attr ≠ "_tensor_meta" → orig_fns s = Some fns →
  let kwargs' := patch_device fns (VStr attr) kwargs in
  forallb (extractable (heap s)) (VProxy root :: args) = true →
  forallb (λ kv, extractable (heap s) kv.2) kwargs' = true →
  py_getattr_call (metas_of (heap s) (VProxy root)) attr (metas_of (heap s) <$> args)
    (kwargs_metas_of (heap s) kwargs') = Ok meta_out →
  ∃ a s1,
    MetaProxy_getattr root attr s = (Ok (VProxy a), s1)
    ∧ graph s1 = graph s
    ∧ let r := MetaAttribute_call_ a args kwargs s1 in
      r.1 = Ok (VProxy (S (length (heap s))))
      ∧ graph r.2
        = graph s ++ [Node "call_method" (VStr attr) (VProxy root :: args) kwargs
                        None None]
      ∧ heap r.2
        = heap s ++ [ObjMetaAttribute root attr None None;
                     ObjMetaProxy (length (graph s)) (Some meta_out)]
      ∧ warnings r.2 = warnings s.
Proof.
  intros Hattr Hfns kwargs' Hargs Hkwargs Hcall.
  set (s1 := set_heap (λ h, h ++ [ObjMetaAttribute root attr None None]) s).
  exists (length (heap s)), s1.
  split; [unfold MetaProxy_getattr; by rewrite bool_decide_eq_false_2|].
  split; [done|].
  set (l := [ObjMetaAttribute root attr None None]).
  assert (heap s1 = heap s ++ l) as Hheap by done.
  cbn [forallb] in Hargs. apply andb_true_iff in Hargs as [Hroot Hrest].
  destruct (extractable_app (heap s) l (VProxy root) Hroot) as [Hroot1 Hmroot].
  destruct (extractable_app_list (heap s) l args) as [Hrest1 Hmargs];
    [apply Forall_forall; intros v _; apply extractable_app | done |].
  destruct (extractable_app_dict (heap s) l kwargs') as [Hkwargs1 Hkmetas];
    [apply Forall_forall; intros v _; apply extractable_app | done |].
  assert (MetaAttribute_call_ (length (heap s)) args kwargs s1
          = create_proxy_ "call_method" (VStr attr) (VProxy root :: args) kwargs
              None None None s1) as ->.
  { unfold MetaAttribute_call, bind, deref. rewrite Hheap.
    rewrite lookup_app_r by lia. by rewrite Nat.sub_diag. }
  rewrite (create_proxy_default_replay _ _ _ _ _ _ _ fns) by (done || by left).
  fold kwargs'. set (nd := Node _ _ _ _ _ _).
  assert (replay_ "call_method" (VStr attr) (VProxy root :: args) kwargs'
            (VProxy (length (heap s1))) (added nd None [] s1)
          = (Ok tt, added nd (Some meta_out) [] s1)) as Hreplay.
  { apply replay_call_method; rewrite Hheap.
    - cbn [forallb]. by rewrite Hroot1, Hrest1.
    - done.
    - by rewrite Hmroot, Hmargs, Hkmetas. }
  unfold bind, try_except_AssertionError. rewrite Hreplay.
  cbn [fst snd ret graph heap warnings added]. rewrite Hheap.
  rewrite length_app, Nat.add_1_r. split; [done|]. split; [done|].
  split; [by rewrite <-app_assoc | by rewrite app_nil_r].
Qed.

End request_outcomes.

(** ** Installing and reading metadata *)

(** X18.  What [install_tensor_meta] stores on a proxy is what both
    readers of the slot return afterwards, [proxys_to_metas] and the
    attribute access [_tensor_meta]; a later installation replaces it,
    and no other proxy is touched. *)
Theorem install_then_extract s p o v :
  heap s !! p = Some o → is_MetaProxy o = true →
  let s' := (MetaProxy_install_tensor_meta p v s).2 in
  proxys_to_metas (VProxy p) s' = (Ok v, s')
  ∧ MetaProxy_getattr p "_tensor_meta" s' = (Ok v, s')
  ∧ (∀ w, let s'' := (MetaProxy_install_tensor_meta p w s').2 in
          proxys_to_metas (VProxy p) s'' = (Ok w, s''))
  ∧ (∀ q, q ≠ p → heap s' !! q = heap s !! q)
  ∧ graph s' = graph s.
Proof.
  intros Hp Ho s'.
  assert (∀ (s0 : state) o0 u, heap s0 !! p = Some o0 → is_MetaProxy o0 = true →
          heap (MetaProxy_install_tensor_meta p u s0).2 !! p
            = Some (set_tensor_meta u o0)
          ∧ is_MetaProxy (set_tensor_meta u o0) = true
          ∧ tensor_meta_of (set_tensor_meta u o0) = Some u) as Hinst.
  { intros s0 o0 u Hp0 Ho0. simpl. rewrite list_lookup_alter_eq, Hp0.
    by destruct o0. }
  assert (∀ (s1 : state) o1 u, heap s1 !! p = Some o1 → is_MetaProxy o1 = true →
          tensor_meta_of o1 = Some u → proxys_to_metas (VProxy p) s1 = (Ok u, s1))
    as Hread.
  { intros s1 o1 u Hp1 Ho1 Hm1. unfold proxys_to_metas, deref, bind.
    by rewrite Hp1, Ho1, Hm1. }
  destruct (Hinst s o v Hp Ho) as (Hp' & Ho' & Hm').
  split; [by eapply Hread|]. split.
  { unfold MetaProxy_getattr. rewrite bool_decide_eq_true_2 by done.
    unfold deref, bind. subst s'. by rewrite Hp', Hm'. }
  split.
  { intros w s''. destruct (Hinst s' _ w Hp' Ho') as (Hp'' & Ho'' & Hm'').
    by eapply Hread. }
  split; [|done].
  intros q Hq. subst s'. simpl. by rewrite list_lookup_alter_ne.
Qed.

(** ** Inserting modules *)

Lemma insert_loop_free attrs mod_name fuel :
  ∀ idx path p,
    insert_loop fuel attrs mod_name idx path = Some p → hasattr_root attrs p = false.
Proof.
  induction fuel as [|fuel IH]; intros idx path p; simpl.
  - destruct (hasattr_root attrs path) eqn:Hpath; [done|]. by intros [= <-].
  - destruct (hasattr_root attrs path) eqn:Hpath; [apply IH|]. by intros [= <-].
Qed.

Lemma insert_loop_suffixed attrs mod_name fuel :
  ∀ idx path p,
    insert_loop fuel attrs mod_name idx path = Some p →
    p = path ∨ ∃ i, p = suffixed mod_name i.
Proof.
  induction fuel as [|fuel IH]; intros idx path p; simpl.
  - destruct (hasattr_root attrs path); [done|]. intros [= <-]. by left.
  - destruct (hasattr_root attrs path).
    + intros H. right. destruct (IH _ _ _ H) as [-> | ?]; eauto.
    + intros [= <-]. by left.
Qed.

Lemma insert_module_unfold fuel md s path s' :
  _insert_module_as_submodule fuel md s = Some (Ok path, s') →
  insert_loop fuel (root_attrs s) (lower (class_name md)) 0
    (suffixed (lower (class_name md)) 0) = Some path
  ∧ s' = set_root_attrs (<[path := Some md]>) s.
Proof.
  unfold _insert_module_as_submodule.
  destruct (insert_loop _ _ _ _ _) as [p|]; [|done].
  by intros [= <- <-].
Qed.

(** X19.  With fuel above the number of attributes of the root,
    [_insert_module_as_submodule] returns a name (it never raises and the
    loop ends); the name is the lower-cased class name with the least
    numeric suffix that was no attribute of the root; afterwards it is
    bound to the module, every other attribute of the root is as before,
    and nothing but the root has changed. *)
Theorem insert_module_registers fuel md s :
  size (root_attrs s) < fuel →
  ∃ path i,
    let s' := set_root_attrs (<[path := Some md]>) s in
    _insert_module_as_submodule fuel md s = Some (Ok path, s')
    ∧ path = suffixed (lower (class_name md)) i
    ∧ (∀ j, j < i → is_Some (root_attrs s !! suffixed (lower (class_name md)) j))
    ∧ root_attrs s !! path = None
    ∧ root_attrs s' !! path = Some (Some md)
    ∧ (∀ k, k ≠ path → root_attrs s' !! k = root_attrs s !! k)
    ∧ graph s' = graph s ∧ heap s' = heap s ∧ torch s' = torch s.
Proof.
  intros Hfuel.
  destruct (least_false (λ t, hasattr_root (root_attrs s)
                                (suffixed (lower (class_name md)) t))
              (size (root_attrs s)) (some_suffix_free _ _))
    as (i & Hi & Hfree & Hused).
  exists (suffixed (lower (class_name md)) i), i. intros s'.
  split; [|split; [done|split; [|split; [|split; [|split; [|done]]]]]].
  - unfold _insert_module_as_submodule.
    rewrite (insert_loop_least _ _ i) by (done || lia). done.
  - intros j Hj. specialize (Hused j Hj). unfold hasattr_root in Hused.
    by apply bool_decide_eq_true in Hused.
  - unfold hasattr_root in Hfree. apply bool_decide_eq_false in Hfree.
    by apply eq_None_not_Some.
  - subst s'. simpl. by rewrite lookup_insert_eq.
  - intros k Hk. subst s'. simpl. by rewrite lookup_insert_ne.
Qed.

(** X20.  Two insertions, one after the other, never return the same
    name, whatever the classes of the two modules: after both, each name
    is bound to its module. *)
Theorem insert_module_twice fuel1 fuel2 md1 md2 s p1 s1 p2 s2 :
  _insert_module_as_submodule fuel1 md1 s = Some (Ok p1, s1) →
  _insert_module_as_submodule fuel2 md2 s1 = Some (Ok p2, s2) →
  p1 ≠ p2
  ∧ root_attrs s2 !! p1 = Some (Some md1)
  ∧ root_attrs s2 !! p2 = Some (Some md2).
Proof.
  intros [H1 ->]%insert_module_unfold [H2 ->]%insert_module_unfold.
  apply insert_loop_free in H2. simpl in H2.
  assert (p1 ≠ p2) as Hne.
  { intros <-. unfold hasattr_root in H2. apply bool_decide_eq_false in H2.
    apply H2. rewrite lookup_insert_eq. by eexists. }
  split; [done|]. simpl. split.
  - rewrite lookup_insert_ne by done. by rewrite lookup_insert_eq.
  - by rewrite lookup_insert_eq.
Qed.

(** ** The trace: what is patched, when, and what comes back *)

Lemma state_eta s : set_next_fn (λ _, next_fn s) s = s.
Proof. by destruct s. Qed.

(** Building the dictionary of wrappers changes nothing but the counter
    of function objects.  It raises an [AttributeError] when a name is
    missing from [torch]; otherwise every entry pairs a new function with
    the function its name is bound to. *)
Lemma mapM_patch_entry_full names :
  ∀ s r s', mapM patch_entry names s = (r, s') →
    (∃ n', s' = set_next_fn (λ _, n') s)
    ∧ match r with
      | Ok patched =>
          patched.*1 = names
          ∧ Forall (λ item : string * (value * value),
                      ∃ id, item.2.1 = VWrapper id item.2.2
                            ∧ torch s !! item.1 = Some item.2.2) patched
      | Raise e =>
          exn_kind_of e = AttributeError
          ∧ ∃ name, name ∈ names ∧ torch s !! name = None
      end.
Proof.
  induction names as [|name names IH]; intros s r s'.
  - intros [= <- <-]. split; [|done]. exists (next_fn s). by rewrite state_eta.
  - rewrite mapM_cons. unfold bind at 1.
    unfold patch_entry at 1. unfold bind at 1. unfold getattr_torch at 1.
    destruct (torch s !! name) as [orig|] eqn:Horig.
    + unfold bind at 1. unfold gen_constructor_wrapper at 1. unfold ret at 1.
      unfold bind at 1.
      destruct (mapM patch_entry names (set_next_fn S s)) as [r1 s1] eqn:Hrest.
      destruct (IH _ _ _ Hrest) as [[n' ->] Hr].
      destruct r1 as [patched|e]; intros [= <- <-].
      * split; [by exists n'|]. destruct Hr as [Hn HF].
        split; [by rewrite fmap_cons, Hn|].
        constructor; [by eexists|done].
      * split; [by exists n'|]. destruct Hr as [He (nm & Hnm & Hmiss)].
        split; [done|]. exists nm. split; [|done]. rewrite elem_of_cons. by right.
    + intros [= <- <-]. split; [exists (next_fn s); by rewrite state_eta|].
      split; [done|]. exists name. split; [|done]. rewrite elem_of_cons. by left.
Qed.

(** The loop of lines 156-158, from a state in which [orig_fns] is set. *)
Lemma for_each_patch_one_full patched :
  ∀ s fns, orig_fns s = Some fns →
    ∃ fns',
      for_each patch_one patched s
        = (Ok tt,
           set_orig_fns (Some fns')
             (set_torch (λ t, foldl (λ t item, <[item.1 := item.2.1]> t) t patched) s))
      ∧ (∀ v, existsb (value_eqb v) fns = true → existsb (value_eqb v) fns' = true)
      ∧ Forall (λ item : string * (value * value),
                  existsb (value_eqb item.2.2) fns' = true) patched.
Proof.
  assert (∀ v l, existsb (value_eqb v) (set_add v l) = true) as Hadd.
  { intros v l. unfold set_add. destruct (existsb (value_eqb v) l) eqn:Hl; [done|].
    rewrite existsb_app, Hl. simpl. rewrite orb_false_r. by apply value_eqb_eq. }
  assert (∀ v u l, existsb (value_eqb v) l = true →
                   existsb (value_eqb v) (set_add u l) = true) as Hmono.
  { intros v u l Hl. unfold set_add. destruct (existsb (value_eqb u) l); [done|].
    by rewrite existsb_app, Hl. }
  induction patched as [|[name [w orig]] patched IH]; intros s fns Hfns.
  - exists fns. split; [|split; [done|done]].
    simpl. unfold ret. f_equal. destruct s; simpl in *. by rewrite Hfns.
  - destruct (IH (set_orig_fns (Some (set_add orig fns))
                    (set_torch (<[name := w]>) s)) (set_add orig fns) eq_refl)
      as (fns' & Hrun & Hkeep & Hall).
    exists fns'. split; [|split].
    + cbn [for_each]. unfold bind at 1. unfold patch_one at 1, setattr_torch.
      unfold bind at 1. unfold modify at 1. unfold bind at 1.
      unfold getattr_self at 1. cbn [orig_fns set_torch]. rewrite Hfns.
      unfold modify at 1. rewrite Hrun. done.
    + intros v Hv. by apply Hkeep, Hmono.
    + constructor; [|done]. simpl. apply Hkeep, Hadd.
Qed.

Lemma patched_lookup_other (patched : list (string * (value * value))) :
  ∀ (t : gmap string value) name,
    name ∉ patched.*1 →
    foldl (λ t item, <[item.1 := item.2.1]> t) t patched !! name = t !! name.
Proof.
  induction patched as [|item patched IH]; intros t name Hname; [done|].
  rewrite fmap_cons, not_elem_of_cons in Hname. destruct Hname as [Hne Hnin].
  simpl. rewrite IH by done. by rewrite lookup_insert_ne.
Qed.

Lemma patched_lookup_entry (patched : list (string * (value * value))) :
  NoDup patched.*1 →
  ∀ (t : gmap string value) item,
    item ∈ patched →
    foldl (λ t item, <[item.1 := item.2.1]> t) t patched !! item.1 = Some item.2.1.
Proof.
  induction patched as [|x patched IH]; intros Hnd t item Hin.
  - by apply elem_of_nil in Hin.
  - rewrite fmap_cons in Hnd. apply NoDup_cons in Hnd as [Hx Hnd].
    apply elem_of_cons in Hin as [-> | Hin]; simpl.
    + rewrite patched_lookup_other by done. by rewrite lookup_insert_eq.
    + by apply IH.
Qed.

Lemma for_each_restore_one_frame patched :
  ∀ s, ∃ s', for_each restore_one patched s = (Ok tt, s')
    ∧ graph s' = graph s ∧ heap s' = heap s ∧ warnings s' = warnings s.
Proof.
  induction patched as [|[name [w orig]] patched IH]; intros s.
  - by exists s.
  - destruct (IH (set_torch (<[name := orig]>) s)) as (s' & Hs' & Hg & Hh & Hw).
    exists s'. split; [|done]. cbn [for_each].
    by unfold bind, restore_one, setattr_torch, modify.
Qed.

Lemma NoDup_TORCH_METHODS_TO_PATCH : NoDup _TORCH_METHODS_TO_PATCH.
Proof. apply (bool_decide_unpack _). by vm_compute. Qed.

Section trace_outcomes.

Variable Tracer_trace : value → option value → T value.

Local Abbreviation trace_ := (trace Tracer_trace).

(** X21.  When the metadata inputs are a dictionary and the five
    constructors exist in [torch], [trace] starts the underlying trace in
    a state where the metadata inputs are stored, each of the five names
    is bound to a new wrapper of the function it was bound to, that
    function is in [orig_fns], and nothing else of [torch], the graph or
    the proxies has changed.  When the underlying trace leaves
    [patched_torch_methods] alone, [trace] returns or raises what the
    underlying trace returns or raises, with the graph, the proxies and
    the warnings it left. *)
Theorem trace_runs_patched root inputs concrete_args s :
  is_dict inputs = true →
  (∀ name, name ∈ _TORCH_METHODS_TO_PATCH → is_Some (torch s !! name)) →
  ∃ s4 fns,
    meta_args s4 = Some inputs ∧ orig_fns s4 = Some fns
    ∧ graph s4 = graph s ∧ heap s4 = heap s ∧ warnings s4 = warnings s
    ∧ root_attrs s4 = root_attrs s
    ∧ (∀ name, name ∈ _TORCH_METHODS_TO_PATCH →
         ∃ id orig, torch s !! name = Some orig
                    ∧ torch s4 !! name = Some (VWrapper id orig)
                    ∧ existsb (value_eqb orig) fns = true)
    ∧ (∀ k, k ∉ _TORCH_METHODS_TO_PATCH → torch s4 !! k = torch s !! k)
    ∧ (patched_torch_methods (Tracer_trace root concrete_args s4).2
         = patched_torch_methods s4 →
       let r := trace_ root inputs concrete_args s in
       let u := Tracer_trace root concrete_args s4 in
       r.1 = u.1 ∧ graph r.2 = graph u.2 ∧ heap r.2 = heap u.2
       ∧ warnings r.2 = warnings u.2).
Proof.
  intros Hdict Hbound.
  set (s1 := set_meta_args (Some inputs) s).
  destruct (mapM patch_entry _TORCH_METHODS_TO_PATCH s1) as [r2 s2] eqn:Hpatch.
  destruct (mapM_patch_entry_full _ _ _ _ Hpatch) as [[n' ->] Hr2].
  destruct r2 as [patched|e]; cycle 1.
  { destruct Hr2 as [_ (name & Hname & Hmiss)].
    destruct (Hbound name Hname) as [orig Horig]. simpl in Hmiss. congruence. }
  destruct Hr2 as [Hnames HF].
  set (s3 := set_orig_fns (Some [])
               (set_patched_torch_methods (Some patched)
                  (set_next_fn (λ _, n') s1))).
  destruct (for_each_patch_one_full patched s3 [] eq_refl)
    as (fns & Hloop & _ & Hfns).
  set (s4 := set_orig_fns (Some fns) (set_torch _ s3)) in Hloop.
  assert (trace_ root inputs concrete_args s
          = try_finally (Tracer_trace root concrete_args)
              (patched <~ getattr_self patched_torch_methods "patched_torch_methods" ;;
               for_each restore_one patched) s4) as Htrace.
  { unfold trace. unfold bind at 1. rewrite Hdict. simpl assert. cbv beta iota.
    unfold ret at 1. unfold bind at 1. unfold modify at 1. fold s1.
    unfold bind at 1. rewrite Hpatch.
    unfold bind at 1. unfold modify at 1. unfold bind at 1. unfold modify at 1.
    fold s3. unfold bind at 1. unfold getattr_self at 1.
    cbn [patched_torch_methods s3 set_orig_fns set_patched_torch_methods].
    unfold bind at 1. by rewrite Hloop. }
  exists s4, fns. repeat (split; [done|]).
  assert (NoDup patched.*1) as Hnd
    by (rewrite Hnames; apply NoDup_TORCH_METHODS_TO_PATCH).
  split; [|split].
  - intros name Hname. rewrite <-Hnames in Hname.
    apply list_elem_of_fmap in Hname as (item & -> & Hitem).
    rewrite Forall_forall in HF. destruct (HF item Hitem) as (id & Hw & Horig).
    rewrite Forall_forall in Hfns. specialize (Hfns item Hitem).
    exists id, item.2.2. split; [exact Horig|]. split; [|done].
    subst s4. cbn [torch set_orig_fns set_torch].
    rewrite (patched_lookup_entry patched Hnd _ item Hitem). by rewrite Hw.
  - intros k Hk. subst s4. cbn [torch set_orig_fns set_torch].
    rewrite patched_lookup_other by (by rewrite Hnames). done.
  - intros Hframe r u. subst r u.
    destruct (Tracer_trace root concrete_args s4) as [ru su] eqn:Hu.
    cbn [fst snd] in *.
    destruct (for_each_restore_one_frame patched su) as (s6 & Hs6 & Hg & Hh & Hw).
    assert (trace_ root inputs concrete_args s = (ru, s6)) as ->; [|done].
    rewrite Htrace. unfold try_finally. rewrite Hu.
    unfold bind, getattr_self. rewrite Hframe.
    subst s4. cbn [patched_torch_methods s3 set_orig_fns set_torch
                   set_patched_torch_methods].
    by rewrite Hs6.
Qed.

(** X22.  When the metadata inputs are no dictionary, or one of the five
    constructors is missing from [torch], [trace] raises (an
    [AssertionError], an [AttributeError]) before anything is patched:
    [torch], the graph, the proxies and the registry of the tracer are as
    before, whatever the underlying trace would do. *)
Theorem trace_fails_before_patching root inputs concrete_args s :
  is_dict inputs = false
  ∨ (∃ name, name ∈ _TORCH_METHODS_TO_PATCH ∧ torch s !! name = None) →
  let r := trace_ root inputs concrete_args s in
  (∃ e, r.1 = Raise e
        ∧ (exn_kind_of e = AssertionError ∨ exn_kind_of e = AttributeError))
  ∧ torch r.2 = torch s ∧ graph r.2 = graph s ∧ heap r.2 = heap s
  ∧ warnings r.2 = warnings s
  ∧ patched_torch_methods r.2 = patched_torch_methods s
  ∧ orig_fns r.2 = orig_fns s.
Proof.
  intros Hbad r. subst r.
  assert (∃ e s', trace_ root inputs concrete_args s = (Raise e, s')
            ∧ (exn_kind_of e = AssertionError ∨ exn_kind_of e = AttributeError)
            ∧ (∃ n', s' = s ∨ s' = set_next_fn (λ _, n') (set_meta_args (Some inputs) s)))
    as (e & s' & -> & He & n' & Hs').
  { destruct (is_dict inputs) eqn:Hdict; cycle 1.
    { exists (Exn AssertionError ""), s. split; [|split; [by left|exists 0; by left]].
      unfold trace, bind. by rewrite Hdict. }
    destruct Hbad as [? | (name & Hname & Hmiss)]; [done|].
    set (s1 := set_meta_args (Some inputs) s).
    destruct (mapM patch_entry _TORCH_METHODS_TO_PATCH s1) as [r2 s2] eqn:Hpatch.
    destruct (mapM_patch_entry_full _ _ _ _ Hpatch) as [[n' ->] Hr2].
    destruct r2 as [patched|e].
    - exfalso. destruct Hr2 as [Hnames HF].
      rewrite <-Hnames in Hname.
      apply list_elem_of_fmap in Hname as (item & -> & Hitem).
      rewrite Forall_forall in HF. destruct (HF item Hitem) as (id & _ & Horig).
      simpl in Horig. congruence.
    - destruct Hr2 as [He _].
      exists e, (set_next_fn (λ _, n') s1).
      split; [|split; [by right|exists n'; by right]].
      unfold trace. rewrite (bind_Ok _ _ s tt s) by (by rewrite Hdict).
      rewrite (bind_Ok _ _ s tt s1) by done.
      by rewrite (bind_Raise _ _ _ _ _ Hpatch). }
  cbn [fst snd]. split; [by exists e|].
  by destruct Hs' as [-> | ->].
Qed.

End trace_outcomes.

(** ** The wrapper on the host of the examples *)

(** C5, refuted as stated: the wrapper of [zeros] called on proxy 0.  A
    proxy occurs among the arguments, and yet the original [zeros] is
    called, on the metadata of the proxy, the tensor 1.  It raises a
    [TypeError], and so does the wrapper: it returns no proxy. *)
Lemma wrapper_calls_target_on_metadata :
  let e := Exn TypeError "zeros(): argument 'size' must be tuple of ints" in
  let nd := Node "call_function" (VObj 21) [VProxy 0] [] None None in
  contains_proxy (VTuple [VProxy 0]) || contains_proxy (VDict []) = true
  ∧ metas_of (heap example_state_x) <$> [VProxy 0] = [VObj 1]
  ∧ example_call (VObj 21) [VObj 1] [] = Raise e
  ∧ example_wrapper (VObj 21) [VProxy 0] [] example_state_x
    = (Raise e, added nd None [] example_state_x).
Proof. repeat split; reflexivity. Qed.

(** C5 as amended, at a target that fails an assertion on the metadata
    of proxy 0: the wrapper returns the new proxy, which has no
    metadata, and the failure is reported in a warning. *)
Lemma wrapper_dispatch_witness :
  let nd := Node "call_function" (VObj 11) [VProxy 0] [] None None in
  example_wrapper (VObj 11) [VProxy 0] [] example_state_x
    = (Ok (VProxy 1),
       added nd None
         ["Could not compute metadata for target <object>: expected a contiguous tensor"]
         example_state_x).
Proof.
  intros nd.
  destruct (wrapper_dispatch example_call example_getattr_call example_str
              example_foreign_install (VObj 11) [VProxy 0] [] example_state_x)
    as [_ Hproxy].
  destruct (Hproxy eq_refl) as (_ & _ & _ & Houtcome).
  etrans; [apply (Houtcome example_orig_fns); reflexivity | reflexivity].
Defined.

(** ** The properties above on the host of the examples *)

(** X9 at the sum of the placeholder [z], which has no metadata, with
    itself. *)
Lemma replay_needs_metadata_witness :
  ∃ e, example_replay "call_function" (VObj 10) [VProxy 0; VProxy 0] [] (VProxy 1)
         example_state_z = (Raise e, example_state_z)
       ∧ (exn_kind_of e = AssertionError ∨ exn_kind_of e = ReferenceError).
Proof.
  apply (replay_needs_metadata example_call example_getattr_call
           example_foreign_install "call_function" (VObj 10) [VProxy 0; VProxy 0] []
           (VProxy 1) example_state_z).
  reflexivity.
Defined.

(** X10 at a tuple of a number and a string. *)
Lemma extraction_identity_witness :
  map_aggregate proxys_to_metas (VTuple [VInt 6; VStr "cpu"]) example_state_x
    = (Ok (VTuple [VInt 6; VStr "cpu"]), example_state_x).
Proof.
  apply (extraction_identity (VTuple [VInt 6; VStr "cpu"]) example_state_x).
  reflexivity.
Defined.

(** X11 at the sum of the placeholder [x] with itself: the new proxy
    carries the tensor 1. *)
Lemma create_proxy_call_function_installs_witness :
  example_create_proxy "call_function" (VObj 10) [VProxy 0; VProxy 0] [] None None None
      example_state_x
    = (Ok (VProxy 1),
       added (Node "call_function" (VObj 10) [VProxy 0; VProxy 0] [] None None)
         (Some (VObj 1)) [] example_state_x).
Proof.
  apply (create_proxy_call_function_installs example_call example_getattr_call
           example_str example_foreign_install (VObj 10) [VProxy 0; VProxy 0] [] None
           None example_state_x example_orig_fns (VObj 1)); reflexivity.
Defined.

(** X12 at [x.view(6)]: the new proxy carries the tensor 4, of shape
    (6,). *)
Lemma create_proxy_call_method_installs_witness :
  example_create_proxy "call_method" (VStr "view") [VProxy 0; VInt 6] [] None None None
      example_state_x
    = (Ok (VProxy 1),
       added (Node "call_method" (VStr "view") [VProxy 0; VInt 6] [] None None)
         (Some (VObj 4)) [] example_state_x).
Proof.
  apply (create_proxy_call_method_installs example_call example_getattr_call
           example_str example_foreign_install "view" (VProxy 0) [VInt 6] [] None None
           example_state_x example_orig_fns (VObj 4)); reflexivity.
Defined.

(** X13 at a leaf module [fc] whose forward, the function 12, returns its
    first argument. *)
Lemma call_module_replays_forward_witness :
  call_module
      (λ _ _ a k, example_create_proxy "call_module" (VStr "fc") a k None None None)
      example_relu (VObj 12) [VProxy 0] [] example_state_x
    = (Ok (VProxy 1),
       added (Node "call_module" (VStr "fc") [VProxy 0] [] None None) (Some (VObj 1)) []
         (set_orig_forward (Some (VObj 12)) example_state_x)).
Proof.
  apply (call_module_replays_forward example_call example_getattr_call example_str
           example_foreign_install example_relu (VObj 12) (VStr "fc") [VProxy 0] []
           example_state_x example_orig_fns (VObj 1)); reflexivity.
Defined.

(** X14 at a [call_module] request made before any [call_module]. *)
Lemma create_proxy_call_module_without_forward_witness :
  example_create_proxy "call_module" (VStr "fc") [VProxy 0] [] None None None
      example_state_x
    = (Ok (VProxy 1),
       added (Node "call_module" (VStr "fc") [VProxy 0] [] None None) None
         [warning_text example_str (VStr "fc") (Exn AssertionError "")]
         example_state_x).
Proof.
  apply (create_proxy_call_module_without_forward example_call example_getattr_call
           example_str example_foreign_install (VStr "fc") [VProxy 0] [] None None
           example_state_x example_orig_fns); reflexivity.
Defined.

(** X15 at the placeholder [z], which is no metadata input. *)
Lemma create_proxy_unbound_placeholder_witness :
  example_create_proxy "placeholder" (VStr "z") [] [] None None None example_state
    = (Ok (VProxy 0),
       added (Node "placeholder" (VStr "z") [] [] None None) None [] example_state).
Proof.
  apply (create_proxy_unbound_placeholder example_call example_getattr_call example_str
           example_foreign_install (VStr "z") [] [] None None example_state
           example_meta_args example_orig_fns); reflexivity.
Defined.

(** X18 at the placeholder [z], on which the tensor 3 is installed. *)
Lemma install_then_extract_witness :
  let s' := (MetaProxy_install_tensor_meta 0 (VObj 3) example_state_z).2 in
  proxys_to_metas (VProxy 0) s' = (Ok (VObj 3), s')
  ∧ MetaProxy_getattr 0 "_tensor_meta" s' = (Ok (VObj 3), s')
  ∧ (∀ w, let s'' := (MetaProxy_install_tensor_meta 0 w s').2 in
          proxys_to_metas (VProxy 0) s'' = (Ok w, s''))
  ∧ (∀ q, q ≠ 0 → heap s' !! q = heap example_state_z !! q)
  ∧ graph s' = graph example_state_z.
Proof.
  apply (install_then_extract example_state_z 0 (ObjMetaProxy 0 None) (VObj 3));
    reflexivity.
Defined.

(** X19 at a [ReLU] inserted under a root that has [relu_0] and [fc]. *)
Lemma insert_module_registers_witness :
  ∃ path i,
    let s' := set_root_attrs (<[path := Some example_relu]>) example_root_state in
    _insert_module_as_submodule 3 example_relu example_root_state = Some (Ok path, s')
    ∧ path = suffixed (lower (class_name example_relu)) i
    ∧ (∀ j, j < i →
         is_Some (root_attrs example_root_state
                    !! suffixed (lower (class_name example_relu)) j))
    ∧ root_attrs example_root_state !! path = None
    ∧ root_attrs s' !! path = Some (Some example_relu)
    ∧ (∀ k, k ≠ path → root_attrs s' !! k = root_attrs example_root_state !! k)
    ∧ graph s' = graph example_root_state ∧ heap s' = heap example_root_state
    ∧ torch s' = torch example_root_state.
Proof.
  apply (insert_module_registers 3 example_relu example_root_state).
  vm_compute. lia.
Defined.

(** X20 at two [ReLU] modules inserted one after the other: [relu_1],
    then [relu_2]. *)
Lemma insert_module_twice_witness :
  let s1 := set_root_attrs (<["relu_1" := Some example_relu]>) example_root_state in
  let s2 := set_root_attrs (<["relu_2" := Some (NNModule 8 "ReLU" [] [])]>) s1 in
  "relu_1" ≠ "relu_2"
  ∧ root_attrs s2 !! "relu_1" = Some (Some example_relu)
  ∧ root_attrs s2 !! "relu_2" = Some (Some (NNModule 8 "ReLU" [] [])).
Proof.
  intros s1 s2.
  apply (insert_module_twice 3 4 example_relu (NNModule 8 "ReLU" [] [])
           example_root_state "relu_1" s1 "relu_2" s2); reflexivity.
Defined.

(** X21 at the trace of the examples, started from a tracer that has not
    traced. *)
Lemma trace_runs_patched_witness :
  ∃ s4 fns,
    meta_args s4 = Some example_meta_args ∧ orig_fns s4 = Some fns
    ∧ graph s4 = graph example_idle_state ∧ heap s4 = heap example_idle_state
    ∧ warnings s4 = warnings example_idle_state
    ∧ root_attrs s4 = root_attrs example_idle_state
    ∧ (∀ name, name ∈ _TORCH_METHODS_TO_PATCH →
         ∃ id orig, torch example_idle_state !! name = Some orig
                    ∧ torch s4 !! name = Some (VWrapper id orig)
                    ∧ existsb (value_eqb orig) fns = true)
    ∧ (∀ k, k ∉ _TORCH_METHODS_TO_PATCH → torch s4 !! k = torch example_idle_state !! k)
    ∧ (patched_torch_methods (example_trace (VObj 30) None s4).2
         = patched_torch_methods s4 →
       let r := trace example_trace (VObj 30) example_meta_args None example_idle_state in
       let u := example_trace (VObj 30) None s4 in
       r.1 = u.1 ∧ graph r.2 = graph u.2 ∧ heap r.2 = heap u.2
       ∧ warnings r.2 = warnings u.2).
Proof.
  apply (trace_runs_patched example_trace (VObj 30) example_meta_args None
           example_idle_state); [reflexivity|].
  intros name. unfold _TORCH_METHODS_TO_PATCH. rewrite !elem_of_cons, elem_of_nil.
  intros [->|[->|[->|[->|[->|[]]]]]]; by eexists.
Defined.

(** X22 at a [torch] from which [eye] was deleted. *)
Lemma trace_fails_before_patching_witness :
  let s := set_torch (delete "eye") example_idle_state in
  let r := trace example_trace (VObj 30) example_meta_args None s in
  (∃ e, r.1 = Raise e
        ∧ (exn_kind_of e = AssertionError ∨ exn_kind_of e = AttributeError))
  ∧ torch r.2 = torch s ∧ graph r.2 = graph s ∧ heap r.2 = heap s
  ∧ warnings r.2 = warnings s
  ∧ patched_torch_methods r.2 = patched_torch_methods s
  ∧ orig_fns r.2 = orig_fns s.
Proof.
  intros s.
  apply (trace_fails_before_patching example_trace (VObj 30) example_meta_args None s).
  right. exists "eye". split; [|reflexivity].
  unfold _TORCH_METHODS_TO_PATCH. rewrite !elem_of_cons. by do 4 right; left.
Defined.

(** X23 at the placeholder [z], which has no metadata, and the
    dimension 1. *)
Lemma MetaProxy_size_dim_without_meta_witness :
  let missing := Exn AssertionError "MetaProxy does not have an associated meta" in
  example_size 0 (Some 1%Z) example_state_z
    = (Ok (VProxy 1),
       added (Node "call_method" (VStr "size") [VProxy 0; VInt 1] [] None None) None
         [warning_text example_str (VStr "size") missing] example_state_z)
  ∧ example_dim 0 example_state_z
    = (Ok (VProxy 1),
       added (Node "call_method" (VStr "dim") [VProxy 0] [] None None) None
         [warning_text example_str (VStr "dim") missing] example_state_z).
Proof.
  apply (MetaProxy_size_dim_without_meta example_call example_getattr_call example_str
           example_foreign_install example_state_z 0 (ObjMetaProxy 0 None)
           (Some 1%Z) example_orig_fns); reflexivity.
Defined.

(** X24 at a [get_attr] request for a parameter. *)
Lemma create_proxy_unsupported_kind_witness :
  example_create_proxy "get_attr" (VStr "weight") [] [] None None None example_state_x
    = (Ok (VProxy 1),
       added (Node "get_attr" (VStr "weight") [] [] None None) None
         [warning_text example_str (VStr "weight")
            (Exn AssertionError "Unsupported node kind get_attr")] example_state_x).
Proof.
  apply (create_proxy_unsupported_kind example_call example_getattr_call example_str
           example_foreign_install "get_attr" (VStr "weight") [] [] None None
           example_state_x example_orig_fns); [|reflexivity..].
  rewrite !not_elem_of_cons. repeat split; try discriminate. apply not_elem_of_nil.
Defined.

(** X25 at [zeros(4, device='cpu', out=x)] through the wrapper: the new
    proxy carries the tensor 2, which [zeros] makes on the device
    ['meta']. *)
Lemma wrapper_replays_on_meta_device_witness :
  example_wrapper (VObj 21) [VInt 4] [("device", VStr "cpu"); ("out", VProxy 0)]
      example_state_x
    = (Ok (VProxy 1),
       added (Node "call_function" (VObj 21) [VInt 4]
                [("device", VStr "cpu"); ("out", VProxy 0)] None None)
         (Some (VObj 2)) [] example_state_x).
Proof.
  apply (wrapper_replays_on_meta_device example_call example_getattr_call example_str
           example_foreign_install (VObj 21) [VInt 4]
           [("device", VStr "cpu"); ("out", VProxy 0)] example_state_x example_orig_fns
           (VStr "cpu") (VObj 2)); reflexivity.
Defined.

(** X26 at [x.view(6)]. *)
Lemma MetaAttribute_method_call_witness :
  ∃ a s1,
    MetaProxy_getattr 0 "view" example_state_x = (Ok (VProxy a), s1)
    ∧ graph s1 = graph example_state_x
    ∧ let r := example_attr_call a [VInt 6] [] s1 in
      r.1 = Ok (VProxy (S (length (heap example_state_x))))
      ∧ graph r.2
        = graph example_state_x
          ++ [Node "call_method" (VStr "view") [VProxy 0; VInt 6] [] None None]
      ∧ heap r.2
        = heap example_state_x
          ++ [ObjMetaAttribute 0 "view" None None;
              ObjMetaProxy (length (graph example_state_x)) (Some (VObj 4))]
      ∧ warnings r.2 = warnings example_state_x.
Proof.
  apply (MetaAttribute_method_call example_call example_getattr_call example_str
           example_foreign_install 0 "view" [VInt 6] [] example_state_x
           example_orig_fns (VObj 4)); [discriminate | reflexivity..].
Defined.
